(** * Data synchronisation and fallback layer of the timetable dashboard

    A shallow embedding of three classes of the front end:
    - [APIClient]          (apiClient.js):   the Remote Gateway;
    - [StorageManager]     (storage.js):     mode arbitration and the
      accessors over the Remote Gateway and the Durable Local Store;
    - [APIStorageAdapter]  (storage_api.js): the per-entity cache.

    JavaScript values are an inductive type, [localStorage] is a finite map
    from keys to stored texts, and every method is a computation in a small
    state-and-exception monad over the browser world it runs in. What the
    outside world decides (whether [window.apiClient] exists yet, what a
    [fetch] answers, what the gateway replies) is read from oracles carried
    by the world. *)

From stdpp Require Import gmap strings list pretty.
From Equations Require Import Equations.

Set Warnings "-register-all".

Open Scope string_scope.
Open Scope Z_scope.

(** ** JavaScript values *)

(** Numbers are integers (identifiers, HTTP statuses and timestamps are);
    an object is its list of own properties in insertion order (the order
    in which JavaScript enumerates them when no key is an array index). *)
Inductive value : Type :=
| VUndef
| VNull
| VBool (b : bool)
| VNum (n : Z)
| VStr (s : string)
| VArr (l : list value)
| VObj (o : list (string * value)).

Inductive exn_kind : Type := Error | TypeError | SyntaxError.

(** A thrown error object: its constructor and its [message]. *)
Record exn : Type := Exn { kind : exn_kind; message : string }.

Inductive outcome (A : Type) : Type :=
| Ok (a : A)
| Throw (e : exn).
Arguments Ok {A} a.
Arguments Throw {A} e.

Definition truthy (v : value) : bool :=
  match v with
  | VUndef | VNull => false
  | VBool b => b
  | VNum n => negb (n =? 0)
  | VStr s => negb (String.eqb s "")
  | VArr _ | VObj _ => true
  end.

(** [a === b]. Two objects or arrays are equal only when they are the same
    reference; the values compared by this code are a freshly parsed or
    received record field and a caller's argument, which never share one. *)
Definition strict_eq (a b : value) : bool :=
  match a, b with
  | VUndef, VUndef => true
  | VNull, VNull => true
  | VBool x, VBool y => Bool.eqb x y
  | VNum x, VNum y => x =? y
  | VStr x, VStr y => String.eqb x y
  | _, _ => false
  end.

Fixpoint assoc (k : string) (o : list (string * value)) : option value :=
  match o with
  | [] => None
  | (k', v) :: o' => if String.eqb k k' then Some v else assoc k o'
  end.

(** [o[k] = v] on an object: an existing property keeps its place. *)
Fixpoint obj_set (k : string) (v : value) (o : list (string * value))
  : list (string * value) :=
  match o with
  | [] => [(k, v)]
  | (k', v') :: o' =>
      if String.eqb k k' then (k, v) :: o' else (k', v') :: obj_set k v o'
  end.

(** [v.k] for the named fields this code reads ([id], [error], [success],
    [data], [status], [timetable]); none of them is an index or [length].
    Reading a field of [undefined] or [null] raises a TypeError. *)
Definition field (v : value) (k : string) : outcome value :=
  match v with
  | VUndef =>
      Throw (Exn TypeError ("Cannot read properties of undefined (reading '" ++ k ++ "')"))
  | VNull =>
      Throw (Exn TypeError ("Cannot read properties of null (reading '" ++ k ++ "')"))
  | VObj o => Ok (default VUndef (assoc k o))
  | _ => Ok VUndef
  end.

Fixpoint chars (s : string) : list value :=
  match s with
  | EmptyString => []
  | String c s' => VStr (String c EmptyString) :: chars s'
  end.

(** The own enumerable properties copied by a spread [...v]. *)
Definition own_props (v : value) : list (string * value) :=
  match v with
  | VObj o => o
  | VArr l => imap (fun i x => (pretty i, x)) l
  | VStr s => imap (fun i x => (pretty i, x)) (chars s)
  | _ => []
  end.

(** [{ ...o, ...v }] where [o] holds the properties written so far. *)
Definition spread (o : list (string * value)) (v : value)
  : list (string * value) :=
  fold_left (fun acc kv => obj_set kv.1 kv.2 acc) (own_props v) o.

(** ** JSON texts *)

(** What [JSON.parse (JSON.stringify v)] keeps of [v]: an [undefined] array
    element becomes [null] and an [undefined] property is dropped. *)
Fixpoint jsonify (v : value) : value :=
  match v with
  | VArr l =>
      VArr (map (fun x => match x with VUndef => VNull | _ => jsonify x end) l)
  | VObj o =>
      VObj (flat_map (fun kv =>
                        match kv with
                        | (k, VUndef) => []
                        | (k, x) => [(k, jsonify x)]
                        end) o)
  | _ => v
  end.

(** A string kept in [localStorage]: [TJson v] is the serialisation of the
    JSON value [v], and [TRaw s] a string [s] that is not a JSON text (for
    instance the ["undefined"] that storing [JSON.stringify(undefined)]
    leaves, or the empty string). *)
Inductive text : Type :=
| TJson (v : value)
| TRaw (s : string).

Definition JSON_stringify (v : value) : text :=
  match v with
  | VUndef => TRaw "undefined"
  | _ => TJson (jsonify v)
  end.

Definition JSON_parse (t : text) : outcome value :=
  match t with
  | TJson v => Ok v
  | TRaw s => Throw (Exn SyntaxError ("Unexpected token in JSON: " ++ s))
  end.

(** Truthiness of what [localStorage.getItem] returns: [null] for a missing
    key and the empty string are falsy. *)
Definition text_truthy (d : option text) : bool :=
  match d with
  | None => false
  | Some (TJson _) => true
  | Some (TRaw s) => negb (String.eqb s "")
  end.

(** [String(v)], as [new Error(v)] applies it to its argument. *)
Fixpoint to_string (v : value) : string :=
  match v with
  | VUndef => "undefined"
  | VNull => "null"
  | VBool true => "true"
  | VBool false => "false"
  | VNum n => pretty n
  | VStr s => s
  | VArr l =>
      String.concat ","
        (map (fun x => match x with
                       | VUndef | VNull => ""
                       | _ => to_string x
                       end) l)
  | VObj _ => "[object Object]"
  end.

(** ** Array methods with a callback reading [.id] *)

Definition not_a_function (m : string) : exn :=
  Exn TypeError (m ++ " is not a function").

(** [xs.filter(f => f.id !== id)] on the elements of an array. *)
Fixpoint filter_id_ne (id : value) (xs : list value) : outcome (list value) :=
  match xs with
  | [] => Ok []
  | f :: xs' =>
      match field f "id" with
      | Throw e => Throw e
      | Ok fid =>
          match filter_id_ne id xs' with
          | Throw e => Throw e
          | Ok r => Ok (if strict_eq fid id then r else f :: r)
          end
      end
  end.

(** [c.filter(f => f.id !== id)]: [c] has a [filter] method only when it is
    an array. *)
Definition array_filter_id_ne (c id : value) : outcome value :=
  match c with
  | VArr xs =>
      match filter_id_ne id xs with
      | Ok r => Ok (VArr r)
      | Throw e => Throw e
      end
  | VUndef | VNull =>
      match field c "filter" with Throw e => Throw e | Ok _ => Throw (not_a_function "filter") end
  | _ => Throw (not_a_function "filter")
  end.

(** [xs.findIndex(r => r.id === id)]; [None] stands for [-1]. *)
Fixpoint findIndex_id (id : value) (xs : list value) : outcome (option nat) :=
  match xs with
  | [] => Ok None
  | r :: xs' =>
      match field r "id" with
      | Throw e => Throw e
      | Ok rid =>
          if strict_eq rid id then Ok (Some 0%nat)
          else match findIndex_id id xs' with
               | Throw e => Throw e
               | Ok i => Ok (S <$> i)
               end
      end
  end.

(** [c.push(x)], returning the array after the push. *)
Definition array_push (c x : value) : outcome value :=
  match c with
  | VArr xs => Ok (VArr (xs ++ [x]))
  | VUndef | VNull =>
      match field c "push" with Throw e => Throw e | Ok _ => Throw (not_a_function "push") end
  | _ => Throw (not_a_function "push")
  end.

(** [s.includes(sub)]. *)
Fixpoint includes (sub s : string) : bool :=
  String.prefix sub s ||
  match s with
  | EmptyString => false
  | String _ s' => includes sub s'
  end.

(** ** Computations: state and exceptions *)

(** A method body run in a world of type [W]: it returns or throws, and
    leaves a world behind either way. [await] is sequencing. *)
Definition Js (W A : Type) : Type := W -> outcome A * W.

#[global] Instance Js_ret {W} : MRet (Js W) := fun A a w => (Ok a, w).

#[global] Instance Js_bind {W} : MBind (Js W) := fun A B k c w =>
  match c w with
  | (Ok a, w') => k a w'
  | (Throw e, w') => (Throw e, w')
  end.

Definition throw {W A} (e : exn) : Js W A := fun w => (Throw e, w).

(** [try { c } catch (error) { h error }]. *)
Definition try_catch {W A} (c : Js W A) (h : exn -> Js W A) : Js W A :=
  fun w =>
    match c w with
    | (Ok a, w') => (Ok a, w')
    | (Throw e, w') => h e w'
    end.

(** An expression that may raise, evaluated without touching the world. *)
Definition lift {W A} (r : outcome A) : Js W A := fun w => (r, w).

Definition gets {W A} (f : W -> A) : Js W A := fun w => (Ok (f w), w).

Definition modify {W} (f : W -> W) : Js W unit := fun w => (Ok tt, f w).

(** ** The browser world *)

(** One HTTP request as handed to [fetch]. The headers are the same constant
    on every request and are left out. *)
Record Request : Type := { url : string; method : string; body : option text }.

(** What [fetch] followed by [response.json()] can give: a rejected fetch,
    or a response with its status and what [response.json()] makes of its
    body: the value parsed, or the error it rejects with (the parser's
    SyntaxError, whose message quotes the body, when the body is not JSON). *)
Inductive FetchAnswer : Type :=
| NetworkError (msg : string)
| Response (status : Z) (json : outcome value).

(** The part of the world this code does not control. [apiClientAt t] is
    [window.apiClient] at time [t] (milliseconds of timer waits since the
    page loaded): [None] while the gateway script has not run, [Some b] once
    the object exists, [b] being its [initialized] flag. [fetchAnswer n r]
    is the answer to request [r] when [n] requests were issued before it. *)
Record Env : Type := {
  apiClientAt : nat -> option bool;
  fetchAnswer : nat -> Request -> FetchAnswer
}.

(** The fields of the [StorageManager] instance. *)
Record Manager : Type := {
  useLocalStorage : bool;
  localStoragePrefix : string;
  initialized : bool;
  apiAvailable : bool
}.

Record World : Type := {
  env : Env;
  this : Manager;
  localStorage : gmap string text;
  clock : nat;
  requests : list Request
}.

Definition set_this (f : Manager -> Manager) (w : World) : World :=
  {| env := env w; this := f (this w); localStorage := localStorage w;
     clock := clock w; requests := requests w |}.

Definition set_localStorage (f : gmap string text -> gmap string text)
  (w : World) : World :=
  {| env := env w; this := this w; localStorage := f (localStorage w);
     clock := clock w; requests := requests w |}.

Definition set_clock (f : nat -> nat) (w : World) : World :=
  {| env := env w; this := this w; localStorage := localStorage w;
     clock := f (clock w); requests := requests w |}.

Definition set_requests (f : list Request -> list Request) (w : World) : World :=
  {| env := env w; this := this w; localStorage := localStorage w;
     clock := clock w; requests := f (requests w) |}.

(** [window.apiClient], now. *)
Definition window_apiClient (w : World) : option bool :=
  apiClientAt (env w) (clock w).

(** [await new Promise(resolve => setTimeout(resolve, interval))]. *)
Definition sleep (interval : nat) : Js World unit :=
  modify (set_clock (fun t => (t + interval)%nat)).

Definition getItem (key : string) : Js World (option text) :=
  gets (fun w => localStorage w !! key).

Definition setItem (key : string) (t : text) : Js World unit :=
  modify (set_localStorage (insert key t)).

(** ** The Remote Gateway: apiClient.js *)

Module APIClient.

Definition baseURL : string := "http://localhost:5000/api".

Record Options : Type := { opt_method : option string; opt_body : option text }.

Definition no_options : Options := {| opt_method := None; opt_body := None |}.

(** [{ method: m, body: JSON.stringify(v) }]; [JSON.stringify(undefined)] is
    [undefined], which is no body. *)
Definition with_body (m : string) (v : value) : Options :=
  {| opt_method := Some m;
     opt_body := match v with VUndef => None | _ => Some (JSON_stringify v) end |}.

(** The request [fetch(url, config)] sends; [GET] is the default method. *)
Definition request_of (u : string) (o : Options) : Request :=
  {| url := u; method := default "GET" (opt_method o); body := opt_body o |}.

(** [await fetch(url, config)]: the request is recorded, and a network
    error rejects with a TypeError. *)
Definition fetch (u : string) (o : Options) : Js World (Z * outcome value) :=
  fun w =>
    let r := request_of u o in
    let w' := set_requests (fun rs => (rs ++ [r])%list) w in
    match fetchAnswer (env w) (length (requests w)) r with
    | NetworkError msg => (Throw (Exn TypeError msg), w')
    | Response st j => (Ok (st, j), w')
    end.

(** [await response.json()]: the parsed body, or the rejection. *)
Definition response_json (j : outcome value) : outcome value := j.

(** [response.ok]. *)
Definition response_ok (st : Z) : bool := (200 <=? st) && (st <=? 299).

(** [new Error(a || b)]. *)
Definition new_Error (a : value) (b : string) : exn :=
  Exn Error (if truthy a then to_string a else b).

Definition makeRequest (endpoint : string) (options : Options) : Js World value :=
  let url := baseURL ++ endpoint in
  try_catch
    ('(st, j) ← fetch url options;
     data ← lift (response_json j);
     (if negb (response_ok st) then
        err ← lift (field data "error");
        throw (new_Error err ("HTTP error! status: " ++ pretty st))
      else mret tt);;
     success ← lift (field data "success");
     (if negb (truthy success) then
        err ← lift (field data "error");
        throw (new_Error err "API request failed")
      else mret tt);;
     payload ← lift (field data "data");
     mret (match payload with VUndef => data | _ => payload end))
    (fun error => throw error).

Definition getFaculty : Js World value := makeRequest "/faculty" no_options.

Definition addFaculty (facultyData : value) : Js World value :=
  id ← makeRequest "/faculty" (with_body "POST" facultyData);
  mret (VObj (spread [("id", id)] facultyData)).

Definition removeFaculty (id : value) : Js World value :=
  makeRequest ("/faculty/" ++ to_string id)
    {| opt_method := Some "DELETE"; opt_body := None |}.

Definition getRooms : Js World value := makeRequest "/rooms" no_options.

Definition addRoom (roomData : value) : Js World value :=
  id ← makeRequest "/rooms" (with_body "POST" roomData);
  mret (VObj (spread [("id", id)] roomData)).

Definition removeRoom (id : value) : Js World value :=
  makeRequest ("/rooms/" ++ to_string id)
    {| opt_method := Some "DELETE"; opt_body := None |}.

Definition getSubjects : Js World value := makeRequest "/subjects" no_options.

Definition addSubject (subjectData : value) : Js World value :=
  id ← makeRequest "/subjects" (with_body "POST" subjectData);
  mret (VObj (spread [("id", id)] subjectData)).

Definition removeSubject (id : value) : Js World value :=
  makeRequest ("/subjects/" ++ to_string id)
    {| opt_method := Some "DELETE"; opt_body := None |}.

Definition getLeaveRequests : Js World value :=
  makeRequest "/leave-requests" no_options.

(** [iso] is what [new Date().toISOString()] gives during the call. *)
Definition addLeaveRequest (iso : string) (leaveData : value) : Js World value :=
  faculty ← lift (field leaveData "faculty");
  faculty_name ← (if truthy faculty then mret faculty
                  else lift (field leaveData "faculty_name"));
  date ← lift (field leaveData "date");
  period ← lift (field leaveData "period");
  reason ← lift (field leaveData "reason");
  let backendData :=
    VObj [("faculty", faculty_name); ("date", date);
          ("period", period); ("reason", reason)] in
  id ← makeRequest "/leave-requests" (with_body "POST" backendData);
  mret (VObj (obj_set "created_at" (VStr iso)
                (obj_set "status" (VStr "pending")
                   (spread [("id", id)] leaveData)))).

Definition updateLeaveRequest (id updates : value) : Js World value :=
  makeRequest ("/leave-requests/" ++ to_string id) (with_body "PUT" updates);;
  mret updates.

Definition getTimetable : Js World value :=
  try_catch
    (data ← makeRequest "/timetable" no_options; mret data)
    (fun error =>
       if includes "not found" (message error) then mret VNull
       else throw error).

Definition healthCheck : Js World bool :=
  try_catch
    ('(_, j) ← fetch "http://localhost:5000/health" no_options;
     data ← lift (response_json j);
     status ← lift (field data "status");
     mret (strict_eq status (VStr "healthy")))
    (fun error => mret false).

(** [login] sends its own request; it does not go through [makeRequest]. *)
Definition login (username password role : value) : Js World value :=
  try_catch
    ('(st, j) ← fetch (baseURL ++ "/auth/login")
                  (with_body "POST"
                     (VObj [("username", username); ("password", password);
                            ("role", role)]));
     data ← lift (response_json j);
     refused ← (if negb (response_ok st) then mret true
                else success ← lift (field data "success");
                     mret (negb (truthy success)));
     if refused : bool then
       err ← lift (field data "error");
       throw (new_Error err "Authentication failed")
     else lift (field data "data"))
    (fun error => throw error).

(** The elements a [for (const x of v)] loop visits: those of an array, the
    characters of a string; the other values of this model are not
    iterable. *)
Definition iterate (v : value) : outcome (list value) :=
  match v with
  | VArr l => Ok l
  | VStr s => Ok (chars s)
  | _ => Throw (Exn TypeError "is not iterable")
  end.

(** The loop shared by the batch imports: [add x] in a [try], its result
    pushed on [results]; the [catch] only logs, which evaluates [label x]. *)
Fixpoint import_each (add : value -> Js World value)
  (label : value -> outcome value) (xs : list value) (results : list value)
  : Js World (list value) :=
  match xs with
  | [] => mret results
  | x :: xs' =>
      results' ← try_catch
                   (result ← add x; mret (results ++ [result])%list)
                   (fun error => lift (label x);; mret results);
      import_each add label xs' results'
  end.

Definition importFaculty (facultyList : value) : Js World value :=
  xs ← lift (iterate facultyList);
  results ← import_each addFaculty (fun faculty => field faculty "name") xs [];
  mret (VArr results).

Definition importRooms (roomsList : value) : Js World value :=
  xs ← lift (iterate roomsList);
  results ← import_each addRoom (fun room => field room "name") xs [];
  mret (VArr results).

Definition importSubjects (subjectsList : value) : Js World value :=
  xs ← lift (iterate subjectsList);
  results ← import_each addSubject (fun subject => field subject "name") xs [];
  mret (VArr results).

End APIClient.

(** ** Mode arbitration and accessors: storage.js *)

Module StorageManager.

(** The instance the constructor builds. *)
Definition constructor : Manager :=
  {| useLocalStorage := false; localStoragePrefix := "timetable_";
     initialized := false; apiAvailable := false |}.

Definition set_useLocalStorage (b : bool) : Js World unit :=
  modify (set_this (fun m =>
    {| useLocalStorage := b; localStoragePrefix := localStoragePrefix m;
       initialized := initialized m; apiAvailable := apiAvailable m |})).

Definition set_initialized (b : bool) : Js World unit :=
  modify (set_this (fun m =>
    {| useLocalStorage := useLocalStorage m;
       localStoragePrefix := localStoragePrefix m;
       initialized := b; apiAvailable := apiAvailable m |})).

Definition set_apiAvailable (b : bool) : Js World unit :=
  modify (set_this (fun m =>
    {| useLocalStorage := useLocalStorage m;
       localStoragePrefix := localStoragePrefix m;
       initialized := initialized m; apiAvailable := b |})).

(** [window.apiClient.m(...)]: a TypeError when the object is not there. *)
Definition on_apiClient {A} (m : Js World A) : Js World A :=
  fun w =>
    match window_apiClient w with
    | Some _ => m w
    | None =>
        (Throw (Exn TypeError "Cannot read properties of undefined"), w)
    end.

(** [while (!window.apiClient && attempts < maxAttempts) { sleep; attempts++ }],
    returning [attempts]. *)
Equations? wait_present (maxAttempts interval attempts : nat) (w : World)
  : outcome nat * World by wf (maxAttempts - attempts)%nat lt :=
  wait_present maxAttempts interval attempts w
    with decide (attempts < maxAttempts)%nat := {
    | right _ := (Ok attempts, w);
    | left _ with window_apiClient w := {
        | Some _ := (Ok attempts, w);
        | None :=
            wait_present maxAttempts interval (S attempts)
              (set_clock (fun t => (t + interval)%nat) w) } }.
Proof. lia. Qed.

(** [while (!window.apiClient.initialized && attempts < ceiling) { sleep; attempts++ }]. *)
Equations? wait_initialized (ceiling interval attempts : nat) (w : World)
  : outcome nat * World by wf (ceiling - attempts)%nat lt :=
  wait_initialized ceiling interval attempts w with window_apiClient w := {
    | None := (Throw (Exn TypeError "Cannot read properties of undefined"), w);
    | Some true := (Ok attempts, w);
    | Some false with decide (attempts < ceiling)%nat := {
        | right _ := (Ok attempts, w);
        | left _ :=
            wait_initialized ceiling interval (S attempts)
              (set_clock (fun t => (t + interval)%nat) w) } }.
Proof. lia. Qed.

Definition waitForAPIClient (maxAttempts interval : nat) : Js World unit :=
  attempts ← wait_present maxAttempts interval 0%nat;
  present ← gets window_apiClient;
  (if present is None
   then throw (Exn Error "API client not available after waiting")
   else mret tt);;
  wait_initialized (maxAttempts * 2) interval attempts;;
  mret tt.

Definition getDefaultUsers : value :=
  VArr [ VObj [("id", VNum 1); ("username", VStr "admin");
               ("password", VStr "admin123"); ("role", VStr "admin");
               ("name", VStr "System Administrator");
               ("email", VStr "admin@college.edu")];
         VObj [("id", VNum 2); ("username", VStr "faculty1");
               ("password", VStr "faculty123"); ("role", VStr "faculty");
               ("name", VStr "S. P. Shinde");
               ("email", VStr "shinde@avoce.edu")];
         VObj [("id", VNum 3); ("username", VStr "student1");
               ("password", VStr "student123"); ("role", VStr "student");
               ("name", VStr "Sujay Patil");
               ("email", VStr "sujay@college.edu")] ].

(** The entries of [defaultData], in the order they are written. *)
Definition defaultData : list (string * value) :=
  [ ("faculty", VArr []); ("rooms", VArr []); ("subjects", VArr []);
    ("breaks", VArr []); ("leaveRequests", VArr []);
    ("users", getDefaultUsers) ].

Fixpoint forEach {A} (f : A -> Js World unit) (l : list A) : Js World unit :=
  match l with
  | [] => mret tt
  | x :: l' => f x;; forEach f l'
  end.

Definition initLocalStorage : Js World unit :=
  forEach (fun '(key, defaultValue) =>
             prefix ← gets (fun w => localStoragePrefix (this w));
             data ← getItem (prefix ++ key);
             if negb (text_truthy data)
             then setItem (prefix ++ key) (JSON_stringify defaultValue)
             else mret tt)
          defaultData.

Definition init : Js World unit :=
  try_catch
    (waitForAPIClient 50 100;;
     healthy ← on_apiClient APIClient.healthCheck;
     set_apiAvailable healthy;;
     if healthy : bool then set_useLocalStorage false
     else throw (Exn Error "API health check failed"))
    (fun error =>
       set_useLocalStorage true;;
       initLocalStorage);;
  set_initialized true.

(** [if (!this.initialized) await this.init();], the guard that opens
    every asynchronous getter. *)
Definition init_unless_initialized : Js World unit :=
  done ← gets (fun w => initialized (this w));
  if negb done then init else mret tt.

(** [data ? JSON.parse(data) : dflt] *)
Definition parse_or (dflt : value) (data : option text) : outcome value :=
  match data with
  | Some t => if text_truthy data then JSON_parse t else Ok dflt
  | None => Ok dflt
  end.

(** The body shared by [getFacultyFromLocalStorage], [getBreaks] and the
    like: read the key [prefix + name], parse it, or give [dflt]. *)
Definition readLocal (name : string) (dflt : value) : Js World value :=
  prefix ← gets (fun w => localStoragePrefix (this w));
  data ← getItem (prefix ++ name);
  lift (parse_or dflt data).

(** [localStorage.setItem(prefix + name, JSON.stringify(v))]. *)
Definition writeLocal (name : string) (v : value) : Js World unit :=
  prefix ← gets (fun w => localStoragePrefix (this w));
  setItem (prefix ++ name) (JSON_stringify v).

(** The body shared by the setters that only write in LOCAL mode. *)
Definition writeLocal_if_local (name : string) (v : value) : Js World unit :=
  local ← gets (fun w => useLocalStorage (this w));
  if local : bool then writeLocal name v else mret tt.

(** The body shared by the asynchronous getters. *)
Definition get_entity (name : string) (dflt : value) (remote : Js World value)
  : Js World value :=
  init_unless_initialized;;
  local ← gets (fun w => useLocalStorage (this w));
  if local : bool then readLocal name dflt
  else try_catch (on_apiClient remote) (fun error => readLocal name dflt).

(** Faculty *)

Definition getFaculty : Js World value :=
  get_entity "faculty" (VArr []) APIClient.getFaculty.

Definition getFacultyFromLocalStorage : Js World value :=
  readLocal "faculty" (VArr []).

Definition setFaculty (faculty : value) : Js World unit :=
  writeLocal_if_local "faculty" faculty.

(** [now] is what [Date.now()] gives during the call. *)
Definition addFaculty (now : Z) (facultyData : value) : Js World value :=
  local ← gets (fun w => useLocalStorage (this w));
  if local : bool then
    faculty ← getFacultyFromLocalStorage;
    let newFaculty := VObj (spread [("id", VNum now)] facultyData) in
    faculty ← lift (array_push faculty newFaculty);
    setFaculty faculty;;
    mret newFaculty
  else
    try_catch (on_apiClient (APIClient.addFaculty facultyData))
              (fun error => throw error).

Definition removeFaculty (id : value) : Js World value :=
  local ← gets (fun w => useLocalStorage (this w));
  if local : bool then
    faculty ← getFacultyFromLocalStorage;
    filtered ← lift (array_filter_id_ne faculty id);
    setFaculty filtered;;
    mret VUndef
  else
    try_catch (on_apiClient (APIClient.removeFaculty id))
              (fun error => throw error).

(** Rooms *)

Definition getRooms : Js World value :=
  get_entity "rooms" (VArr []) APIClient.getRooms.

Definition getRoomsFromLocalStorage : Js World value :=
  readLocal "rooms" (VArr []).

Definition setRooms (rooms : value) : Js World unit :=
  writeLocal_if_local "rooms" rooms.

Definition addRoom (now : Z) (roomData : value) : Js World value :=
  local ← gets (fun w => useLocalStorage (this w));
  if local : bool then
    rooms ← getRoomsFromLocalStorage;
    let newRoom := VObj (spread [("id", VNum now)] roomData) in
    rooms ← lift (array_push rooms newRoom);
    setRooms rooms;;
    mret newRoom
  else
    try_catch (on_apiClient (APIClient.addRoom roomData))
              (fun error => throw error).

Definition removeRoom (id : value) : Js World value :=
  local ← gets (fun w => useLocalStorage (this w));
  if local : bool then
    rooms ← getRoomsFromLocalStorage;
    filtered ← lift (array_filter_id_ne rooms id);
    setRooms filtered;;
    mret VUndef
  else
    try_catch (on_apiClient (APIClient.removeRoom id))
              (fun error => throw error).

(** Subjects *)

Definition getSubjects : Js World value :=
  get_entity "subjects" (VArr []) APIClient.getSubjects.

Definition getSubjectsFromLocalStorage : Js World value :=
  readLocal "subjects" (VArr []).

Definition setSubjects (subjects : value) : Js World unit :=
  writeLocal_if_local "subjects" subjects.

Definition addSubject (now : Z) (subjectData : value) : Js World value :=
  local ← gets (fun w => useLocalStorage (this w));
  if local : bool then
    subjects ← getSubjectsFromLocalStorage;
    let newSubject := VObj (spread [("id", VNum now)] subjectData) in
    subjects ← lift (array_push subjects newSubject);
    setSubjects subjects;;
    mret newSubject
  else
    try_catch (on_apiClient (APIClient.addSubject subjectData))
              (fun error => throw error).

Definition removeSubject (id : value) : Js World value :=
  local ← gets (fun w => useLocalStorage (this w));
  if local : bool then
    subjects ← getSubjectsFromLocalStorage;
    filtered ← lift (array_filter_id_ne subjects id);
    setSubjects filtered;;
    mret VUndef
  else
    try_catch (on_apiClient (APIClient.removeSubject id))
              (fun error => throw error).

(** Leave requests *)

Definition getLeaveRequests : Js World value :=
  get_entity "leaveRequests" (VArr []) APIClient.getLeaveRequests.

Definition getLeaveRequestsFromLocalStorage : Js World value :=
  readLocal "leaveRequests" (VArr []).

Definition setLeaveRequests (requests : value) : Js World unit :=
  writeLocal_if_local "leaveRequests" requests.

(** [now] and [iso] are what [Date.now()] and [new Date().toISOString()]
    give during the call. *)
Definition addLeaveRequest (now : Z) (iso : string) (requestData : value)
  : Js World value :=
  local ← gets (fun w => useLocalStorage (this w));
  if local : bool then
    requests ← getLeaveRequestsFromLocalStorage;
    let newRequest :=
      VObj (spread [("id", VNum now); ("status", VStr "pending");
                    ("created_at", VStr iso)] requestData) in
    requests ← lift (array_push requests newRequest);
    setLeaveRequests requests;;
    mret newRequest
  else
    try_catch (on_apiClient (APIClient.addLeaveRequest iso requestData))
              (fun error => throw error).

(** [c.findIndex(r => r.id === id)]. *)
Definition array_findIndex_id (c id : value) : outcome (option nat) :=
  match c with
  | VArr xs => findIndex_id id xs
  | VUndef | VNull =>
      match field c "findIndex" with
      | Throw e => Throw e
      | Ok _ => Throw (not_a_function "findIndex")
      end
  | _ => Throw (not_a_function "findIndex")
  end.

Definition updateLeaveRequest (id updates : value) : Js World value :=
  local ← gets (fun w => useLocalStorage (this w));
  if local : bool then
    requests ← getLeaveRequestsFromLocalStorage;
    index ← lift (array_findIndex_id requests id);
    match index, requests with
    | Some i, VArr xs =>
        let updated :=
          VObj (spread (spread [] (default VUndef (xs !! i))) updates) in
        setLeaveRequests (VArr (<[i := updated]> xs));;
        mret updated
    | _, _ => mret VNull
    end
  else
    try_catch (on_apiClient (APIClient.updateLeaveRequest id updates))
              (fun error => throw error).

(** Breaks (localStorage only) *)

Definition getBreaks : Js World value := readLocal "breaks" (VArr []).

Definition setBreaks (breaks : value) : Js World unit :=
  writeLocal "breaks" breaks.

Definition addBreak (now : Z) (breakData : value) : Js World value :=
  breaks ← getBreaks;
  let newBreak := VObj (spread [("id", VNum now)] breakData) in
  breaks ← lift (array_push breaks newBreak);
  setBreaks breaks;;
  mret newBreak.

Definition removeBreak (id : value) : Js World value :=
  breaks ← getBreaks;
  filtered ← lift (array_filter_id_ne breaks id);
  setBreaks filtered;;
  mret VUndef.

(** Practicals *)

Definition getPracticals : Js World value := readLocal "practicals" (VArr []).

Definition setPracticals (practicals : value) : Js World unit :=
  writeLocal "practicals" practicals.

Definition addPractical (now : Z) (practicalData : value) : Js World value :=
  practicals ← getPracticals;
  let newPractical := VObj (spread [("id", VNum now)] practicalData) in
  practicals ← lift (array_push practicals newPractical);
  setPracticals practicals;;
  mret newPractical.

Definition removePractical (id : value) : Js World value :=
  practicals ← getPracticals;
  filtered ← lift (array_filter_id_ne practicals id);
  setPracticals filtered;;
  mret VUndef.

(** Timetable *)

Definition getTimetable : Js World value :=
  get_entity "timetable" VNull APIClient.getTimetable.

Definition setTimetable (timetable : value) : Js World unit :=
  writeLocal_if_local "timetable" timetable.

(** Users *)

Definition getUsers : Js World value := readLocal "users" getDefaultUsers.

Definition setUsers (users : value) : Js World unit :=
  writeLocal "users" users.

(** Authentication *)

(** [users.find(u => u.username === username && u.password === password
    && u.role === role)] on the elements of an array. *)
Fixpoint find_user (username password role : value) (us : list value)
  : outcome value :=
  match us with
  | [] => Ok VUndef
  | u :: us' =>
      match field u "username" with
      | Throw e => Throw e
      | Ok name =>
          if strict_eq name username then
            match field u "password" with
            | Throw e => Throw e
            | Ok pass =>
                if strict_eq pass password then
                  match field u "role" with
                  | Throw e => Throw e
                  | Ok r =>
                      if strict_eq r role then Ok u
                      else find_user username password role us'
                  end
                else find_user username password role us'
            end
          else find_user username password role us'
      end
  end.

Definition array_find_user (users username password role : value)
  : outcome value :=
  match users with
  | VArr us => find_user username password role us
  | VUndef | VNull =>
      match field users "find" with
      | Throw e => Throw e
      | Ok _ => Throw (not_a_function "find")
      end
  | _ => Throw (not_a_function "find")
  end.

(** The part of [authenticateUser] that checks the stored users. *)
Definition authenticateLocally (username password role : value)
  : Js World value :=
  users ← getUsers;
  user ← lift (array_find_user users username password role);
  if truthy user then
    id ← lift (field user "id");
    uname ← lift (field user "username");
    urole ← lift (field user "role");
    name ← lift (field user "name");
    email ← lift (field user "email");
    mret (VObj [("id", id); ("username", uname); ("role", urole);
                ("name", name); ("email", email)])
  else throw (Exn Error "Invalid credentials").

Definition authenticateUser (username password role : value) : Js World value :=
  local ← gets (fun w => useLocalStorage (this w));
  available ← gets (fun w => apiAvailable (this w));
  logged ← (if negb local && available then
              try_catch
                (user ← on_apiClient (APIClient.login username password role);
                 mret (Some user))
                (fun error => mret None)
            else mret None);
  match logged with
  | Some user => mret user
  | None => authenticateLocally username password role
  end.

(** Current user *)

Definition removeItem (key : string) : Js World unit :=
  modify (set_localStorage (delete key)).

Definition getCurrentUser : Js World value :=
  data ← getItem "currentUser";
  lift (parse_or VNull data).

Definition setCurrentUser (user : value) : Js World unit :=
  setItem "currentUser" (JSON_stringify user).

Definition clearCurrentUser : Js World unit := removeItem "currentUser".

(** Utilities *)

(** [Object.keys(localStorage).filter(key => key.startsWith(prefix) ||
    key === 'currentUser')], each key removed, then the defaults seeded. *)
Definition clearAll : Js World unit :=
  prefix ← gets (fun w => localStoragePrefix (this w));
  stored ← gets (fun w => (map_to_list (localStorage w)).*1);
  let keys :=
    List.filter (fun key => String.prefix prefix key || String.eqb key "currentUser")
      stored in
  forEach removeItem keys;;
  initLocalStorage.

(** [if (data.k) set(data.k)]. *)
Definition import_field (data : value) (k : string)
  (set : value -> Js World unit) : Js World unit :=
  v ← lift (field data k);
  if truthy v then set v else mret tt.

Definition importData (jsonData : text) : Js World value :=
  try_catch
    (data ← lift (JSON_parse jsonData);
     import_field data "faculty" setFaculty;;
     import_field data "rooms" setRooms;;
     import_field data "subjects" setSubjects;;
     import_field data "breaks" setBreaks;;
     import_field data "leaveRequests" setLeaveRequests;;
     import_field data "users" setUsers;;
     mret (VBool true))
    (fun error => mret (VBool false)).

End StorageManager.

(** ** The per-entity cache: storage_api.js *)

Module APIStorageAdapter.

(** [this.cache]. *)
Record Cache : Type := {
  faculty : value;
  rooms : value;
  subjects : value;
  leaveRequests : value;
  timetable : value;
  currentUser : value
}.

Definition constructor : Cache :=
  {| faculty := VArr []; rooms := VArr []; subjects := VArr [];
     leaveRequests := VArr []; timetable := VNull; currentUser := VNull |}.

(** The keys of [this.cache]. *)
Inductive entity : Type :=
| Faculty | Rooms | Subjects | LeaveRequests | Timetable | CurrentUser.

(** [this.cache[e]] *)
Definition cached (e : entity) (c : Cache) : value :=
  match e with
  | Faculty => faculty c
  | Rooms => rooms c
  | Subjects => subjects c
  | LeaveRequests => leaveRequests c
  | Timetable => timetable c
  | CurrentUser => currentUser c
  end.

(** [this.cache[e] = v] *)
Definition assign (e : entity) (v : value) (c : Cache) : Cache :=
  match e with
  | Faculty =>
      {| faculty := v; rooms := rooms c; subjects := subjects c;
         leaveRequests := leaveRequests c; timetable := timetable c;
         currentUser := currentUser c |}
  | Rooms =>
      {| faculty := faculty c; rooms := v; subjects := subjects c;
         leaveRequests := leaveRequests c; timetable := timetable c;
         currentUser := currentUser c |}
  | Subjects =>
      {| faculty := faculty c; rooms := rooms c; subjects := v;
         leaveRequests := leaveRequests c; timetable := timetable c;
         currentUser := currentUser c |}
  | LeaveRequests =>
      {| faculty := faculty c; rooms := rooms c; subjects := subjects c;
         leaveRequests := v; timetable := timetable c;
         currentUser := currentUser c |}
  | Timetable =>
      {| faculty := faculty c; rooms := rooms c; subjects := subjects c;
         leaveRequests := leaveRequests c; timetable := v;
         currentUser := currentUser c |}
  | CurrentUser =>
      {| faculty := faculty c; rooms := rooms c; subjects := subjects c;
         leaveRequests := leaveRequests c; timetable := timetable c;
         currentUser := v |}
  end.

(** One call of a method of the global [apiClient]. *)
Record GatewayCall : Type := { callee : string; arguments : list value }.

(** The adapter's world: its cache, [localStorage] (it keeps the current
    user there), the gateway calls made so far, and the gateway itself:
    [gateway n c] is what call [c] resolves to, or throws, when [n] calls
    were made before it. *)
Record AWorld : Type := {
  gateway : nat -> GatewayCall -> outcome value;
  cache : Cache;
  stored : gmap string text;
  calls : list GatewayCall
}.

Definition set_cache (f : Cache -> Cache) (w : AWorld) : AWorld :=
  {| gateway := gateway w; cache := f (cache w); stored := stored w;
     calls := calls w |}.

Definition set_stored (f : gmap string text -> gmap string text)
  (w : AWorld) : AWorld :=
  {| gateway := gateway w; cache := cache w; stored := f (stored w);
     calls := calls w |}.

(** [await apiClient.m(args)] *)
Definition apiClient (m : string) (args : list value) : Js AWorld value :=
  fun w =>
    let c := {| callee := m; arguments := args |} in
    (gateway w (length (calls w)) c,
     {| gateway := gateway w; cache := cache w; stored := stored w;
        calls := (calls w ++ [c])%list |}).

Definition read (e : entity) : Js AWorld value :=
  gets (fun w => cached e (cache w)).

Definition write (e : entity) (v : value) : Js AWorld unit :=
  modify (set_cache (assign e v)).

(** The body shared by [getFaculty], [getRooms], [getSubjects] and
    [getLeaveRequests]. *)
Definition get_collection (e : entity) (m : string) : Js AWorld value :=
  try_catch
    (response ← apiClient m [];
     success ← lift (field response "success");
     if truthy success then
       data ← lift (field response "data");
       write e data;;
       mret data
     else read e)
    (fun error => read e).

(** The body shared by [addFaculty], [addRoom] and [addSubject]. *)
Definition add_to_collection (m failure : string) (refresh : Js AWorld value)
  (data : value) : Js AWorld value :=
  try_catch
    (response ← apiClient m [data];
     success ← lift (field response "success");
     if truthy success then
       refresh;;
       id ← lift (field response "id");
       mret (VObj (obj_set "id" id (spread [] data)))
     else throw (Exn Error failure))
    (fun error => throw error).

Definition getFaculty : Js AWorld value := get_collection Faculty "getFaculty".

Definition addFaculty (facultyData : value) : Js AWorld value :=
  add_to_collection "addFaculty" "Failed to add faculty" getFaculty facultyData.

Definition removeFaculty (id : value) : Js AWorld value :=
  try_catch
    (response ← apiClient "deleteFaculty" [id];
     success ← lift (field response "success");
     if truthy success then
       old ← read Faculty;
       filtered ← lift (array_filter_id_ne old id);
       write Faculty filtered;;
       read Faculty
     else throw (Exn Error "Failed to remove faculty"))
    (fun error => throw error).

Definition getRooms : Js AWorld value := get_collection Rooms "getRooms".

Definition addRoom (roomData : value) : Js AWorld value :=
  add_to_collection "addRoom" "Failed to add room" getRooms roomData.

Definition getSubjects : Js AWorld value := get_collection Subjects "getSubjects".

Definition addSubject (subjectData : value) : Js AWorld value :=
  add_to_collection "addSubject" "Failed to add subject" getSubjects subjectData.

Definition getLeaveRequests : Js AWorld value :=
  get_collection LeaveRequests "getLeaveRequests".

(** [iso] is what [new Date().toISOString()] gives during the call. *)
Definition addLeaveRequest (iso : string) (requestData : value) : Js AWorld value :=
  try_catch
    (response ← apiClient "addLeaveRequest" [requestData];
     success ← lift (field response "success");
     if truthy success then
       getLeaveRequests;;
       id ← lift (field response "id");
       mret (VObj (obj_set "createdAt" (VStr iso)
                     (obj_set "status" (VStr "pending")
                        (obj_set "id" id (spread [] requestData)))))
     else throw (Exn Error "Failed to add leave request"))
    (fun error => throw error).

(** [xs.find(r => r.id === id)] *)
Fixpoint find_id (id : value) (xs : list value) : outcome value :=
  match xs with
  | [] => Ok VUndef
  | r :: xs' =>
      match field r "id" with
      | Throw e => Throw e
      | Ok rid => if strict_eq rid id then Ok r else find_id id xs'
      end
  end.

Definition array_find_id (c id : value) : outcome value :=
  match c with
  | VArr xs => find_id id xs
  | VUndef | VNull =>
      match field c "find" with
      | Throw e => Throw e
      | Ok _ => Throw (not_a_function "find")
      end
  | _ => Throw (not_a_function "find")
  end.

Definition updateLeaveRequest (id updates : value) : Js AWorld value :=
  try_catch
    (status ← lift (field updates "status");
     response ← apiClient "updateLeaveRequest" [id; status];
     success ← lift (field response "success");
     if truthy success then
       getLeaveRequests;;
       requests ← read LeaveRequests;
       lift (array_find_id requests id)
     else throw (Exn Error "Failed to update leave request"))
    (fun error => throw error).

Definition days : list string :=
  ["Monday"; "Tuesday"; "Wednesday"; "Thursday"; "Friday"].

Definition periods : list string :=
  ["9:00-10:00"; "10:00-11:00"; "11:00-12:00"; "12:00-1:00";
   "2:00-3:00"; "3:00-4:00"].

Definition getDefaultTimetable : value :=
  VObj (map (fun day => (day, VObj (map (fun period => (period, VNull)) periods)))
            days).

(** [this.cache.timetable || this.getDefaultTimetable()] *)
Definition timetable_or_default : Js AWorld value :=
  t ← read Timetable;
  mret (if truthy t then t else getDefaultTimetable).

Definition getTimetable : Js AWorld value :=
  try_catch
    (response ← apiClient "getTimetable" [];
     success ← lift (field response "success");
     data ← (if truthy success then lift (field response "data")
             else mret success);
     if truthy data then
       t ← lift (field data "timetable");
       write Timetable t;;
       mret t
     else timetable_or_default)
    (fun error => timetable_or_default).

Definition generateTimetable (constraints : value) : Js AWorld value :=
  try_catch
    (response ← apiClient "generateTimetable" [constraints];
     success ← lift (field response "success");
     if truthy success then lift (field response "data")
     else throw (Exn Error "Failed to generate timetable"))
    (fun error => throw error).

Definition publishTimetable (timetableId : value) : Js AWorld value :=
  try_catch
    (response ← apiClient "publishTimetable" [timetableId];
     success ← lift (field response "success");
     if truthy success then
       getTimetable;;
       mret (VBool true)
     else throw (Exn Error "Failed to publish timetable"))
    (fun error => throw error).

Definition authenticateUser (username password role : value) : Js AWorld value :=
  try_catch
    (response ← apiClient "login" [username; password; role];
     success ← lift (field response "success");
     if truthy success then
       user ← lift (field response "user");
       write CurrentUser user;;
       mret user
     else throw (Exn Error "Authentication failed"))
    (fun error => throw error).

Definition getCurrentUser : Js AWorld value := read CurrentUser.

Definition setCurrentUser (user : value) : Js AWorld unit :=
  write CurrentUser user;;
  modify (set_stored (insert "currentUser" (JSON_stringify user))).

Definition clearCurrentUser : Js AWorld unit :=
  write CurrentUser VNull;;
  modify (set_stored (delete "currentUser")).

(** Setters kept for the older front-end code. *)
Definition setFaculty (v : value) : Js AWorld unit := write Faculty v.
Definition setRooms (v : value) : Js AWorld unit := write Rooms v.
Definition setSubjects (v : value) : Js AWorld unit := write Subjects v.
Definition setLeaveRequests (v : value) : Js AWorld unit := write LeaveRequests v.
Definition setTimetable (v : value) : Js AWorld unit := write Timetable v.

End APIStorageAdapter.


(** ** Vocabulary of the statements *)

(** What [fetch] answers to [makeRequest endpoint options] issued in [w]. *)
Definition answer_to (endpoint : string) (options : APIClient.Options)
  (w : World) : FetchAnswer :=
  fetchAnswer (env w) (length (requests w))
    (APIClient.request_of (APIClient.baseURL ++ endpoint) options).

(** A value that a JSON round trip leaves as it is. *)
Definition json_value (v : value) : Prop := jsonify v = v.

(** No element of [xs] has the identifier [id]: each element has an [id]
    field that can be read, and it differs from [id]. *)
Definition id_absent (id : value) (xs : list value) : Prop :=
  Forall (fun f => exists fid, field f "id" = Ok fid /\ strict_eq fid id = false) xs.

(** The key of an entity collection in the Durable Local Store. *)
Definition key_of (w : World) (name : string) : string :=
  localStoragePrefix (this w) ++ name.

(** The answer of the health probe that [init] issues once it has waited
    for the gateway: [Ok true] is the affirmative one. *)
Definition probe (w : World) : outcome bool :=
  (StorageManager.on_apiClient APIClient.healthCheck
     (StorageManager.waitForAPIClient 50 100 w).2).1.

(** The operations of the [StorageManager] on breaks and practicals; an
    update is a [set] of the modified collection. *)
Inductive local_op : Type :=
| GetBreaks
| SetBreaks (breaks : value)
| AddBreak (now : Z) (breakData : value)
| RemoveBreak (id : value)
| GetPracticals
| SetPracticals (practicals : value)
| AddPractical (now : Z) (practicalData : value)
| RemovePractical (id : value).

Definition run_local_op (o : local_op) : Js World value :=
  match o with
  | GetBreaks => StorageManager.getBreaks
  | SetBreaks v => StorageManager.setBreaks v;; mret VUndef
  | AddBreak now d => StorageManager.addBreak now d
  | RemoveBreak id => StorageManager.removeBreak id
  | GetPracticals => StorageManager.getPracticals
  | SetPracticals v => StorageManager.setPracticals v;; mret VUndef
  | AddPractical now d => StorageManager.addPractical now d
  | RemovePractical id => StorageManager.removePractical id
  end.

(** A consumer running operations one after the other, going on after one
    that raised: the world they leave. *)
Fixpoint run_local_ops (os : list local_op) (w : World) : World :=
  match os with
  | [] => w
  | o :: os' => run_local_ops os' (run_local_op o w).2
  end.

(** A gateway reply that the adapter treats as a failure: the call threw,
    or the reply has no truthy [success]. *)
Definition failed (r : outcome value) : bool :=
  match r with
  | Throw _ => true
  | Ok response =>
      match field response "success" with
      | Ok success => negb (truthy success)
      | Throw _ => true
      end
  end.

(** The operations of the [APIStorageAdapter] that call the gateway. *)
Inductive operation : Type :=
| GetFaculty
| GetRooms
| GetSubjects
| GetLeaveRequests
| GetTimetable
| AddFaculty (facultyData : value)
| AddRoom (roomData : value)
| AddSubject (subjectData : value)
| AddLeaveRequest (iso : string) (requestData : value)
| RemoveFaculty (id : value)
| UpdateLeaveRequest (id updates : value)
| GenerateTimetable (constraints : value)
| PublishTimetable (timetableId : value)
| AuthenticateUser (username password role : value).

Definition perform (o : operation) : Js APIStorageAdapter.AWorld value :=
  match o with
  | GetFaculty => APIStorageAdapter.getFaculty
  | GetRooms => APIStorageAdapter.getRooms
  | GetSubjects => APIStorageAdapter.getSubjects
  | GetLeaveRequests => APIStorageAdapter.getLeaveRequests
  | GetTimetable => APIStorageAdapter.getTimetable
  | AddFaculty d => APIStorageAdapter.addFaculty d
  | AddRoom d => APIStorageAdapter.addRoom d
  | AddSubject d => APIStorageAdapter.addSubject d
  | AddLeaveRequest iso d => APIStorageAdapter.addLeaveRequest iso d
  | RemoveFaculty id => APIStorageAdapter.removeFaculty id
  | UpdateLeaveRequest id updates => APIStorageAdapter.updateLeaveRequest id updates
  | GenerateTimetable c => APIStorageAdapter.generateTimetable c
  | PublishTimetable id => APIStorageAdapter.publishTimetable id
  | AuthenticateUser u p r => APIStorageAdapter.authenticateUser u p r
  end.

(** The gateway call an operation starts with; [updateLeaveRequest] raises
    before making it when [updates.status] cannot be read. *)
Definition gateway_call (o : operation) : outcome APIStorageAdapter.GatewayCall :=
  match o with
  | GetFaculty => Ok (APIStorageAdapter.Build_GatewayCall "getFaculty" [])
  | GetRooms => Ok (APIStorageAdapter.Build_GatewayCall "getRooms" [])
  | GetSubjects => Ok (APIStorageAdapter.Build_GatewayCall "getSubjects" [])
  | GetLeaveRequests =>
      Ok (APIStorageAdapter.Build_GatewayCall "getLeaveRequests" [])
  | GetTimetable => Ok (APIStorageAdapter.Build_GatewayCall "getTimetable" [])
  | AddFaculty d => Ok (APIStorageAdapter.Build_GatewayCall "addFaculty" [d])
  | AddRoom d => Ok (APIStorageAdapter.Build_GatewayCall "addRoom" [d])
  | AddSubject d => Ok (APIStorageAdapter.Build_GatewayCall "addSubject" [d])
  | AddLeaveRequest _ d =>
      Ok (APIStorageAdapter.Build_GatewayCall "addLeaveRequest" [d])
  | RemoveFaculty id =>
      Ok (APIStorageAdapter.Build_GatewayCall "deleteFaculty" [id])
  | UpdateLeaveRequest id updates =>
      match field updates "status" with
      | Ok status =>
          Ok (APIStorageAdapter.Build_GatewayCall "updateLeaveRequest" [id; status])
      | Throw e => Throw e
      end
  | GenerateTimetable c =>
      Ok (APIStorageAdapter.Build_GatewayCall "generateTimetable" [c])
  | PublishTimetable id =>
      Ok (APIStorageAdapter.Build_GatewayCall "publishTimetable" [id])
  | AuthenticateUser u p r =>
      Ok (APIStorageAdapter.Build_GatewayCall "login" [u; p; r])
  end.

(** What the gateway replies to the call that [o] starts with in [w]. *)
Definition reply (o : operation) (w : APIStorageAdapter.AWorld) : outcome value :=
  match gateway_call o with
  | Ok c => APIStorageAdapter.gateway w (length (APIStorageAdapter.calls w)) c
  | Throw e => Throw e
  end.

(** The world just after that first call. *)
Definition called (o : operation) (w : APIStorageAdapter.AWorld)
  : APIStorageAdapter.AWorld :=
  match gateway_call o with
  | Ok c =>
      (APIStorageAdapter.apiClient (APIStorageAdapter.callee c)
         (APIStorageAdapter.arguments c) w).2
  | Throw _ => w
  end.

(** A reply that succeeded, and the payload it carries. *)
Definition succeeded_with (r : outcome value) (data : value) : Prop :=
  exists response success,
    r = Ok response /\ field response "success" = Ok success /\
    truthy success = true /\ field response "data" = Ok data.

(** The cache entry a read operation is about. *)
Definition read_of (o : operation) : option APIStorageAdapter.entity :=
  match o with
  | GetFaculty => Some APIStorageAdapter.Faculty
  | GetRooms => Some APIStorageAdapter.Rooms
  | GetSubjects => Some APIStorageAdapter.Subjects
  | GetLeaveRequests => Some APIStorageAdapter.LeaveRequests
  | GetTimetable => Some APIStorageAdapter.Timetable
  | _ => None
  end.

(** The operations that create a record. *)
Definition is_add (o : operation) : bool :=
  match o with
  | AddFaculty _ | AddRoom _ | AddSubject _ | AddLeaveRequest _ _ => true
  | _ => false
  end.

(** The read by which a write refreshes the cache once the gateway has
    accepted it. *)
Definition refresh_of (o : operation) : option operation :=
  match o with
  | AddFaculty _ => Some GetFaculty
  | AddRoom _ => Some GetRooms
  | AddSubject _ => Some GetSubjects
  | AddLeaveRequest _ _ => Some GetLeaveRequests
  | UpdateLeaveRequest _ _ => Some GetLeaveRequests
  | PublishTimetable _ => Some GetTimetable
  | _ => None
  end.

(** The entities the [StorageManager] fetches from the gateway, with the
    name of their key, the value read when the key holds nothing, their
    getter and the gateway method it calls. *)
Inductive fetched : Type :=
| FFaculty | FRooms | FSubjects | FLeaveRequests | FTimetable.

Definition fetched_name (f : fetched) : string :=
  match f with
  | FFaculty => "faculty"
  | FRooms => "rooms"
  | FSubjects => "subjects"
  | FLeaveRequests => "leaveRequests"
  | FTimetable => "timetable"
  end.

Definition fetched_default (f : fetched) : value :=
  match f with
  | FTimetable => VNull
  | _ => VArr []
  end.

Definition get_fetched (f : fetched) : Js World value :=
  match f with
  | FFaculty => StorageManager.getFaculty
  | FRooms => StorageManager.getRooms
  | FSubjects => StorageManager.getSubjects
  | FLeaveRequests => StorageManager.getLeaveRequests
  | FTimetable => StorageManager.getTimetable
  end.

Definition gateway_get (f : fetched) : Js World value :=
  match f with
  | FFaculty => APIClient.getFaculty
  | FRooms => APIClient.getRooms
  | FSubjects => APIClient.getSubjects
  | FLeaveRequests => APIClient.getLeaveRequests
  | FTimetable => APIClient.getTimetable
  end.

(** The endpoint of the request by which the gateway reads an entity. *)
Definition fetched_endpoint (f : fetched) : string :=
  match f with
  | FFaculty => "/faculty"
  | FRooms => "/rooms"
  | FSubjects => "/subjects"
  | FLeaveRequests => "/leave-requests"
  | FTimetable => "/timetable"
  end.

(** The request a getter of the [StorageManager] has the gateway make for
    an entity: it raises when [window.apiClient] is not there, when the
    fetch is rejected, and when [makeRequest] refuses the response. *)
Definition get_request (f : fetched) : Js World value :=
  StorageManager.on_apiClient
    (APIClient.makeRequest (fetched_endpoint f) APIClient.no_options).

(** A failure that the gateway's [getTimetable] answers with [null]: the
    request was for the timetable and the message contains ["not found"]. *)
Definition reads_as_missing (f : fetched) (e : exn) : bool :=
  match f with
  | FTimetable => includes "not found" (message e)
  | _ => false
  end.

(** The collections the [StorageManager] can remove a record from. *)
Inductive collection : Type :=
| CFaculty | CRooms | CSubjects | CBreaks | CPracticals.

Definition collection_name (c : collection) : string :=
  match c with
  | CFaculty => "faculty"
  | CRooms => "rooms"
  | CSubjects => "subjects"
  | CBreaks => "breaks"
  | CPracticals => "practicals"
  end.

Definition remove_from (c : collection) : value -> Js World value :=
  match c with
  | CFaculty => StorageManager.removeFaculty
  | CRooms => StorageManager.removeRoom
  | CSubjects => StorageManager.removeSubject
  | CBreaks => StorageManager.removeBreak
  | CPracticals => StorageManager.removePractical
  end.

(** The synchronous read of a collection from the Durable Local Store. *)
Definition read_from (c : collection) : Js World value :=
  match c with
  | CFaculty => StorageManager.getFacultyFromLocalStorage
  | CRooms => StorageManager.getRoomsFromLocalStorage
  | CSubjects => StorageManager.getSubjectsFromLocalStorage
  | CBreaks => StorageManager.getBreaks
  | CPracticals => StorageManager.getPracticals
  end.

(** The collection read from the store when the key of [name] holds
    nothing, or holds the array [xs]. *)
Definition holds (w : World) (name : string) (xs : list value) : Prop :=
  StorageManager.parse_or (VArr []) (localStorage w !! key_of w name)
  = Ok (VArr xs).

(** [f.id === id], false when [f] has no field to read. *)
Definition has_id (id f : value) : bool :=
  match field f "id" with
  | Ok fid => strict_eq fid id
  | Throw _ => false
  end.

(** Every element has fields: none is [null] or [undefined]. *)
Definition records (xs : list value) : Prop :=
  Forall (fun f => exists fid, field f "id" = Ok fid) xs.

(** What operations confined to the Durable Local Store entries of breaks
    and practicals leave alone: the gateway's request log, the manager, the
    clock, and every other key of the store. *)
Definition local_only (w' w : World) : Prop :=
  requests w' = requests w /\ this w' = this w /\
  clock w' = clock w /\ env w' = env w /\
  forall key, key <> key_of w "breaks" -> key <> key_of w "practicals" ->
              localStorage w' !! key = localStorage w !! key.

(** The world [ms] milliseconds of timer waits later. *)
Definition later (ms : nat) (w : World) : World :=
  set_clock (fun t => (t + ms)%nat) w.

(** One step of the seeding loop of [initLocalStorage] on the store: the
    entry is written only when the key holds nothing truthy. *)
Definition seed_entry (prefix : string) (store : gmap string text)
  (entry : string * value) : gmap string text :=
  if text_truthy (store !! (prefix ++ entry.1)) then store
  else <[prefix ++ entry.1 := JSON_stringify entry.2]> store.

(** The store once every entry of [entries] has been seeded. *)
Definition seeded (prefix : string) (entries : list (string * value))
  (store : gmap string text) : gmap string text :=
  foldl (seed_entry prefix) store entries.

(** What a computation leaves alone when it only talks to the gateway:
    everything but the list of requests. *)
Definition untouched (w' w : World) : Prop :=
  env w' = env w /\ this w' = this w /\
  localStorage w' = localStorage w /\ clock w' = clock w.

Definition gateway_only {A} (c : Js World A) : Prop :=
  forall w, untouched (c w).2 w.

(** ** Worlds used as examples *)

(** A page on which the gateway script never runs and the network is down. *)
Definition offline : Env :=
  {| apiClientAt := fun _ => None;
     fetchAnswer := fun _ _ => NetworkError "Failed to fetch" |}.

(** A gateway that is there from the start and answers every request with [a]. *)
Definition answering (a : FetchAnswer) : Env :=
  {| apiClientAt := fun _ => Some true; fetchAnswer := fun _ _ => a |}.

(** A server that answers the first request as healthy and is unreachable
    afterwards. *)
Definition healthy_then_down : Env :=
  {| apiClientAt := fun _ => Some true;
     fetchAnswer := fun n _ =>
       match n with
       | O => Response 200 (Ok (VObj [("status", VStr "healthy")]))
       | S _ => NetworkError "Failed to fetch"
       end |}.

(** The world when the page has just loaded, with an empty store. *)
Definition start (e : Env) : World :=
  {| env := e; this := StorageManager.constructor; localStorage := ∅;
     clock := 0; requests := [] |}.

(** The same world once the manager has settled on LOCAL mode, with [store]
    as the Durable Local Store. *)
Definition local_world (store : gmap string text) : World :=
  {| env := offline;
     this := {| useLocalStorage := true; localStoragePrefix := "timetable_";
                initialized := true; apiAvailable := false |};
     localStorage := store; clock := 0; requests := [] |}.

(** The same world once the manager has settled on REMOTE mode. *)
Definition remote_world (e : Env) (store : gmap string text) : World :=
  {| env := e;
     this := {| useLocalStorage := false; localStoragePrefix := "timetable_";
                initialized := true; apiAvailable := true |};
     localStorage := store; clock := 0; requests := [] |}.

(** A freshly constructed adapter in front of the gateway [g]. *)
Definition adapter_start
  (g : nat -> APIStorageAdapter.GatewayCall -> outcome value)
  : APIStorageAdapter.AWorld :=
  {| APIStorageAdapter.gateway := g;
     APIStorageAdapter.cache := APIStorageAdapter.constructor;
     APIStorageAdapter.stored := ∅;
     APIStorageAdapter.calls := [] |}.

(** A gateway whose every call is rejected. *)
Definition gateway_down (n : nat) (c : APIStorageAdapter.GatewayCall)
  : outcome value :=
  Throw (Exn TypeError "Failed to fetch").

(** A gateway that accepts the first call, assigning the identifier 7, and
    rejects every later one. *)
Definition accepts_then_down (n : nat) (c : APIStorageAdapter.GatewayCall)
  : outcome value :=
  match n with
  | O => Ok (VObj [("success", VBool true); ("id", VNum 7)])
  | S _ => Throw (Exn TypeError "Failed to fetch")
  end.

(** A gateway that answers the first call with the list [xs] and rejects
    every later one. *)
Definition lists_then_down (xs : list value) (n : nat)
  (c : APIStorageAdapter.GatewayCall) : outcome value :=
  match n with
  | O => Ok (VObj [("success", VBool true); ("data", VArr xs)])
  | S _ => Throw (Exn TypeError "Failed to fetch")
  end.

(** A server that creates the first record it is sent, under the
    identifier 7, and is unreachable afterwards. *)
Definition creates_then_down : Env :=
  {| apiClientAt := fun _ => Some true;
     fetchAnswer := fun n _ =>
       match n with
       | O => Response 201 (Ok (VObj [("success", VBool true); ("data", VNum 7)]))
       | S _ => NetworkError "Failed to fetch"
       end |}.

(** ** Vocabulary of the further properties *)

Definition add_to (c : collection) : Z -> value -> Js World value :=
  match c with
  | CFaculty => StorageManager.addFaculty
  | CRooms => StorageManager.addRoom
  | CSubjects => StorageManager.addSubject
  | CBreaks => StorageManager.addBreak
  | CPracticals => StorageManager.addPractical
  end.

(** The setter of an entity fetched from the gateway. *)
Definition set_fetched (f : fetched) : value -> Js World unit :=
  match f with
  | FFaculty => StorageManager.setFaculty
  | FRooms => StorageManager.setRooms
  | FSubjects => StorageManager.setSubjects
  | FLeaveRequests => StorageManager.setLeaveRequests
  | FTimetable => StorageManager.setTimetable
  end.

(** The calls a consumer makes on the [StorageManager] once it is
    constructed, [init] apart. *)
Inductive manager_op : Type :=
| MGet (f : fetched)
| MSet (f : fetched) (v : value)
| MAdd (c : collection) (now : Z) (data : value)
| MAddLeaveRequest (now : Z) (iso : string) (requestData : value)
| MRemove (c : collection) (id : value)
| MUpdateLeaveRequest (id updates : value)
| MGetBreaks
| MSetBreaks (breaks : value)
| MGetPracticals
| MSetPracticals (practicals : value)
| MGetUsers
| MSetUsers (users : value)
| MAuthenticate (username password role : value)
| MGetCurrentUser
| MSetCurrentUser (user : value)
| MClearCurrentUser
| MClearAll
| MImportData (jsonData : text).

Definition run_manager_op (o : manager_op) : Js World value :=
  match o with
  | MGet f => get_fetched f
  | MSet f v => set_fetched f v;; mret VUndef
  | MAdd c now d => add_to c now d
  | MAddLeaveRequest now iso d => StorageManager.addLeaveRequest now iso d
  | MRemove c id => remove_from c id
  | MUpdateLeaveRequest id updates => StorageManager.updateLeaveRequest id updates
  | MGetBreaks => StorageManager.getBreaks
  | MSetBreaks v => StorageManager.setBreaks v;; mret VUndef
  | MGetPracticals => StorageManager.getPracticals
  | MSetPracticals v => StorageManager.setPracticals v;; mret VUndef
  | MGetUsers => StorageManager.getUsers
  | MSetUsers v => StorageManager.setUsers v;; mret VUndef
  | MAuthenticate u p r => StorageManager.authenticateUser u p r
  | MGetCurrentUser => StorageManager.getCurrentUser
  | MSetCurrentUser v => StorageManager.setCurrentUser v;; mret VUndef
  | MClearCurrentUser => StorageManager.clearCurrentUser;; mret VUndef
  | MClearAll => StorageManager.clearAll;; mret VUndef
  | MImportData t => StorageManager.importData t
  end.

(** A consumer making calls one after the other, going on after one that
    raised: the world they leave. *)
Fixpoint run_manager_ops (os : list manager_op) (w : World) : World :=
  match os with
  | [] => w
  | o :: os' => run_manager_ops os' (run_manager_op o w).2
  end.

(** The calls that are served by the gateway in REMOTE mode. *)
Definition remote_backed (o : manager_op) : bool :=
  match o with
  | MGet _ | MSet _ _ | MAddLeaveRequest _ _ _ | MUpdateLeaveRequest _ _
  | MAuthenticate _ _ _ => true
  | MAdd c _ _ | MRemove c _ =>
      match c with
      | CFaculty | CRooms | CSubjects => true
      | CBreaks | CPracticals => false
      end
  | _ => false
  end.

(** What a computation leaves alone when it only works on the Durable Local
    Store: everything but the store. *)
Definition store_only_at (w' w : World) : Prop :=
  env w' = env w /\ this w' = this w /\
  clock w' = clock w /\ requests w' = requests w.

Definition store_only {A} (c : Js World A) : Prop :=
  forall w, store_only_at (c w).2 w.

(** What an import leaves alone in REMOTE mode: the manager, and every key
    of the store but those of breaks and users. *)
Definition import_only_at (w' w : World) : Prop :=
  this w' = this w /\
  forall key, key <> key_of w "breaks" -> key <> key_of w "users" ->
              localStorage w' !! key = localStorage w !! key.

(** A computation that always returns. *)
Definition returns {A} (c : Js World A) : Prop :=
  forall w, exists a, (c w).1 = Ok a.

(** The stored record [x] carries the three credentials presented. *)
Definition credentials_match (username password role x : value) : Prop :=
  exists n pw ro,
    field x "username" = Ok n /\ strict_eq n username = true /\
    field x "password" = Ok pw /\ strict_eq pw password = true /\
    field x "role" = Ok ro /\ strict_eq ro role = true.

(** The keys that [clearAll] removes. *)
Definition cleared (prefix key : string) : bool :=
  String.prefix prefix key || String.eqb key "currentUser".

(** The world once one more request [r] has been sent. *)
Definition sent (r : Request) (w : World) : World :=
  set_requests (fun rs => (rs ++ [r])%list) w.

(** The request of the health probe. *)
Definition health_request : Request :=
  APIClient.request_of "http://localhost:5000/health" APIClient.no_options.

(** A computation that leaves the world as it is. *)
Definition idle {A} (c : Js World A) : Prop := forall w, (c w).2 = w.

(** The request by which the gateway creates a record at [endpoint]. *)
Definition post_request (endpoint : string) (x : value) : Request :=
  APIClient.request_of (APIClient.baseURL ++ endpoint)
    (APIClient.with_body "POST" x).

(** The world once the creation requests of the elements [xs] have been
    sent to [endpoint], in order. *)
Definition posted (endpoint : string) (xs : list value) (w : World) : World :=
  set_requests (fun rs => (rs ++ map (post_request endpoint) xs)%list) w.

(** What a batch import started in [w] keeps of [x], the element of [xs] at
    index [i]: the record [{ id, ...x }] when the creation request for [x],
    sent after those of the [i] elements before it, returns [id], and
    nothing when that request raises. *)
Definition imported (endpoint : string) (xs : list value) (w : World)
  (i : nat) (x : value) : option value :=
  match (APIClient.makeRequest endpoint (APIClient.with_body "POST" x)
           (posted endpoint (take i xs) w)).1 with
  | Ok id => Some (VObj (spread [("id", id)] x))
  | Throw _ => None
  end.

(** The records a batch import of [xs] started in [w] returns. *)
Definition imported_all (endpoint : string) (xs : list value) (w : World)
  : list value :=
  omap id (imap (imported endpoint xs w) xs).


(** * Properties *)

Ltac js_unfold :=
  unfold mbind, Js_bind, mret, Js_ret, throw, try_catch, lift, gets, modify in *.

(** ** Computations that only talk to the gateway *)

Lemma untouched_refl w : untouched w w.
Proof. by repeat split. Qed.

Lemma untouched_trans w1 w2 w3 :
  untouched w3 w2 -> untouched w2 w1 -> untouched w3 w1.
Proof.
  intros (? & ? & ? & ?) (? & ? & ? & ?). repeat split; congruence.
Qed.

Lemma gateway_only_ret {A} (a : A) : gateway_only (mret a).
Proof. intros w. apply untouched_refl. Qed.

Lemma gateway_only_throw {A} e : gateway_only (@throw World A e).
Proof. intros w. apply untouched_refl. Qed.

Lemma gateway_only_lift {A} (r : outcome A) : gateway_only (lift r).
Proof. intros w. apply untouched_refl. Qed.

Lemma gateway_only_bind {A B} (c : Js World A) (k : A -> Js World B) :
  gateway_only c -> (forall a, gateway_only (k a)) -> gateway_only (c ≫= k).
Proof.
  intros Hc Hk w. js_unfold. specialize (Hc w).
  destruct (c w) as [[a|e] w1]; simpl in *; [|done].
  eapply untouched_trans; [apply Hk | done].
Qed.

Lemma gateway_only_try_catch {A} (c : Js World A) h :
  gateway_only c -> (forall e, gateway_only (h e)) -> gateway_only (try_catch c h).
Proof.
  intros Hc Hh w. js_unfold. specialize (Hc w).
  destruct (c w) as [[a|e] w1]; simpl in *; [done|].
  eapply untouched_trans; [apply Hh | done].
Qed.

Lemma gateway_only_fetch u o : gateway_only (APIClient.fetch u o).
Proof.
  intros w. unfold APIClient.fetch.
  destruct (fetchAnswer _ _ _); by repeat split.
Qed.

Lemma gateway_only_on_apiClient {A} (c : Js World A) :
  gateway_only c -> gateway_only (StorageManager.on_apiClient c).
Proof.
  intros Hc w. unfold StorageManager.on_apiClient.
  destruct (window_apiClient w); [apply Hc | apply untouched_refl].
Qed.

Ltac gateway_only_tac :=
  repeat first
    [ progress intros
    | apply gateway_only_bind
    | apply gateway_only_try_catch
    | apply gateway_only_on_apiClient
    | apply gateway_only_fetch
    | apply gateway_only_ret
    | apply gateway_only_throw
    | apply gateway_only_lift
    | match goal with
      | |- gateway_only (let '(_, _) := ?p in _) => destruct p
      | |- gateway_only (if ?b then _ else _) => destruct b
      end ].

Lemma gateway_only_makeRequest endpoint options :
  gateway_only (APIClient.makeRequest endpoint options).
Proof. unfold APIClient.makeRequest. gateway_only_tac. Qed.

Lemma gateway_only_healthCheck : gateway_only APIClient.healthCheck.
Proof. unfold APIClient.healthCheck. gateway_only_tac. Qed.

Lemma gateway_only_getTimetable : gateway_only APIClient.getTimetable.
Proof.
  unfold APIClient.getTimetable. gateway_only_tac; apply gateway_only_makeRequest.
Qed.

Lemma gateway_only_addLeaveRequest iso d :
  gateway_only (APIClient.addLeaveRequest iso d).
Proof.
  unfold APIClient.addLeaveRequest. gateway_only_tac; apply gateway_only_makeRequest.
Qed.

(** ** The Remote Gateway *)

Lemma try_catch_rethrow {W A} (c : Js W A) w :
  try_catch c (fun error => throw error) w = c w.
Proof. js_unfold. by destruct (c w) as [[a|e] w']. Qed.

(** One case of an answer: the hypotheses of the case are confronted with
    what the answer is known to be. *)
Ltac answer_case :=
  intros;
  repeat match goal with
    | H : Response _ _ = Response _ _ |- _ => injection H as ? ?; subst
    | H : NetworkError _ = NetworkError _ |- _ => injection H as ?; subst
    | H : Ok _ = Ok _ |- _ => injection H as ?; subst
    | H : Throw _ = Throw _ |- _ => injection H as ?; subst
    | H : ?x = _, H' : context [?x] |- _ => rewrite H in H'; cbv iota in H'
    end;
  try discriminate; try congruence;
  try (match goal with
       | H : field ?d _ = Throw _ |- _ => destruct d; discriminate
       end);
  eauto 12.

(** C7 (as amended). A request either returns the unwrapped payload or
    raises an error object with a message, never a failure envelope, and
    what it does is settled by the answer alone. A rejected fetch raises
    fetch's own TypeError, and a body that [response.json()] cannot read
    raises the error of [response.json()], both as they are. A non-2xx
    response raises an Error with the upstream [error] when it is truthy and
    with ["HTTP error! status: <status>"] otherwise. A 2xx response whose
    [success] is falsy raises an Error with the upstream [error] when it is
    truthy and with the fixed text ["API request failed"] otherwise. A body
    that has no properties to read ([null]) raises the TypeError of the first
    read: of [error] under a non-2xx status, of [success] under a 2xx one.
    The payload, [data.data] or the whole body when there is none, is
    returned exactly for a 2xx response with a truthy [success]. *)
Theorem makeRequest_raises_or_unwraps endpoint options w :
  let res := (APIClient.makeRequest endpoint options w).1 in
  let answer := answer_to endpoint options w in
  (forall msg, answer = NetworkError msg -> res = Throw (Exn TypeError msg)) /\
  (forall st e, answer = Response st (Throw e) -> res = Throw e) /\
  (forall st data err,
     answer = Response st (Ok data) -> APIClient.response_ok st = false ->
     field data "error" = Ok err ->
     res = Throw (Exn Error (if truthy err then to_string err
                             else "HTTP error! status: " ++ pretty st))) /\
  (forall st data success,
     answer = Response st (Ok data) -> APIClient.response_ok st = true ->
     field data "success" = Ok success -> truthy success = false ->
     exists err,
       field data "error" = Ok err /\
       res = Throw (Exn Error (if truthy err then to_string err
                               else "API request failed"))) /\
  (forall st data e,
     answer = Response st (Ok data) ->
     field data (if APIClient.response_ok st then "success" else "error") = Throw e ->
     res = Throw e) /\
  (forall st data success,
     answer = Response st (Ok data) -> APIClient.response_ok st = true ->
     field data "success" = Ok success -> truthy success = true ->
     exists payload,
       field data "data" = Ok payload /\
       res = Ok (match payload with VUndef => data | _ => payload end)) /\
  (forall v, res = Ok v ->
     exists st data success payload,
       answer = Response st (Ok data) /\ APIClient.response_ok st = true /\
       field data "success" = Ok success /\ truthy success = true /\
       field data "data" = Ok payload /\
       v = match payload with VUndef => data | _ => payload end).
Proof.
  unfold answer_to, APIClient.makeRequest, APIClient.fetch, APIClient.new_Error,
    APIClient.response_json.
  js_unfold. cbv zeta.
  destruct (fetchAnswer _ _ _) as [msg | st [data|e]]; simpl.
  2: destruct (APIClient.response_ok st) eqn:Hok; simpl;
     [ destruct (field data "success") as [suc|e] eqn:Hsuc; simpl;
       [ destruct (truthy suc) eqn:Ht; simpl;
         [ destruct (field data "data") as [pay|e] eqn:Hpay; simpl
         | destruct (field data "error") as [err|e] eqn:Herr; simpl ]
       | ]
     | destruct (field data "error") as [err|e] eqn:Herr; simpl ].
  all: (split; [|split; [|split; [|split; [|split; [|split]]]]]); answer_case.
Qed.

Lemma makeRequest_raises_or_unwraps_witness :
  (APIClient.makeRequest "/faculty" APIClient.no_options
     (start (answering (Response 500 (Ok (VObj [])))))).1
  = Throw (Exn Error "HTTP error! status: 500").
Proof.
  apply (proj1 (proj2 (proj2
           (makeRequest_raises_or_unwraps "/faculty" APIClient.no_options
              (start (answering (Response 500 (Ok (VObj [])))))))) 500
           (VObj []) VUndef); reflexivity.
Defined.

(** C7 (as stated) fails twice over. The failures are not of a single kind:
    a network error surfaces as fetch's TypeError, a refused request as an
    Error. And the generic message is not keyed on the status: two responses
    with different 2xx statuses, a falsy [success] and no upstream message
    raise the same error. *)
Lemma makeRequest_failures_are_not_uniform :
  let raised a :=
    (APIClient.makeRequest "/faculty" APIClient.no_options (start (answering a))).1 in
  let refused := Ok (VObj [("success", VBool false)]) in
  raised (NetworkError "Failed to fetch") = Throw (Exn TypeError "Failed to fetch") /\
  raised (Response 200 refused) = Throw (Exn Error "API request failed") /\
  raised (Response 201 refused) = Throw (Exn Error "API request failed") /\
  kind (Exn TypeError "Failed to fetch") <> kind (Exn Error "API request failed").
Proof. repeat split. discriminate. Qed.

(** ** Writes in REMOTE mode *)

Lemma gateway_only_add endpoint (k : value -> value) d :
  gateway_only
    (id ← APIClient.makeRequest endpoint (APIClient.with_body "POST" d);
     mret (k id)).
Proof. gateway_only_tac; apply gateway_only_makeRequest. Qed.

(** What the branch taken in REMOTE mode amounts to: the gateway call, its
    error rethrown as it is. *)
Lemma remote_branch {A} (c : Js World A) w :
  try_catch (StorageManager.on_apiClient c) (fun error => throw error) w
  = StorageManager.on_apiClient c w.
Proof. apply try_catch_rethrow. Qed.

Lemma remote_failure_kept {A} (c k : Js World A) w e :
  gateway_only c ->
  useLocalStorage (this w) = false ->
  (StorageManager.on_apiClient c w).1 = Throw e ->
  let r :=
    (local ← gets (fun w => useLocalStorage (this w));
     if local : bool then k
     else try_catch (StorageManager.on_apiClient c) (fun error => throw error)) w in
  r.1 = Throw e /\ localStorage r.2 = localStorage w.
Proof.
  intros Hc Hmode Hfail. cbv zeta.
  assert (Heq : (local ← gets (fun w => useLocalStorage (this w));
                 if local : bool then k
                 else try_catch (StorageManager.on_apiClient c)
                        (fun error => throw error)) w
                = StorageManager.on_apiClient c w).
  { unfold mbind, Js_bind, gets. rewrite Hmode. apply remote_branch. }
  rewrite Heq. split; [done|].
  pose proof (gateway_only_on_apiClient c Hc) as Hframe.
  destruct (Hframe w) as (_ & _ & Hstore & _). exact Hstore.
Qed.

(** ** Setters in REMOTE mode *)

(** C10. While [useLocalStorage] is false, [setFaculty], [setRooms],
    [setSubjects], [setLeaveRequests] and [setTimetable] return without
    changing anything: the Durable Local Store, like the rest of the world,
    is the same before and after the call, whatever the value passed. *)
Theorem setters_do_nothing_in_remote_mode w v :
  useLocalStorage (this w) = false ->
  StorageManager.setFaculty v w = (Ok tt, w) /\
  StorageManager.setRooms v w = (Ok tt, w) /\
  StorageManager.setSubjects v w = (Ok tt, w) /\
  StorageManager.setLeaveRequests v w = (Ok tt, w) /\
  StorageManager.setTimetable v w = (Ok tt, w).
Proof.
  intros Hmode.
  unfold StorageManager.setFaculty, StorageManager.setRooms,
    StorageManager.setSubjects, StorageManager.setLeaveRequests,
    StorageManager.setTimetable, StorageManager.writeLocal_if_local.
  js_unfold. rewrite Hmode. done.
Qed.

Lemma setters_do_nothing_in_remote_mode_witness :
  let w := remote_world offline {["timetable_faculty" := TJson (VArr [])]} in
  localStorage (StorageManager.setFaculty (VArr [VObj [("id", VNum 1)]]) w).2
  = localStorage w.
Proof.
  cbv zeta.
  rewrite (proj1 (setters_do_nothing_in_remote_mode
                    (remote_world offline {["timetable_faculty" := TJson (VArr [])]})
                    (VArr [VObj [("id", VNum 1)]]) eq_refl)).
  reflexivity.
Defined.

(** ** The Durable Local Store *)

(** Induction on values, through the lists they nest. *)
Lemma value_ind_nested (P : value -> Prop) :
  P VUndef -> P VNull -> (forall b, P (VBool b)) -> (forall n, P (VNum n)) ->
  (forall s, P (VStr s)) ->
  (forall l, Forall P l -> P (VArr l)) ->
  (forall o, Forall (fun kv => P kv.2) o -> P (VObj o)) ->
  forall v, P v.
Proof.
  intros Hu Hn Hb Hz Hs Ha Ho.
  fix IH 1. intros [| |b|n|s|l|o];
    [exact Hu | exact Hn | apply Hb | apply Hz | apply Hs | |].
  - apply Ha. induction l as [|x l IHl]; constructor; [apply IH | exact IHl].
  - apply Ho. induction o as [|[k x] o IHo]; constructor; [apply IH | exact IHo].
Qed.

Lemma jsonify_undef v : jsonify v = VUndef -> v = VUndef.
Proof. by destruct v. Qed.

(** A JSON round trip changes nothing the second time. *)
Lemma jsonify_idempotent v : jsonify (jsonify v) = jsonify v.
Proof.
  induction v as [| | | | |l IH|o IH] using value_ind_nested; try done.
  - simpl. f_equal. rewrite map_map. apply map_ext_Forall.
    eapply Forall_impl; [exact IH|]. intros x Hx. simpl in Hx.
    destruct x; try done; simpl in *; by rewrite ?Hx.
  - simpl. f_equal. induction IH as [|[k x] o Hx _ IHo]; [done|].
    simpl in *. destruct x; simpl in *; rewrite ?IHo; try done.
    + injection Hx as Hx. by rewrite Hx.
    + injection Hx as Hx. by rewrite Hx.
Qed.

(** So every JSON text this code stores holds a [json_value]. *)
Lemma JSON_stringify_json_value v t : JSON_stringify v = TJson t -> json_value t.
Proof.
  unfold JSON_stringify, json_value.
  destruct v as [| | | | |l|o]; intros [= <-]; try done;
    [apply (jsonify_idempotent (VArr l)) | apply (jsonify_idempotent (VObj o))].
Qed.

Lemma readLocal_run name dflt w :
  StorageManager.readLocal name dflt w
  = (StorageManager.parse_or dflt (localStorage w !! key_of w name), w).
Proof. reflexivity. Qed.

Lemma writeLocal_run name v w :
  StorageManager.writeLocal name v w
  = (Ok tt, set_localStorage (insert (key_of w name) (JSON_stringify v)) w).
Proof. reflexivity. Qed.


Lemma filter_id_ne_absent id xs : id_absent id xs -> filter_id_ne id xs = Ok xs.
Proof.
  induction 1 as [|f xs (fid & Hfid & Hne) _ IH]; simpl; [done|].
  by rewrite Hfid, IH, Hne.
Qed.

Lemma json_value_elements xs :
  json_value (VArr xs) ->
  map (fun x => match x with VUndef => VNull | _ => jsonify x end) xs = xs.
Proof. unfold json_value. simpl. by intros [= H]. Qed.

Lemma json_value_array xs :
  map (fun x => match x with VUndef => VNull | _ => jsonify x end) xs = xs ->
  json_value (VArr xs).
Proof. unfold json_value. simpl. by intros ->. Qed.

Lemma map_fixed_Forall {A} (f : A -> A) (l : list A) :
  map f l = l <-> Forall (fun x => f x = x) l.
Proof.
  induction l as [|x l IH]; simpl; [by split; [constructor|]|].
  split.
  - intros [= Hx Hl]. constructor; [done|]. by apply IH.
  - intros H. apply Forall_cons in H as [Hx Hl]. rewrite Hx. f_equal. by apply IH.
Qed.

Lemma json_value_filter (p : value -> bool) xs :
  json_value (VArr xs) -> json_value (VArr (List.filter p xs)).
Proof.
  intros H. apply json_value_array, map_fixed_Forall.
  apply json_value_elements, map_fixed_Forall in H.
  induction H as [|x xs Hx _ IH]; simpl; [constructor|].
  destruct (p x); [constructor|]; done.
Qed.

Lemma holds_read name xs w :
  holds w name xs ->
  StorageManager.readLocal name (VArr []) w = (Ok (VArr xs), w).
Proof. intros H. rewrite readLocal_run. by rewrite H. Qed.

Lemma holds_after_write name v w key t :
  key = key_of w name ->
  JSON_stringify (VArr v) = t ->
  holds (set_localStorage (insert key t) w) name
    (map (fun x => match x with VUndef => VNull | _ => jsonify x end) v).
Proof.
  intros -> <-. unfold holds, key_of. simpl. by rewrite lookup_insert_eq.
Qed.

(** The LOCAL branch of an [add]. *)
Lemma add_body_run name record xs w (write : value -> Js World unit) :
  (forall v, write v w = StorageManager.writeLocal name v w) ->
  holds w name xs ->
  json_value (VArr xs) ->
  (c ← StorageManager.readLocal name (VArr []);
   c' ← lift (array_push c (VObj record));
   write c';;
   mret (VObj record)) w
  = (Ok (VObj record),
     set_localStorage
       (insert (key_of w name)
          (TJson (VArr (xs ++ [jsonify (VObj record)])))) w).
Proof.
  intros Hwrite Hholds Hjson.
  unfold mbind, Js_bind. rewrite (holds_read _ _ _ Hholds).
  unfold lift. cbn [array_push]. rewrite Hwrite, writeLocal_run.
  unfold JSON_stringify. cbn [jsonify]. rewrite map_app.
  by rewrite (json_value_elements _ Hjson).
Qed.

Lemma local_setter name v w :
  useLocalStorage (this w) = true ->
  StorageManager.writeLocal_if_local name v w = StorageManager.writeLocal name v w.
Proof.
  intros Hmode. unfold StorageManager.writeLocal_if_local.
  unfold mbind at 1. unfold Js_bind at 1. unfold gets at 1. by rewrite Hmode.
Qed.

Ltac local_branch Hmode :=
  unfold mbind at 1; unfold Js_bind at 1; unfold gets at 1; rewrite Hmode.

Lemma add_to_run (c : collection) w now d xs :
  useLocalStorage (this w) = true ->
  holds w (collection_name c) xs ->
  json_value (VArr xs) ->
  add_to c now d w
  = (Ok (VObj (spread [("id", VNum now)] d)),
     set_localStorage
       (insert (key_of w (collection_name c))
          (TJson (VArr (xs ++ [jsonify (VObj (spread [("id", VNum now)] d))]))))
       w).
Proof.
  intros Hmode Hholds Hjson.
  destruct c; cbn [add_to collection_name] in *.
  1-3: unfold StorageManager.addFaculty, StorageManager.addRoom,
         StorageManager.addSubject; local_branch Hmode;
       apply (add_body_run _ _ xs w); try done;
       intros v; by apply local_setter.
  all: by apply (add_body_run _ _ xs w).
Qed.

Lemma read_from_holds (c : collection) w xs :
  holds w (collection_name c) xs -> read_from c w = (Ok (VArr xs), w).
Proof.
  intros H. destruct c; cbn [read_from collection_name] in *;
    unfold StorageManager.getFacultyFromLocalStorage,
      StorageManager.getRoomsFromLocalStorage,
      StorageManager.getSubjectsFromLocalStorage,
      StorageManager.getBreaks, StorageManager.getPracticals;
    by apply holds_read.
Qed.

Lemma holds_insert w name xs :
  holds (set_localStorage (insert (key_of w name) (TJson (VArr xs))) w) name xs.
Proof. unfold holds, key_of. simpl. by rewrite lookup_insert_eq. Qed.

Lemma filter_id_ne_records id xs :
  records xs ->
  filter_id_ne id xs = Ok (List.filter (fun f => negb (has_id id f)) xs).
Proof.
  induction 1 as [|f xs (fid & Hfid) _ IH]; simpl; [done|].
  unfold has_id. rewrite Hfid, IH. by destruct (strict_eq fid id).
Qed.

Lemma id_absent_filter id xs :
  records xs -> id_absent id (List.filter (fun f => negb (has_id id f)) xs).
Proof.
  induction 1 as [|f xs (fid & Hfid) _ IH]; simpl; [constructor|].
  unfold has_id at 1. rewrite Hfid.
  destruct (strict_eq fid id) eqn:Heq; simpl; [done|].
  constructor; [|done]. by exists fid.
Qed.

(** The LOCAL branch of a remover. *)
Lemma remove_body_run name id xs w (write : value -> Js World unit) :
  (forall v, write v w = StorageManager.writeLocal name v w) ->
  holds w name xs -> json_value (VArr xs) -> records xs ->
  (c ← StorageManager.readLocal name (VArr []);
   filtered ← lift (array_filter_id_ne c id);
   write filtered;;
   mret VUndef) w
  = (Ok VUndef,
     set_localStorage
       (insert (key_of w name)
          (TJson (VArr (List.filter (fun f => negb (has_id id f)) xs)))) w).
Proof.
  intros Hwrite Hholds Hjson Hrecords.
  unfold mbind, Js_bind. rewrite (holds_read _ _ _ Hholds).
  unfold lift. cbn [array_filter_id_ne].
  rewrite (filter_id_ne_records _ _ Hrecords).
  rewrite Hwrite, writeLocal_run.
  unfold JSON_stringify.
  by rewrite (json_value_filter _ _ Hjson).
Qed.

Lemma remove_from_run (c : collection) w id xs :
  useLocalStorage (this w) = true ->
  holds w (collection_name c) xs -> json_value (VArr xs) -> records xs ->
  remove_from c id w
  = (Ok VUndef,
     set_localStorage
       (insert (key_of w (collection_name c))
          (TJson (VArr (List.filter (fun f => negb (has_id id f)) xs)))) w).
Proof.
  intros Hmode Hholds Hjson Hrecords.
  destruct c; cbn [remove_from collection_name] in *.
  1-3: unfold StorageManager.removeFaculty, StorageManager.removeRoom,
         StorageManager.removeSubject; local_branch Hmode;
       apply (remove_body_run _ id xs w); try done;
       intros v; by apply local_setter.
  all: by apply (remove_body_run _ id xs w).
Qed.

Lemma records_filter (p : value -> bool) xs : records xs -> records (List.filter p xs).
Proof.
  induction 1 as [|f xs Hf _ IH]; simpl; [constructor|].
  destruct (p f); [constructor|]; done.
Qed.

Lemma filter_absent id xs :
  id_absent id xs -> List.filter (fun f => negb (has_id id f)) xs = xs.
Proof.
  induction 1 as [|f xs (fid & Hfid & Hne) _ IH]; simpl; [done|].
  unfold has_id at 1. rewrite Hfid, Hne. simpl. by rewrite IH.
Qed.

Lemma set_localStorage_twice k t t' w :
  set_localStorage (insert k t') (set_localStorage (insert k t) w)
  = set_localStorage (insert k t') w.
Proof.
  destruct w. unfold set_localStorage. simpl. by rewrite insert_insert_eq.
Qed.





(** ** Breaks and practicals *)

Lemma local_only_refl w : local_only w w.
Proof. by repeat split. Qed.

Lemma local_only_trans w1 w2 w3 :
  local_only w3 w2 -> local_only w2 w1 -> local_only w3 w1.
Proof.
  intros (Hr & Ht & Hc & He & Hs) (Hr' & Ht' & Hc' & He' & Hs').
  repeat split; try congruence.
  intros key Hb Hp. rewrite Hs, Hs'; try done.
  all: unfold key_of; by rewrite Ht'.
Qed.

Lemma local_only_write name v w :
  name = "breaks" \/ name = "practicals" ->
  local_only (StorageManager.writeLocal name v w).2 w.
Proof.
  intros Hname. rewrite writeLocal_run. simpl. repeat split.
  intros key Hb Hp. apply lookup_insert_ne. by destruct Hname as [-> | ->].
Qed.

(** The body shared by [addBreak] and [addPractical]. *)
Lemma local_only_add name record w :
  name = "breaks" \/ name = "practicals" ->
  local_only
    ((c ← StorageManager.readLocal name (VArr []);
      c' ← lift (array_push c record);
      StorageManager.writeLocal name c';;
      mret record) w).2 w.
Proof.
  intros Hname. unfold mbind, Js_bind. rewrite readLocal_run.
  destruct (StorageManager.parse_or _ _) as [c|e]; [|apply local_only_refl].
  unfold lift. destruct (array_push c record) as [c'|e]; [|apply local_only_refl].
  apply (local_only_write name c' w Hname).
Qed.

(** The body shared by [removeBreak] and [removePractical]. *)
Lemma local_only_remove name id w :
  name = "breaks" \/ name = "practicals" ->
  local_only
    ((c ← StorageManager.readLocal name (VArr []);
      filtered ← lift (array_filter_id_ne c id);
      StorageManager.writeLocal name filtered;;
      mret VUndef) w).2 w.
Proof.
  intros Hname. unfold mbind, Js_bind. rewrite readLocal_run.
  destruct (StorageManager.parse_or _ _) as [c|e]; [|apply local_only_refl].
  unfold lift. destruct (array_filter_id_ne c id) as [c'|e]; [|apply local_only_refl].
  apply (local_only_write name c' w Hname).
Qed.

Lemma local_only_op o w : local_only (run_local_op o w).2 w.
Proof.
  destruct o; simpl run_local_op.
  - apply local_only_refl.
  - apply (local_only_write "breaks"); by left.
  - apply (local_only_add "breaks"); by left.
  - apply (local_only_remove "breaks"); by left.
  - apply local_only_refl.
  - apply (local_only_write "practicals"); by right.
  - apply (local_only_add "practicals"); by right.
  - apply (local_only_remove "practicals"); by right.
Qed.

(** C4. Whatever sequence of get, set (update), add and remove operations
    on breaks and practicals is run, in whatever mode and world, the Remote
    Gateway records no request: the request log is the one it was, as are
    the manager's fields and the clock, and the only keys of the Durable
    Local Store that can have changed are those of breaks and practicals. *)
Theorem breaks_and_practicals_stay_local (os : list local_op) (w : World) :
  requests (run_local_ops os w) = requests w /\
  this (run_local_ops os w) = this w /\
  clock (run_local_ops os w) = clock w /\
  env (run_local_ops os w) = env w /\
  forall key, key <> key_of w "breaks" -> key <> key_of w "practicals" ->
              localStorage (run_local_ops os w) !! key = localStorage w !! key.
Proof.
  change (local_only (run_local_ops os w) w).
  revert w. induction os as [|o os IH]; intros w; simpl.
  - apply local_only_refl.
  - eapply local_only_trans; [apply IH | apply local_only_op].
Qed.

(** A run of break and practical operations in REMOTE mode, with the gateway
    reachable: nothing is requested from it and the faculty key is as
    before. *)
Lemma breaks_and_practicals_stay_local_witness :
  let w := remote_world (answering (Response 200 (Ok (VObj []))))
             {["timetable_faculty" := TJson (VArr [])]} in
  let os := [AddBreak 1700000000000 (VObj [("name", VStr "Lunch")]);
             GetBreaks; RemoveBreak (VNum 1700000000000);
             AddPractical 1700000000001 (VObj [("subject", VStr "Lab")]);
             SetPracticals (VArr []); RemovePractical (VNum 1)] in
  requests (run_local_ops os w) = [] /\
  localStorage (run_local_ops os w) !! "timetable_faculty"
    = Some (TJson (VArr [])).
Proof.
  cbv zeta.
  destruct (breaks_and_practicals_stay_local
              [AddBreak 1700000000000 (VObj [("name", VStr "Lunch")]);
               GetBreaks; RemoveBreak (VNum 1700000000000);
               AddPractical 1700000000001 (VObj [("subject", VStr "Lab")]);
               SetPracticals (VArr []); RemovePractical (VNum 1)]
              (remote_world (answering (Response 200 (Ok (VObj []))))
                 {["timetable_faculty" := TJson (VArr [])]}))
    as (Hrequests & _ & _ & _ & Hstore).
  split; [exact Hrequests|].
  rewrite (Hstore "timetable_faculty"); [reflexivity | discriminate | discriminate].
Defined.


(** ** Mode arbitration *)

Section Arbitration.

Local Open Scope nat_scope.

Lemma later_0 w : later 0 w = w.
Proof. destruct w. unfold later, set_clock. simpl. f_equal. lia. Qed.

Lemma later_later a b w : later a (later b w) = later (b + a) w.
Proof. destruct w. unfold later, set_clock. simpl. f_equal. lia. Qed.

Lemma wait_present_run maxAttempts interval attempts w :
  exists k,
    StorageManager.wait_present maxAttempts interval attempts w
      = (Ok (attempts + k), later (k * interval) w) /\
    attempts + k <= Nat.max attempts maxAttempts /\
    (window_apiClient (later (k * interval) w) = None -> maxAttempts <= attempts + k).
Proof.
  funelim (StorageManager.wait_present maxAttempts interval attempts w).
  - exists 0. rewrite later_0, Nat.add_0_r. repeat split; lia.
  - exists 0. rewrite later_0, Nat.add_0_r. repeat split; [lia|].
    intros Hnone. congruence.
  - destruct H as (k & Hrun & Hle & Hnone).
    exists (S k). rewrite Hrun.
    change (set_clock (fun t => t + interval) w) with (later interval w) in *.
    rewrite later_later in *. simpl.
    replace (S (attempts + k)) with (attempts + S k) by lia.
    repeat split; [lia|]. intros Hn. apply Hnone in Hn. lia.
Qed.

Lemma wait_initialized_run ceiling interval attempts w :
  exists k r,
    StorageManager.wait_initialized ceiling interval attempts w
      = (r, later (k * interval) w) /\
    attempts + k <= Nat.max attempts ceiling.
Proof.
  funelim (StorageManager.wait_initialized ceiling interval attempts w).
  all: try (exists 0; eexists; rewrite later_0; split; [reflexivity|lia]).
  destruct H as (k & r & Hrun & Hle).
  exists (S k), r. rewrite Hrun.
  change (set_clock (fun t => t + interval) w) with (later interval w) in *.
  rewrite later_later. simpl. split; [done|lia].
Qed.

Lemma waitForAPIClient_run maxAttempts interval w :
  exists k r,
    StorageManager.waitForAPIClient maxAttempts interval w
      = (r, later (k * interval) w) /\
    k <= 2 * maxAttempts.
Proof.
  unfold StorageManager.waitForAPIClient. js_unfold.
  destruct (wait_present_run maxAttempts interval 0 w) as (k1 & -> & Hle1 & _).
  simpl in Hle1.
  destruct (window_apiClient (later (k1 * interval) w)).
  - destruct (wait_initialized_run (maxAttempts * 2) interval k1
                (later (k1 * interval) w)) as (k2 & r & Hrun & Hle2).
    simpl. rewrite Hrun, later_later.
    exists (k1 + k2). rewrite Nat.mul_add_distr_r.
    destruct r; eexists; (split; [reflexivity|lia]).
  - exists k1. eexists. split; [reflexivity|lia].
Qed.

Lemma waitForAPIClient_never_present maxAttempts interval w :
  (forall k, k <= maxAttempts ->
     apiClientAt (env w) (clock w + k * interval) = None) ->
  StorageManager.waitForAPIClient maxAttempts interval w
  = (Throw (Exn Error "API client not available after waiting"),
     later (maxAttempts * interval) w).
Proof.
  intros Hnever.
  unfold StorageManager.waitForAPIClient. js_unfold.
  destruct (wait_present_run maxAttempts interval 0 w) as (k & -> & Hle & Hmax).
  simpl in Hle.
  assert (Hnone : window_apiClient (later (k * interval) w) = None).
  { unfold window_apiClient. simpl. apply Hnever. lia. }
  rewrite Hnone. apply Hmax in Hnone.
  assert (k = maxAttempts) as -> by lia. reflexivity.
Qed.

Lemma seed_step prefix entry w :
  localStoragePrefix (this w) = prefix ->
  (let '(key, defaultValue) := entry in
   prefix ← gets (fun w => localStoragePrefix (this w));
   data ← getItem (prefix ++ key);
   if negb (text_truthy data)
   then setItem (prefix ++ key) (JSON_stringify defaultValue)
   else mret tt) w
  = (Ok tt, set_localStorage (fun s => seed_entry prefix s entry) w).
Proof.
  intros <-. destruct entry as [key d]. destruct w as [e m s c r].
  unfold getItem, setItem, seed_entry. js_unfold. simpl.
  unfold set_localStorage; simpl.
  by destruct (text_truthy (s !! _)).
Qed.

Lemma initLocalStorage_run w :
  StorageManager.initLocalStorage w
  = (Ok tt,
     set_localStorage
       (seeded (localStoragePrefix (this w)) StorageManager.defaultData) w).
Proof.
  unfold StorageManager.initLocalStorage, seeded.
  generalize StorageManager.defaultData as l.
  intros l. revert w. induction l as [|entry l IH]; intros w.
  - by destruct w.
  - cbn [StorageManager.forEach foldl].
    unfold mbind at 1. unfold Js_bind at 1.
    rewrite (seed_step (localStoragePrefix (this w)) entry w eq_refl).
    rewrite IH. by destruct w.
Qed.

Lemma string_app_inj_r (p a b : string) : p ++ a = p ++ b -> a = b.
Proof. induction p as [|c p IH]; simpl; [done|]. intros [= H]. auto. Qed.

Lemma seed_entry_other prefix store entry key :
  key <> prefix ++ entry.1 ->
  seed_entry prefix store entry !! key = store !! key.
Proof.
  intros Hne. unfold seed_entry.
  destruct (text_truthy _); [done|]. by rewrite lookup_insert_ne.
Qed.

Lemma seeded_other prefix entries store key :
  (forall entry, entry ∈ entries -> key <> prefix ++ entry.1) ->
  seeded prefix entries store !! key = store !! key.
Proof.
  unfold seeded. revert store.
  induction entries as [|entry entries IH]; intros store Hne; simpl; [done|].
  rewrite IH.
  - apply seed_entry_other, Hne. by left.
  - intros e He. apply Hne. by right.
Qed.

Lemma seeded_entry prefix entries store name dflt :
  NoDup entries.*1 ->
  (name, dflt) ∈ entries ->
  seeded prefix entries store !! (prefix ++ name)
  = if text_truthy (store !! (prefix ++ name)) then store !! (prefix ++ name)
    else Some (JSON_stringify dflt).
Proof.
  unfold seeded. revert store.
  induction entries as [|entry entries IH]; intros store Hnd Hin; simpl.
  - by apply elem_of_nil in Hin.
  - apply NoDup_cons in Hnd as [Hfresh Hnd].
    apply elem_of_cons in Hin as [<- | Hin].
    + change (foldl (seed_entry prefix) ?s entries) with (seeded prefix entries s).
      rewrite seeded_other.
      * unfold seed_entry. simpl.
        destruct (text_truthy (store !! _)) eqn:Ht; [done|].
        by rewrite lookup_insert_eq.
      * intros e He Heq. apply string_app_inj_r in Heq.
        apply Hfresh. simpl in Heq. rewrite Heq.
        apply list_elem_of_fmap. by exists e.
    + rewrite IH by done.
      rewrite seed_entry_other; [done|].
      intros Heq. apply string_app_inj_r in Heq.
      apply Hfresh. rewrite <- Heq.
      apply list_elem_of_fmap. by exists (name, dflt).
Qed.

Lemma defaultData_names_NoDup : NoDup StorageManager.defaultData.*1.
Proof. apply (bool_decide_unpack _). by vm_compute. Qed.

Lemma later_untouched_store ms w :
  env (later ms w) = env w /\ this (later ms w) = this w /\
  localStorage (later ms w) = localStorage w /\
  requests (later ms w) = requests w.
Proof. done. Qed.

Lemma initialized_guard w :
  initialized (this w) = true ->
  StorageManager.init_unless_initialized w = (Ok tt, w).
Proof.
  intros H. unfold StorageManager.init_unless_initialized. js_unfold. by rewrite H.
Qed.

(** An asynchronous getter in LOCAL mode, once initialised, is the read of
    the store. *)
Lemma get_entity_local name dflt remote w :
  initialized (this w) = true -> useLocalStorage (this w) = true ->
  StorageManager.get_entity name dflt remote w
  = StorageManager.readLocal name dflt w.
Proof.
  intros Hinit Hmode. unfold StorageManager.get_entity.
  unfold mbind at 1. unfold Js_bind at 1. rewrite (initialized_guard _ Hinit).
  unfold mbind at 1. unfold Js_bind at 1. unfold gets at 1. by rewrite Hmode.
Qed.

(** What [init] does, by cases on the wait and on the probe: it returns
    normally with [initialized] set, in REMOTE mode with the store as it was
    when the wait succeeds and the probe answers healthy, and in LOCAL mode
    with the store seeded otherwise. *)
Lemma init_cases w :
  (StorageManager.init w).1 = Ok tt /\
  initialized (this (StorageManager.init w).2) = true /\
  localStoragePrefix (this (StorageManager.init w).2)
    = localStoragePrefix (this w) /\
  ((probe w = Ok true /\
    (StorageManager.waitForAPIClient 50 100 w).1 = Ok tt /\
    useLocalStorage (this (StorageManager.init w).2) = false /\
    localStorage (StorageManager.init w).2 = localStorage w)
   \/
   (((StorageManager.waitForAPIClient 50 100 w).1 = Ok tt -> probe w <> Ok true) /\
    useLocalStorage (this (StorageManager.init w).2) = true /\
    localStorage (StorageManager.init w).2
      = seeded (localStoragePrefix (this w)) StorageManager.defaultData
          (localStorage w))).
Proof.
  set (res := StorageManager.init w).
  assert (Hres : res = StorageManager.init w) by done. clearbody res.
  unfold probe. unfold StorageManager.init in Hres.
  unfold mbind, Js_bind, try_catch in Hres.
  destruct (waitForAPIClient_run 50 100 w) as (k & r & Hrun & _).
  rewrite Hrun in *. cbn [fst snd].
  pose proof (later_untouched_store (k * 100) w) as (He & Ht & Hs & Hr).
  destruct r as [[]|e].
  - pose proof (gateway_only_on_apiClient _ gateway_only_healthCheck
                  (later (k * 100) w)) as Hframe.
    destruct (StorageManager.on_apiClient APIClient.healthCheck
                (later (k * 100) w)) as [[healthy|e] w2] eqn:Hprobe;
      destruct Hframe as (He2 & Ht2 & Hs2 & Hc2);
      simpl in He2, Ht2, Hs2, Hc2.
    + destruct healthy; cbn in Hres.
      * subst res. cbn.
        split; [done|]. split; [done|]. split; [by rewrite Ht2|].
        left. split; [done|]. split; [done|]. split; [done|]. by rewrite Hs2.
      * rewrite initLocalStorage_run in Hres. subst res. cbn.
        split; [done|]. split; [done|]. split; [by rewrite Ht2|].
        right. split; [intros _; congruence|]. split; [done|].
        by rewrite Hs2, Ht2.
    + cbn in Hres. rewrite initLocalStorage_run in Hres. subst res. cbn.
      split; [done|]. split; [done|]. split; [by rewrite Ht2|].
      right. split; [intros _; congruence|]. split; [done|].
      by rewrite Hs2, Ht2.
  - cbn in Hres. rewrite initLocalStorage_run in Hres. subst res. cbn.
    split; [done|]. split; [done|]. split; [done|].
    right. split; [intros [=]|]. done.
Qed.

(** C8. The readiness wait sleeps a whole number of times the fixed
    [interval], at most [2 * maxAttempts] times in all, whatever the page
    does meanwhile, so it always comes to an end; [init] returns normally in
    every world; and when the gateway object never appears during the 50
    waits of 100 ms that [init] allows, [init] ends in LOCAL mode with
    [initialized] set. *)
Theorem readiness_wait_is_bounded maxAttempts interval w :
  (exists k, (k <= 2 * maxAttempts)%nat /\
     (StorageManager.waitForAPIClient maxAttempts interval w).2
     = later (k * interval) w) /\
  (StorageManager.init w).1 = Ok tt /\
  ((forall k, (k <= 50)%nat ->
      apiClientAt (env w) (clock w + k * 100)%nat = None) ->
   useLocalStorage (this (StorageManager.init w).2) = true /\
   initialized (this (StorageManager.init w).2) = true).
Proof.
  split; [|split].
  - destruct (waitForAPIClient_run maxAttempts interval w) as (k & r & Hrun & Hk).
    exists k. by rewrite Hrun.
  - apply init_cases.
  - intros Hnever.
    destruct (init_cases w) as (_ & Hinit & _ & [(_ & Hwait & _) | (_ & Hlocal & _)]).
    + rewrite (waitForAPIClient_never_present 50 100 w Hnever) in Hwait.
      discriminate.
    + done.
Qed.

Lemma readiness_wait_is_bounded_witness :
  useLocalStorage (this (StorageManager.init (start offline)).2) = true /\
  initialized (this (StorageManager.init (start offline)).2) = true.
Proof.
  apply (proj2 (proj2 (readiness_wait_is_bounded 50 100 (start offline)))).
  intros k Hk. reflexivity.
Defined.

(** C5 (as amended). When the health probe does not answer healthy, [init]
    returns normally in LOCAL mode, and each of the six keys of
    [defaultData] (faculty, rooms, subjects, breaks, leaveRequests, users)
    that held nothing truthy now holds its default, an array, while each of
    them that held a value keeps it; every other key is left as it was, in
    particular those of practicals and of the timetable, which are not
    seeded: when they are absent, [getPracticals] then reads the empty array
    and [getTimetable] reads [null]. *)
Theorem failed_probe_resolves_to_local_and_seeds w :
  probe w <> Ok true ->
  (StorageManager.init w).1 = Ok tt /\
  useLocalStorage (this (StorageManager.init w).2) = true /\
  (forall name dflt, (name, dflt) ∈ StorageManager.defaultData ->
     (exists xs, JSON_stringify dflt = TJson (VArr xs)) /\
     localStorage (StorageManager.init w).2 !! key_of w name
     = if text_truthy (localStorage w !! key_of w name)
       then localStorage w !! key_of w name
       else Some (JSON_stringify dflt)) /\
  (forall key,
     (forall entry, entry ∈ StorageManager.defaultData -> key <> key_of w entry.1) ->
     localStorage (StorageManager.init w).2 !! key = localStorage w !! key) /\
  localStorage (StorageManager.init w).2 !! key_of w "practicals"
    = localStorage w !! key_of w "practicals" /\
  localStorage (StorageManager.init w).2 !! key_of w "timetable"
    = localStorage w !! key_of w "timetable" /\
  (localStorage w !! key_of w "practicals" = None ->
   (StorageManager.getPracticals (StorageManager.init w).2).1 = Ok (VArr [])) /\
  (localStorage w !! key_of w "timetable" = None ->
   (StorageManager.getTimetable (StorageManager.init w).2).1 = Ok VNull).
Proof.
  intros Hprobe.
  destruct (init_cases w)
    as (Hok & Hinit & Hprefix & [(Hhealthy & _) | (_ & Hlocal & Hstore)]);
    [done|].
  assert (Hother : forall key,
     (forall entry, entry ∈ StorageManager.defaultData -> key <> key_of w entry.1) ->
     localStorage (StorageManager.init w).2 !! key = localStorage w !! key).
  { intros key Hkey. rewrite Hstore. by apply seeded_other. }
  assert (Hpracticals :
     localStorage (StorageManager.init w).2 !! key_of w "practicals"
     = localStorage w !! key_of w "practicals").
  { apply Hother. intros entry Hin Heq. apply string_app_inj_r in Heq.
    unfold StorageManager.defaultData in Hin.
    repeat (apply elem_of_cons in Hin as [-> | Hin]; [discriminate|]).
    by apply elem_of_nil in Hin. }
  assert (Htimetable :
     localStorage (StorageManager.init w).2 !! key_of w "timetable"
     = localStorage w !! key_of w "timetable").
  { apply Hother. intros entry Hin Heq. apply string_app_inj_r in Heq.
    unfold StorageManager.defaultData in Hin.
    repeat (apply elem_of_cons in Hin as [-> | Hin]; [discriminate|]).
    by apply elem_of_nil in Hin. }
  split; [done|]. split; [done|].
  split; [|split; [done|split; [done|split; [done|split]]]].
  - intros name dflt Hin. split.
    + unfold StorageManager.defaultData in Hin.
      repeat (apply elem_of_cons in Hin as [[= -> ->] | Hin]; [by eexists|]).
      by apply elem_of_nil in Hin.
    + rewrite Hstore. unfold key_of.
      by apply seeded_entry; [apply defaultData_names_NoDup|].
  - intros Habsent. unfold StorageManager.getPracticals.
    rewrite readLocal_run. cbn [fst]. unfold key_of in *.
    by rewrite Hprefix, Hpracticals, Habsent.
  - intros Habsent. unfold StorageManager.getTimetable.
    rewrite (get_entity_local _ _ _ _ Hinit Hlocal).
    rewrite readLocal_run. cbn [fst]. unfold key_of in *.
    by rewrite Hprefix, Htimetable, Habsent.
Qed.

Lemma failed_probe_resolves_to_local_and_seeds_witness :
  let w := start (answering (NetworkError "Failed to fetch")) in
  useLocalStorage (this (StorageManager.init w).2) = true /\
  localStorage (StorageManager.init w).2 !! "timetable_faculty"
    = Some (TJson (VArr [])).
Proof.
  cbv zeta.
  destruct (failed_probe_resolves_to_local_and_seeds
              (start (answering (NetworkError "Failed to fetch"))))
    as (_ & Hmode & Hseed & _).
  - vm_compute. discriminate.
  - split; [exact Hmode|].
    destruct (Hseed "faculty" (VArr [])) as (_ & Hfaculty).
    + by left.
    + exact Hfaculty.
Defined.

(** C5 (as stated) fails: with an empty store and a probe that fails, the
    keys of practicals and of the timetable are still absent after [init]. *)
Lemma practicals_and_timetable_are_not_seeded :
  let w := start (answering (NetworkError "Failed to fetch")) in
  probe w = Ok false /\
  useLocalStorage (this (StorageManager.init w).2) = true /\
  localStorage w !! "timetable_practicals" = None /\
  localStorage (StorageManager.init w).2 !! "timetable_practicals" = None /\
  localStorage w !! "timetable_timetable" = None /\
  localStorage (StorageManager.init w).2 !! "timetable_timetable" = None.
Proof. vm_compute. repeat split. Qed.

(** C2 (as stated) fails: against a server that is healthy at first and
    unreachable afterwards, a first [init] settles on REMOTE with one probe,
    and a second [init] probes again and settles on LOCAL. *)
Lemma init_twice_probes_twice :
  let w1 := (StorageManager.init (start healthy_then_down)).2 in
  let w2 := (StorageManager.init w1).2 in
  useLocalStorage (this w1) = false /\ length (requests w1) = 1%nat /\
  useLocalStorage (this w2) = true /\ length (requests w2) = 2%nat.
Proof. vm_compute. repeat split. Qed.

(** C2 (as amended). The guarded call [if (!this.initialized) await
    this.init()] that opens every asynchronous getter always returns
    normally with [initialized] set, and running it again changes nothing:
    same mode, no wait and no probe. *)
Theorem guarded_init_is_idempotent w :
  (StorageManager.init_unless_initialized w).1 = Ok tt /\
  initialized (this (StorageManager.init_unless_initialized w).2) = true /\
  StorageManager.init_unless_initialized
    (StorageManager.init_unless_initialized w).2
  = (Ok tt, (StorageManager.init_unless_initialized w).2).
Proof.
  assert (Hdone : forall w', initialized (this w') = true ->
            StorageManager.init_unless_initialized w' = (Ok tt, w')).
  { intros w' H. unfold StorageManager.init_unless_initialized.
    js_unfold. by rewrite H. }
  destruct (initialized (this w)) eqn:Hinit.
  - rewrite !Hdone; done.
  - assert (Hfirst : StorageManager.init_unless_initialized w
                     = StorageManager.init w).
    { unfold StorageManager.init_unless_initialized. js_unfold. by rewrite Hinit. }
    rewrite Hfirst.
    destruct (init_cases w) as (Hok & Hinitd & _).
    split; [done|]. split; [done|]. by apply Hdone.
Qed.

End Arbitration.

(** ** The cache of the adapter, and reads that fail *)

Section Cache.

Import APIStorageAdapter.

Ltac case_step :=
  match goal with
  | |- context [match gateway ?w ?n ?c with _ => _ end] =>
      destruct (gateway w n c) as [?response|?e] eqn:?
  | |- context [match field ?v ?k with _ => _ end] =>
      destruct (field v k) as [?x|?e] eqn:?
  | |- context [if truthy ?v then _ else _] => destruct (truthy v) eqn:?
  | |- context [negb (truthy ?v)] => destruct (truthy v) eqn:?
  end.

Ltac adapter_unfold :=
  unfold perform, reply, called, gateway_call, succeeded_with,
    getFaculty, getRooms, getSubjects, getLeaveRequests, getTimetable,
    get_collection, timetable_or_default, apiClient, read, write, failed;
  js_unfold; cbn [fst snd callee arguments].

Lemma failed_read_leaves_cache o e w :
  read_of o = Some e ->
  failed (reply o w) = true ->
  (perform o w).1
    = Ok (match e with
          | Timetable =>
              if truthy (cached Timetable (cache w))
              then cached Timetable (cache w) else getDefaultTimetable
          | _ => cached e (cache w)
          end) /\
  cache (perform o w).2 = cache w.
Proof.
  destruct o; intros [= <-]; adapter_unfold; repeat (case_step; cbn);
    try discriminate; intros _; done.
Qed.

(** A read of the adapter never writes [localStorage]. *)
Lemma read_leaves_stored o e w :
  read_of o = Some e -> stored (perform o w).2 = stored w.
Proof.
  destruct o; intros [= <-]; adapter_unfold; repeat (case_step; cbn); done.
Qed.

Lemma gateway_only_gateway_get f : gateway_only (gateway_get f).
Proof.
  destruct f; first [apply gateway_only_makeRequest | apply gateway_only_getTimetable].
Qed.

(** A getter in REMOTE mode, once initialised: the payload of the gateway
    when it returns one, and what the store holds when it raises. *)
Lemma get_entity_remote name dflt (remote : Js World value) w :
  gateway_only remote ->
  initialized (this w) = true ->
  useLocalStorage (this w) = false ->
  (StorageManager.get_entity name dflt remote w).1
    = match (StorageManager.on_apiClient remote w).1 with
      | Ok v => Ok v
      | Throw _ => StorageManager.parse_or dflt (localStorage w !! key_of w name)
      end /\
  localStorage (StorageManager.get_entity name dflt remote w).2 = localStorage w /\
  this (StorageManager.get_entity name dflt remote w).2 = this w.
Proof.
  intros Hremote Hinit Hmode.
  unfold StorageManager.get_entity, StorageManager.init_unless_initialized.
  js_unfold. rewrite Hinit. cbn. rewrite Hmode.
  pose proof (gateway_only_on_apiClient remote Hremote w) as Hframe.
  destruct (StorageManager.on_apiClient remote w) as [[v|e'] w1];
    destruct Hframe as (_ & Hthis & Hstore & _); cbn in Hthis, Hstore.
  - done.
  - rewrite readLocal_run. cbn. unfold key_of. by rewrite Hthis, Hstore.
Qed.

(** What the gateway's [getTimetable] makes of a request that raised. *)
Lemma getTimetable_of_failure w e :
  (get_request FTimetable w).1 = Throw e ->
  (StorageManager.on_apiClient APIClient.getTimetable w).1
  = if reads_as_missing FTimetable e then Ok VNull else Throw e.
Proof.
  unfold get_request, StorageManager.on_apiClient. cbn [fetched_endpoint].
  destruct (window_apiClient w).
  - unfold APIClient.getTimetable, try_catch, mbind, Js_bind.
    destruct (APIClient.makeRequest "/timetable" APIClient.no_options w)
      as [[v|e'] w1]; cbn [fst]; [done|].
    intros [= ->]. cbn [reads_as_missing]. by destruct (includes _ _).
  - by intros [= <-].
Qed.

Lemma parse_or_raises dflt d e :
  StorageManager.parse_or dflt d = Throw e -> exists s, d = Some (TRaw s).
Proof.
  destruct d as [[v|s]|]; cbn; [done| |done]. intros _. by exists s.
Qed.

(** C1 (as amended). A [get] whose gateway request fails writes nothing.
    In the [APIStorageAdapter] it never raises: it returns the cached value
    of the entity for faculty, rooms, subjects and leave requests, and for
    the timetable the cached grid when there is one and the default empty
    grid otherwise; the cache after the call is the cache before it. In the
    [StorageManager], once initialised in REMOTE mode, it returns what the
    Durable Local Store holds under the entity's key (the empty default when
    the key holds nothing) and leaves the store and the mode as they were,
    with one exception: a request for the timetable that fails with a
    message containing ["not found"] makes [getTimetable] return [null],
    whatever the store holds. It raises only when the text kept under the
    key is not JSON. *)
Theorem failed_get_degrades_to_last_known_copy :
  (forall o e w,
     read_of o = Some e ->
     failed (reply o w) = true ->
     (perform o w).1
       = Ok (match e with
             | Timetable =>
                 if truthy (cached Timetable (cache w))
                 then cached Timetable (cache w) else getDefaultTimetable
             | _ => cached e (cache w)
             end) /\
     cache (perform o w).2 = cache w /\
     stored (perform o w).2 = stored w) /\
  (forall f w e,
     initialized (this w) = true ->
     useLocalStorage (this w) = false ->
     (get_request f w).1 = Throw e ->
     (get_fetched f w).1
       = (if reads_as_missing f e then Ok VNull
          else StorageManager.parse_or (fetched_default f)
                 (localStorage w !! key_of w (fetched_name f))) /\
     localStorage (get_fetched f w).2 = localStorage w /\
     this (get_fetched f w).2 = this w /\
     (forall e', (get_fetched f w).1 = Throw e' ->
        exists s, localStorage w !! key_of w (fetched_name f) = Some (TRaw s))).
Proof.
  split.
  - intros o e w Hread Hfailed.
    destruct (failed_read_leaves_cache o e w Hread Hfailed) as (Hret & Hcache).
    split; [exact Hret|]. split; [exact Hcache|].
    by apply (read_leaves_stored o e).
  - intros f w e Hinit Hmode Hfail.
    assert (Hres : (get_fetched f w).1
       = (if reads_as_missing f e then Ok VNull
          else StorageManager.parse_or (fetched_default f)
                 (localStorage w !! key_of w (fetched_name f))) /\
       localStorage (get_fetched f w).2 = localStorage w /\
       this (get_fetched f w).2 = this w).
    { destruct f.
      1-4: cbn [get_fetched fetched_name fetched_default reads_as_missing];
           unfold StorageManager.getFaculty, StorageManager.getRooms,
             StorageManager.getSubjects, StorageManager.getLeaveRequests;
           match goal with
           | |- context [StorageManager.get_entity ?name ?dflt ?remote ?w0] =>
               destruct (get_entity_remote name dflt remote w0
                           (gateway_only_makeRequest _ _) Hinit Hmode)
                 as (Hget & Hframe)
           end;
           split; [|exact Hframe];
           etransitivity; [exact Hget|];
           unfold get_request in Hfail; cbn [fetched_endpoint] in Hfail;
           unfold APIClient.getFaculty, APIClient.getRooms,
             APIClient.getSubjects, APIClient.getLeaveRequests;
           by rewrite Hfail.
      cbn [get_fetched fetched_name fetched_default].
      unfold StorageManager.getTimetable.
      destruct (get_entity_remote "timetable" VNull _ w
                  gateway_only_getTimetable Hinit Hmode) as (Hget & Hframe).
      split; [|exact Hframe].
      etransitivity; [exact Hget|].
      rewrite (getTimetable_of_failure w e Hfail).
      by destruct (reads_as_missing FTimetable e). }
    destruct Hres as (Hres & Hstore & Hthis).
    split; [exact Hres|]. split; [exact Hstore|]. split; [exact Hthis|].
    intros e' Hraise. rewrite Hres in Hraise.
    destruct (reads_as_missing f e); [discriminate|].
    by apply parse_or_raises in Hraise.
Qed.

Lemma failed_get_degrades_to_last_known_copy_witness :
  let w := (perform GetRooms
              (adapter_start (lists_then_down [VObj [("id", VNum 1)]]))).2 in
  (perform GetRooms w).1 = Ok (VArr [VObj [("id", VNum 1)]]) /\
  cache (perform GetRooms w).2 = cache w /\
  stored (perform GetRooms w).2 = stored w.
Proof.
  apply (proj1 failed_get_degrades_to_last_known_copy GetRooms Rooms
           (perform GetRooms
              (adapter_start (lists_then_down [VObj [("id", VNum 1)]]))).2);
    reflexivity.
Defined.

(** C1 (as stated) fails in three ways. On a fresh adapter, whose cached
    timetable is [null], a [getTimetable] whose request is rejected returns
    the default grid, not the cached value. In the [StorageManager] in REMOTE
    mode, a [getFaculty] whose request is rejected raises to the consumer
    when the text kept under the key is not JSON, here the ["undefined"] that
    a [setFaculty(undefined)] of an earlier LOCAL session left. And a
    [getTimetable] whose request is refused with ["Timetable not found"]
    returns [null] and not the timetable kept in the store. *)
Lemma failed_get_departs_from_the_kept_copy :
  (let w := adapter_start gateway_down in
   failed (reply GetTimetable w) = true /\
   cached Timetable (cache w) = VNull /\
   (perform GetTimetable w).1 = Ok getDefaultTimetable /\
   (perform GetTimetable w).1 <> Ok (cached Timetable (cache w))) /\
  (let w := remote_world (answering (NetworkError "Failed to fetch"))
              {["timetable_faculty" := TRaw "undefined"]} in
   (get_request FFaculty w).1 = Throw (Exn TypeError "Failed to fetch") /\
   (StorageManager.getFaculty w).1
   = Throw (Exn SyntaxError "Unexpected token in JSON: undefined")) /\
  (let kept := VObj [("Monday", VObj [])] in
   let w := remote_world
              (answering (Response 404 (Ok (VObj [("error", VStr "Timetable not found")]))))
              {["timetable_timetable" := TJson kept]} in
   (get_request FTimetable w).1 = Throw (Exn Error "Timetable not found") /\
   StorageManager.parse_or VNull (localStorage w !! key_of w "timetable") = Ok kept /\
   (StorageManager.getTimetable w).1 = Ok VNull).
Proof. repeat split. discriminate. Qed.

Ltac write_unfold :=
  unfold perform, reply, called, gateway_call, succeeded_with,
    addFaculty, addRoom, addSubject, addLeaveRequest, add_to_collection,
    removeFaculty, updateLeaveRequest, generateTimetable, publishTimetable,
    authenticateUser, apiClient, read, write, failed;
  js_unfold; cbn [fst snd callee arguments].

Lemma failed_operation_leaves_cache o w :
  failed (reply o w) = true -> cache (perform o w).2 = cache w.
Proof.
  destruct (read_of o) as [e|] eqn:Hread.
  - intros Hfailed. by apply (failed_read_leaves_cache o e w).
  - destruct o; try discriminate Hread; write_unfold;
      repeat (case_step; cbn); try discriminate; intros _; done.
Qed.

Lemma successful_read_fills_cache o e data w :
  read_of o = Some e -> e <> Timetable ->
  succeeded_with (reply o w) data ->
  (perform o w).1 = Ok data /\
  cache (perform o w).2 = assign e data (cache w).
Proof.
  intros Hread Hne (response & success & Hreply & Hsuccess & Htruthy & Hdata).
  destruct o; simplify_eq Hread; intros <-; try done;
    revert Hreply; adapter_unfold; intros ->; cbn;
    rewrite Hsuccess; cbn; rewrite Htruthy, Hdata; done.
Qed.

Lemma successful_getTimetable_fills_cache data w :
  succeeded_with (reply GetTimetable w) data ->
  truthy data = true ->
  exists t,
    field data "timetable" = Ok t /\
    (perform GetTimetable w).1 = Ok t /\
    cache (perform GetTimetable w).2 = assign Timetable t (cache w).
Proof.
  intros (response & success & Hreply & Hsuccess & Htruthy & Hdata) Hd.
  destruct (field data "timetable") as [t|e] eqn:Ht;
    [|destruct data; discriminate].
  exists t. split; [done|].
  revert Hreply; adapter_unfold; intros ->; cbn.
  rewrite Hsuccess; cbn. rewrite Htruthy, Hdata. cbn. rewrite Hd, Ht. done.
Qed.

(** A reply for the timetable that succeeded without data is handled like a
    failure. *)
Lemma empty_getTimetable_leaves_cache data w :
  succeeded_with (reply GetTimetable w) data ->
  truthy data = false ->
  (perform GetTimetable w).1
    = Ok (if truthy (cached Timetable (cache w))
          then cached Timetable (cache w) else getDefaultTimetable) /\
  cache (perform GetTimetable w).2 = cache w.
Proof.
  intros (response & success & Hreply & Hsuccess & Htruthy & Hdata) Hd.
  revert Hreply; adapter_unfold; intros ->; cbn.
  rewrite Hsuccess; cbn. rewrite Htruthy, Hdata. cbn. rewrite Hd. done.
Qed.

Lemma successful_removeFaculty_fills_cache id v w :
  (perform (RemoveFaculty id) w).1 = Ok v ->
  array_filter_id_ne (cached Faculty (cache w)) id = Ok v /\
  cache (perform (RemoveFaculty id) w).2 = assign Faculty v (cache w).
Proof.
  write_unfold. repeat (case_step; cbn); try discriminate.
  destruct (array_filter_id_ne _ _) as [filtered|e]; cbn; [|discriminate].
  intros [= <-]. done.
Qed.

Lemma successful_login_fills_cache u p r user w :
  (perform (AuthenticateUser u p r) w).1 = Ok user ->
  cache (perform (AuthenticateUser u p r) w).2 = assign CurrentUser user (cache w).
Proof.
  write_unfold. repeat (case_step; cbn); try discriminate.
  intros [= <-]. done.
Qed.

Lemma accepted_write_rereads o g w :
  refresh_of o = Some g ->
  failed (reply o w) = false ->
  cache (perform o w).2 = cache (perform g (called o w)).2.
Proof.
  destruct o; intros [= <-]; write_unfold.
  all: repeat (case_step; cbn); try discriminate; intros _.
  all: match goal with
       | |- context [perform ?g ?w1] => destruct (perform g w1) as [[?|?] ?]
       | |- context [getFaculty ?w1] => destruct (getFaculty w1) as [[?|?] ?]
       | |- context [getRooms ?w1] => destruct (getRooms w1) as [[?|?] ?]
       | |- context [getSubjects ?w1] => destruct (getSubjects w1) as [[?|?] ?]
       | |- context [getLeaveRequests ?w1] => destruct (getLeaveRequests w1) as [[?|?] ?]
       | |- context [getTimetable ?w1] => destruct (getTimetable w1) as [[?|?] ?]
       end; cbn; repeat (case_step; cbn); try done.
  by destruct (array_find_id _ _).
Qed.

(** C6 (as amended). No operation whose gateway request fails modifies the
    cache. A successful read of faculty, rooms, subjects or leave requests
    replaces the entry of its entity by the data of the reply, which it
    returns. A successful read of the timetable whose reply has truthy data
    replaces the timetable entry by the [timetable] of that data, which it
    returns; when the data is falsy ([null], or none), it leaves the cache as
    it was and returns the cached timetable, or the default grid when none is
    cached. A successful [removeFaculty] replaces the faculty entry by
    the filtered list it returns, and a successful login the current user by
    the user it returns. A write that the gateway accepts and that refreshes
    the cache by a read ([add], [updateLeaveRequest], [publishTimetable])
    leaves the cache as that read leaves it: refreshed when the read
    succeeds, unchanged when it fails. *)
Theorem cache_changes_only_on_success o w :
  (failed (reply o w) = true -> cache (perform o w).2 = cache w) /\
  (forall e data,
     read_of o = Some e -> e <> Timetable ->
     succeeded_with (reply o w) data ->
     (perform o w).1 = Ok data /\
     cache (perform o w).2 = assign e data (cache w)) /\
  (forall data,
     o = GetTimetable -> succeeded_with (reply o w) data ->
     truthy data = true ->
     exists t,
       field data "timetable" = Ok t /\
       (perform o w).1 = Ok t /\
       cache (perform o w).2 = assign Timetable t (cache w)) /\
  (forall data,
     o = GetTimetable -> succeeded_with (reply o w) data ->
     truthy data = false ->
     (perform o w).1
       = Ok (if truthy (cached Timetable (cache w))
             then cached Timetable (cache w) else getDefaultTimetable) /\
     cache (perform o w).2 = cache w) /\
  (forall id v,
     o = RemoveFaculty id -> (perform o w).1 = Ok v ->
     array_filter_id_ne (cached Faculty (cache w)) id = Ok v /\
     cache (perform o w).2 = assign Faculty v (cache w)) /\
  (forall u p r user,
     o = AuthenticateUser u p r -> (perform o w).1 = Ok user ->
     cache (perform o w).2 = assign CurrentUser user (cache w)) /\
  (forall g,
     refresh_of o = Some g -> failed (reply o w) = false ->
     cache (perform o w).2 = cache (perform g (called o w)).2).
Proof.
  split; [apply failed_operation_leaves_cache|].
  split; [intros e data; apply successful_read_fills_cache|].
  split; [intros data ->; apply successful_getTimetable_fills_cache|].
  split; [intros data ->; apply empty_getTimetable_leaves_cache|].
  split; [intros id v ->; apply successful_removeFaculty_fills_cache|].
  split; [intros u p r user ->; apply successful_login_fills_cache|].
  intros g; apply accepted_write_rereads.
Qed.

Lemma cache_changes_only_on_success_witness :
  let w := adapter_start (lists_then_down [VObj [("id", VNum 1)]]) in
  let w1 := (perform GetFaculty w).2 in
  cache w1 = assign Faculty (VArr [VObj [("id", VNum 1)]]) (cache w) /\
  cache (perform (AddFaculty (VObj [("name", VStr "A")])) w1).2 = cache w1.
Proof.
  cbv zeta. split.
  - apply (proj1 (proj2 (cache_changes_only_on_success GetFaculty
                           (adapter_start (lists_then_down [VObj [("id", VNum 1)]]))))
             Faculty (VArr [VObj [("id", VNum 1)]])).
    + reflexivity.
    + discriminate.
    + exists (VObj [("success", VBool true); ("data", VArr [VObj [("id", VNum 1)]])]),
        (VBool true).
      repeat split.
  - apply (proj1 (cache_changes_only_on_success
                    (AddFaculty (VObj [("name", VStr "A")]))
                    (perform GetFaculty
                       (adapter_start (lists_then_down [VObj [("id", VNum 1)]]))).2)).
    reflexivity.
Defined.

(** C6 (as stated) fails: when the gateway accepts an [addFaculty] and then
    rejects the read that refreshes the cache, the write has succeeded and
    returned the created record, and the cache still holds the empty seed. *)
Lemma accepted_add_can_leave_cache_stale :
  let w := adapter_start accepts_then_down in
  let d := VObj [("name", VStr "A")] in
  failed (reply (AddFaculty d) w) = false /\
  (perform (AddFaculty d) w).1 = Ok (VObj [("name", VStr "A"); ("id", VNum 7)]) /\
  cached Faculty (cache (perform (AddFaculty d) w).2) = VArr [].
Proof. repeat split. Qed.

(** An [add] of the adapter whose request fails. *)
Lemma failed_add_raises o a :
  is_add o = true ->
  failed (reply o a) = true ->
  exists e,
    (perform o a).1 = Throw e /\
    (forall e0, reply o a = Throw e0 -> e = e0) /\
    APIStorageAdapter.stored (perform o a).2 = APIStorageAdapter.stored a /\
    APIStorageAdapter.cache (perform o a).2 = APIStorageAdapter.cache a.
Proof.
  destruct o; intros [=]; write_unfold; repeat (case_step; cbn);
    try discriminate; intros _; eexists; (split; [reflexivity|]);
    (split; [|done]); intros e0 [=]; congruence.
Qed.

End Cache.

(** ** Adds that fail *)

(** C3. In REMOTE mode an [add] whose gateway request fails raises that
    very error to the consumer and writes nothing to the Durable Local
    Store; this holds for faculty, rooms, subjects and leave requests, the
    entities that have a remote [add]. The [add] of the
    [APIStorageAdapter] behaves alike: a rejected request is rethrown as it
    is, a reply without a truthy [success] raises an Error, and neither
    [localStorage] nor the cache is written. *)
Theorem add_failure_is_raised_in_remote_mode w now iso d e :
  useLocalStorage (this w) = false ->
  ((StorageManager.on_apiClient (APIClient.addFaculty d) w).1 = Throw e ->
   (StorageManager.addFaculty now d w).1 = Throw e /\
   localStorage (StorageManager.addFaculty now d w).2 = localStorage w) /\
  ((StorageManager.on_apiClient (APIClient.addRoom d) w).1 = Throw e ->
   (StorageManager.addRoom now d w).1 = Throw e /\
   localStorage (StorageManager.addRoom now d w).2 = localStorage w) /\
  ((StorageManager.on_apiClient (APIClient.addSubject d) w).1 = Throw e ->
   (StorageManager.addSubject now d w).1 = Throw e /\
   localStorage (StorageManager.addSubject now d w).2 = localStorage w) /\
  ((StorageManager.on_apiClient (APIClient.addLeaveRequest iso d) w).1 = Throw e ->
   (StorageManager.addLeaveRequest now iso d w).1 = Throw e /\
   localStorage (StorageManager.addLeaveRequest now iso d w).2 = localStorage w) /\
  (forall o a,
     is_add o = true -> failed (reply o a) = true ->
     exists e',
       (perform o a).1 = Throw e' /\
       (forall e0, reply o a = Throw e0 -> e' = e0) /\
       APIStorageAdapter.stored (perform o a).2 = APIStorageAdapter.stored a /\
       APIStorageAdapter.cache (perform o a).2 = APIStorageAdapter.cache a).
Proof.
  intros Hmode. split; [|split; [|split; [|split]]];
    [intros Hfail .. | apply failed_add_raises].
  all: first
    [ apply (remote_failure_kept _ _ w e (gateway_only_add _ _ d) Hmode Hfail)
    | apply (remote_failure_kept _ _ w e (gateway_only_addLeaveRequest iso d)
               Hmode Hfail) ].
Qed.

Lemma add_failure_is_raised_in_remote_mode_witness :
  let w := remote_world (answering (NetworkError "Failed to fetch")) ∅ in
  let d := VObj [("name", VStr "A")] in
  (StorageManager.addFaculty 1700000000000 d w).1
    = Throw (Exn TypeError "Failed to fetch") /\
  localStorage (StorageManager.addFaculty 1700000000000 d w).2 = localStorage w.
Proof.
  apply (proj1 (add_failure_is_raised_in_remote_mode
                  (remote_world (answering (NetworkError "Failed to fetch")) ∅)
                  1700000000000 "2024-01-01T00:00:00.000Z"
                  (VObj [("name", VStr "A")])
                  (Exn TypeError "Failed to fetch") eq_refl)).
  reflexivity.
Defined.

(** * Further properties *)

(** ** Adding and removing in LOCAL mode *)

(** X1. In LOCAL mode an [add] on faculty, rooms, subjects, breaks or
    practicals returns the record [{ id: now, ...data }], and the collection
    read back afterwards is the one stored before (the empty one when the
    key held nothing) followed by that record as JSON keeps it. *)
Theorem local_add_appends (c : collection) w now d xs :
  useLocalStorage (this w) = true ->
  holds w (collection_name c) xs ->
  json_value (VArr xs) ->
  let record := VObj (spread [("id", VNum now)] d) in
  (add_to c now d w).1 = Ok record /\
  (read_from c (add_to c now d w).2).1 = Ok (VArr (xs ++ [jsonify record])).
Proof.
  intros Hmode Hholds Hjson record.
  rewrite (add_to_run c w now d xs Hmode Hholds Hjson). split; [done|].
  cbn [snd]. by rewrite (read_from_holds _ _ _ (holds_insert w _ _)).
Qed.

Lemma local_add_appends_witness :
  let d := VObj [("name", VStr "A"); ("subject", VStr "Math");
                 ("email", VStr "a@x.com")] in
  (read_from CFaculty (add_to CFaculty 1700000000000 d (local_world ∅)).2).1
  = Ok (VArr [VObj [("id", VNum 1700000000000); ("name", VStr "A");
                    ("subject", VStr "Math"); ("email", VStr "a@x.com")]]).
Proof.
  cbv zeta.
  refine (proj2 (local_add_appends CFaculty (local_world ∅) 1700000000000
                   (VObj [("name", VStr "A"); ("subject", VStr "Math");
                          ("email", VStr "a@x.com")]) [] _ _ _));
    reflexivity.
Defined.

(** X2. In LOCAL mode a [remove] returns normally, the collection read back
    afterwards is the stored one without any of the records whose [id] is
    the identifier, in the same order, so the identifier is absent from it,
    and removing the identifier a second time changes nothing. *)
Theorem local_remove_drops_every_match (c : collection) w id xs :
  useLocalStorage (this w) = true ->
  holds w (collection_name c) xs -> json_value (VArr xs) -> records xs ->
  let ys := List.filter (fun f => negb (has_id id f)) xs in
  let w' := (remove_from c id w).2 in
  (remove_from c id w).1 = Ok VUndef /\
  (read_from c w').1 = Ok (VArr ys) /\
  id_absent id ys /\
  remove_from c id w' = (Ok VUndef, w').
Proof.
  intros Hmode Hholds Hjson Hrecords ys w'.
  pose proof (remove_from_run c w id xs Hmode Hholds Hjson Hrecords) as Hrun.
  subst w'. rewrite Hrun. cbn [fst snd].
  set (w' := set_localStorage _ w).
  assert (Hholds' : holds w' (collection_name c) ys) by apply holds_insert.
  split; [done|]. split; [|split].
  - by rewrite (read_from_holds _ _ _ Hholds').
  - by apply id_absent_filter.
  - rewrite (remove_from_run c w' id ys); try done.
    + rewrite filter_absent by by apply id_absent_filter.
      unfold w'. change (key_of (set_localStorage _ w)) with (key_of w).
      by rewrite set_localStorage_twice.
    + by apply json_value_filter.
    + by apply records_filter.
Qed.

Lemma local_remove_drops_every_match_witness :
  let xs := [VObj [("id", VNum 1)]; VObj [("id", VNum 2)]; VObj [("id", VNum 1)]] in
  let w := local_world {["timetable_rooms" := TJson (VArr xs)]} in
  (read_from CRooms (remove_from CRooms (VNum 1) w).2).1
  = Ok (VArr [VObj [("id", VNum 2)]]).
Proof.
  cbv zeta.
  refine (proj1 (proj2 (local_remove_drops_every_match CRooms
            (local_world {["timetable_rooms" :=
               TJson (VArr [VObj [("id", VNum 1)]; VObj [("id", VNum 2)];
                            VObj [("id", VNum 1)]])]})
            (VNum 1)
            [VObj [("id", VNum 1)]; VObj [("id", VNum 2)]; VObj [("id", VNum 1)]]
            _ _ _ _))).
  - reflexivity.
  - reflexivity.
  - reflexivity.
  - repeat constructor; by eexists.
Defined.

Lemma assoc_obj_set k k' v o :
  assoc k (obj_set k' v o) = if String.eqb k k' then Some v else assoc k o.
Proof.
  induction o as [|[k0 v0] o IH]; simpl.
  - by destruct (String.eqb k k').
  - destruct (String.eqb k' k0) eqn:Hk0; simpl.
    + apply String.eqb_eq in Hk0 as ->. by destruct (String.eqb k k0).
    + rewrite IH. destruct (String.eqb k k0) eqn:Hk; [|done].
      apply String.eqb_eq in Hk as ->.
      destruct (String.eqb k0 k') eqn:Hk'; [|done].
      apply String.eqb_eq in Hk' as ->. by rewrite String.eqb_refl in Hk0.
Qed.





(** ** Updating a leave request in LOCAL mode *)






(** ** The mode, once decided *)

Lemma store_only_at_refl w : store_only_at w w.
Proof. by repeat split. Qed.

Lemma store_only_at_trans w1 w2 w3 :
  store_only_at w3 w2 -> store_only_at w2 w1 -> store_only_at w3 w1.
Proof.
  intros (? & ? & ? & ?) (? & ? & ? & ?). repeat split; congruence.
Qed.

Lemma store_only_ret {A} (a : A) : store_only (mret a).
Proof. intros w. apply store_only_at_refl. Qed.

Lemma store_only_throw {A} e : store_only (@throw World A e).
Proof. intros w. apply store_only_at_refl. Qed.

Lemma store_only_lift {A} (r : outcome A) : store_only (lift r).
Proof. intros w. apply store_only_at_refl. Qed.

Lemma store_only_gets {A} (f : World -> A) : store_only (gets f).
Proof. intros w. apply store_only_at_refl. Qed.

Lemma store_only_modify f : store_only (modify (set_localStorage f)).
Proof. intros w. by repeat split. Qed.

Lemma store_only_bind {A B} (c : Js World A) (k : A -> Js World B) :
  store_only c -> (forall a, store_only (k a)) -> store_only (c ≫= k).
Proof.
  intros Hc Hk w. js_unfold. specialize (Hc w).
  destruct (c w) as [[a|e] w1]; simpl in *; [|done].
  eapply store_only_at_trans; [apply Hk | done].
Qed.

Lemma store_only_try_catch {A} (c : Js World A) h :
  store_only c -> (forall e, store_only (h e)) -> store_only (try_catch c h).
Proof.
  intros Hc Hh w. js_unfold. specialize (Hc w).
  destruct (c w) as [[a|e] w1]; simpl in *; [done|].
  eapply store_only_at_trans; [apply Hh | done].
Qed.

Lemma store_only_forEach {A} (f : A -> Js World unit) l :
  (forall x, store_only (f x)) -> store_only (StorageManager.forEach f l).
Proof.
  intros Hf. induction l as [|x l IH]; simpl.
  - apply store_only_ret.
  - apply store_only_bind; [apply Hf | intros _; apply IH].
Qed.

Ltac store_only_tac :=
  repeat first
    [ progress intros
    | apply store_only_bind
    | apply store_only_try_catch
    | apply store_only_forEach
    | apply store_only_ret
    | apply store_only_throw
    | apply store_only_lift
    | apply store_only_gets
    | apply store_only_modify
    | match goal with
      | |- store_only (let '(_, _) := ?p in _) => destruct p
      | |- store_only (if ?b then _ else _) => destruct b
      | |- store_only (match ?x with _ => _ end) => destruct x
      end ].

Lemma store_only_readLocal name dflt : store_only (StorageManager.readLocal name dflt).
Proof. unfold StorageManager.readLocal, getItem. store_only_tac. Qed.

Lemma store_only_writeLocal name v : store_only (StorageManager.writeLocal name v).
Proof. unfold StorageManager.writeLocal, setItem. store_only_tac. Qed.

Lemma store_only_writeLocal_if_local name v :
  store_only (StorageManager.writeLocal_if_local name v).
Proof.
  unfold StorageManager.writeLocal_if_local. store_only_tac.
Qed.

Lemma store_only_initLocalStorage : store_only StorageManager.initLocalStorage.
Proof.
  unfold StorageManager.initLocalStorage, getItem, setItem. store_only_tac.
Qed.

Lemma store_only_authenticateLocally u p r :
  store_only (StorageManager.authenticateLocally u p r).
Proof.
  unfold StorageManager.authenticateLocally, StorageManager.getUsers.
  store_only_tac.
Qed.

Lemma store_only_importData t : store_only (StorageManager.importData t).
Proof.
  unfold StorageManager.importData, StorageManager.import_field,
    StorageManager.setFaculty, StorageManager.setRooms,
    StorageManager.setSubjects, StorageManager.setLeaveRequests,
    StorageManager.setBreaks, StorageManager.setUsers.
  store_only_tac.
Qed.

Lemma store_only_clearAll : store_only StorageManager.clearAll.
Proof.
  unfold StorageManager.clearAll, StorageManager.removeItem.
  store_only_tac.
Qed.

(** The bodies taken in LOCAL mode. *)
Lemma store_only_local_add name record (write : value -> Js World unit) :
  (forall v, store_only (write v)) ->
  store_only
    (c ← StorageManager.readLocal name (VArr []);
     c' ← lift (array_push c record);
     write c';;
     mret record).
Proof. intros Hw. store_only_tac; apply Hw. Qed.

Lemma store_only_local_remove name id (write : value -> Js World unit) :
  (forall v, store_only (write v)) ->
  store_only
    (c ← StorageManager.readLocal name (VArr []);
     filtered ← lift (array_filter_id_ne c id);
     write filtered;;
     mret VUndef).
Proof. intros Hw. store_only_tac; apply Hw. Qed.

Lemma gateway_only_readLocal name dflt :
  gateway_only (StorageManager.readLocal name dflt).
Proof. intros w. rewrite readLocal_run. apply untouched_refl. Qed.

Lemma gateway_only_login u p r : gateway_only (APIClient.login u p r).
Proof. unfold APIClient.login. gateway_only_tac. Qed.

Lemma gateway_only_remote {A} (c : Js World A) :
  gateway_only c ->
  gateway_only (try_catch (StorageManager.on_apiClient c) (fun error => throw error)).
Proof. intros Hc. gateway_only_tac. exact Hc. Qed.

Lemma authenticateLocally_world u p r w :
  (StorageManager.authenticateLocally u p r w).2 = w.
Proof.
  unfold StorageManager.authenticateLocally, StorageManager.getUsers.
  unfold mbind at 1. unfold Js_bind at 1. rewrite readLocal_run.
  destruct (StorageManager.parse_or _ _) as [users|e]; [|done].
  js_unfold.
  destruct (StorageManager.array_find_user users u p r) as [user|e]; [|done].
  destruct (truthy user); [|done].
  repeat match goal with
         | |- context [match field ?v ?k with _ => _ end] => destruct (field v k)
         end; done.
Qed.

(** A method that tests the mode first: the LOCAL branch only works on the
    store, the REMOTE branch only talks to the gateway. *)
Lemma by_mode {A} (a b : Js World A) w :
  store_only a -> gateway_only b ->
  let c := (local ← gets (fun w => useLocalStorage (this w));
            if local : bool then a else b) in
  (useLocalStorage (this w) = true -> store_only_at (c w).2 w) /\
  (useLocalStorage (this w) = false -> untouched (c w).2 w).
Proof.
  intros Ha Hb c. subst c. unfold mbind, Js_bind, gets.
  split; intros ->; [apply Ha | apply Hb].
Qed.

Lemma get_entity_by_mode name dflt remote w :
  gateway_only remote ->
  initialized (this w) = true ->
  (useLocalStorage (this w) = true ->
   store_only_at (StorageManager.get_entity name dflt remote w).2 w) /\
  (useLocalStorage (this w) = false ->
   untouched (StorageManager.get_entity name dflt remote w).2 w).
Proof.
  intros Hremote Hinit.
  assert (Heq : StorageManager.get_entity name dflt remote w
            = (local ← gets (fun w => useLocalStorage (this w));
               if local : bool then StorageManager.readLocal name dflt
               else try_catch (StorageManager.on_apiClient remote)
                      (fun error => StorageManager.readLocal name dflt)) w).
  { unfold StorageManager.get_entity.
    unfold mbind at 1. unfold Js_bind at 1.
    by rewrite (initialized_guard _ Hinit). }
  rewrite Heq. apply by_mode.
  - apply store_only_readLocal.
  - apply gateway_only_try_catch.
    + by apply gateway_only_on_apiClient.
    + intros _. apply gateway_only_readLocal.
Qed.

Lemma authenticateUser_by_mode u p r w :
  (useLocalStorage (this w) = true ->
   store_only_at (StorageManager.authenticateUser u p r w).2 w) /\
  (useLocalStorage (this w) = false ->
   untouched (StorageManager.authenticateUser u p r w).2 w).
Proof.
  set (res := StorageManager.authenticateUser u p r w).
  assert (Hres : res = StorageManager.authenticateUser u p r w) by done.
  clearbody res. unfold StorageManager.authenticateUser in Hres.
  unfold mbind, Js_bind, gets, try_catch, mret, Js_ret in Hres.
  split; intros Hmode; rewrite Hmode in Hres; cbn [negb andb] in Hres.
  - subst res. rewrite authenticateLocally_world. apply store_only_at_refl.
  - destruct (apiAvailable (this w)).
    + pose proof (gateway_only_on_apiClient _ (gateway_only_login u p r) w) as Hl.
      destruct (StorageManager.on_apiClient (APIClient.login u p r) w)
        as [[user|e] w1]; cbn in *; subst res; [done|].
      by rewrite authenticateLocally_world.
    + subst res. rewrite authenticateLocally_world. apply untouched_refl.
Qed.

Lemma setter_unchanged_in_remote name v w :
  useLocalStorage (this w) = false ->
  StorageManager.writeLocal_if_local name v w = (Ok tt, w).
Proof.
  intros Hmode. unfold StorageManager.writeLocal_if_local. js_unfold.
  by rewrite Hmode.
Qed.

(** What one call leaves alone, by mode. *)
Lemma manager_op_by_mode o w :
  initialized (this w) = true ->
  (useLocalStorage (this w) = true ->
   store_only_at (run_manager_op o w).2 w) /\
  (useLocalStorage (this w) = false ->
   if remote_backed o then untouched (run_manager_op o w).2 w
   else store_only_at (run_manager_op o w).2 w).
Proof.
  intros Hinit.
  assert (Hso : forall c : Js World value,
            store_only c ->
            (useLocalStorage (this w) = true -> store_only_at (c w).2 w) /\
            (useLocalStorage (this w) = false -> store_only_at (c w).2 w)).
  { intros c Hc. split; intros _; apply Hc. }
  destruct o as [f|f v|c now d|now iso d|c id|id updates| | | | | | |u p r| | | | |t];
    cbn [run_manager_op remote_backed].
  - destruct f; cbn [get_fetched];
      apply get_entity_by_mode; try done;
      first [apply gateway_only_makeRequest | apply gateway_only_getTimetable].
  - split; intros Hmode.
    + assert (Hs : store_only (set_fetched f v;; mret VUndef)).
      { destruct f; cbn [set_fetched]; store_only_tac. }
      apply Hs.
    + destruct f; cbn [set_fetched];
        unfold StorageManager.setFaculty, StorageManager.setRooms,
          StorageManager.setSubjects, StorageManager.setLeaveRequests,
          StorageManager.setTimetable; unfold mbind, Js_bind;
        rewrite (setter_unchanged_in_remote _ _ _ Hmode); apply untouched_refl.
  - destruct c; cbn [add_to].
    1-3: apply by_mode;
         [ apply store_only_local_add; intros; apply store_only_writeLocal_if_local
         | apply gateway_only_remote, gateway_only_add ].
    all: apply Hso; apply store_only_local_add; intros; apply store_only_writeLocal.
  - apply by_mode.
    + apply store_only_local_add; intros; apply store_only_writeLocal_if_local.
    + apply gateway_only_remote, gateway_only_addLeaveRequest.
  - destruct c; cbn [remove_from].
    1-3: apply by_mode;
         [ apply store_only_local_remove; intros; apply store_only_writeLocal_if_local
         | apply gateway_only_remote, gateway_only_makeRequest ].
    all: apply Hso; apply store_only_local_remove; intros; apply store_only_writeLocal.
  - apply by_mode.
    + unfold StorageManager.getLeaveRequestsFromLocalStorage,
        StorageManager.setLeaveRequests.
      store_only_tac.
    + apply gateway_only_remote. unfold APIClient.updateLeaveRequest.
      gateway_only_tac.
  - apply Hso, store_only_readLocal.
  - apply Hso. store_only_tac.
  - apply Hso, store_only_readLocal.
  - apply Hso. store_only_tac.
  - apply Hso, store_only_readLocal.
  - apply Hso. store_only_tac.
  - apply authenticateUser_by_mode.
  - apply Hso. unfold StorageManager.getCurrentUser, getItem. store_only_tac.
  - apply Hso. unfold StorageManager.setCurrentUser, setItem. store_only_tac.
  - apply Hso. unfold StorageManager.clearCurrentUser, StorageManager.removeItem.
    store_only_tac.
  - apply Hso. store_only_tac.
  - apply Hso, store_only_importData.
Qed.

Lemma manager_op_keeps_manager o w :
  initialized (this w) = true -> this (run_manager_op o w).2 = this w.
Proof.
  intros Hinit. destruct (manager_op_by_mode o w Hinit) as [Hlocal Hremote].
  destruct (useLocalStorage (this w)) eqn:Hmode.
  - by destruct (Hlocal eq_refl) as (_ & ? & _).
  - specialize (Hremote eq_refl). destruct (remote_backed o).
    + by destruct Hremote as (_ & ? & _).
    + by destruct Hremote as (_ & ? & _).
Qed.

(** X5. Once [initialized] is set, no sequence of calls on the manager
    ([init] apart) changes any of its fields: the mode and the availability
    flag stay what arbitration made them, whatever the calls return. *)
Theorem mode_is_fixed_once_initialized (os : list manager_op) w :
  initialized (this w) = true ->
  this (run_manager_ops os w) = this w.
Proof.
  revert w. induction os as [|o os IH]; intros w Hinit; simpl; [done|].
  pose proof (manager_op_keeps_manager o w Hinit) as Hthis.
  rewrite IH; [done|]. by rewrite Hthis.
Qed.

Lemma mode_is_fixed_once_initialized_witness :
  let w := remote_world (answering (NetworkError "Failed to fetch")) ∅ in
  this (run_manager_ops
          [MGet FRooms; MAuthenticate (VStr "admin") (VStr "admin123") (VStr "admin");
           MClearAll; MAdd CFaculty 7 (VObj [])] w)
  = this w.
Proof.
  cbv zeta. apply mode_is_fixed_once_initialized. reflexivity.
Defined.

(** X6. In LOCAL mode, once initialised, no sequence of calls on the
    manager sends a request: the request log stays as it was. *)
Theorem local_mode_never_calls_the_gateway (os : list manager_op) w :
  initialized (this w) = true ->
  useLocalStorage (this w) = true ->
  requests (run_manager_ops os w) = requests w.
Proof.
  revert w. induction os as [|o os IH]; intros w Hinit Hmode; simpl; [done|].
  destruct (manager_op_by_mode o w Hinit) as [Hlocal _].
  destruct (Hlocal Hmode) as (_ & Hthis & _ & Hrequests).
  rewrite IH; [done| |]; by rewrite Hthis.
Qed.

Lemma local_mode_never_calls_the_gateway_witness :
  requests (run_manager_ops
              [MGet FFaculty; MAdd CFaculty 7 (VObj [("name", VStr "A")]);
               MRemove CFaculty (VNum 7);
               MAuthenticate (VStr "admin") (VStr "admin123") (VStr "admin")]
              (local_world ∅))
  = [].
Proof.
  apply (local_mode_never_calls_the_gateway _ (local_world ∅)); reflexivity.
Defined.

(** X7. In REMOTE mode, once initialised, no sequence of the calls that the
    gateway serves (the getters and setters of the fetched entities, the
    adds, removes and updates of faculty, rooms, subjects and leave requests,
    and authentication) writes the Durable Local Store: a successful read
    is not kept there either. *)
Theorem remote_mode_never_writes_the_store (os : list manager_op) w :
  initialized (this w) = true ->
  useLocalStorage (this w) = false ->
  Forall (fun o => remote_backed o = true) os ->
  localStorage (run_manager_ops os w) = localStorage w.
Proof.
  revert w. induction os as [|o os IH]; intros w Hinit Hmode Hos; simpl; [done|].
  apply Forall_cons in Hos as [Ho Hos].
  destruct (manager_op_by_mode o w Hinit) as [_ Hremote].
  specialize (Hremote Hmode). rewrite Ho in Hremote.
  destruct Hremote as (_ & Hthis & Hstore & _).
  rewrite IH; [done| | |done]; by rewrite Hthis.
Qed.

Lemma remote_mode_never_writes_the_store_witness :
  let w := remote_world (answering (Response 200 (Ok (VObj []))))
             {["timetable_faculty" := TJson (VArr [])]} in
  localStorage (run_manager_ops
                  [MGet FFaculty; MAdd CFaculty 7 (VObj [("name", VStr "A")]);
                   MSet FFaculty (VArr [VObj [("id", VNum 7)]])] w)
  = localStorage w.
Proof.
  cbv zeta. apply remote_mode_never_writes_the_store.
  - reflexivity.
  - reflexivity.
  - repeat constructor.
Defined.

(** ** Importing a backup *)

Lemma returns_ret {A} (a : A) : returns (mret a : Js World A).
Proof. intros w. by exists a. Qed.

Lemma returns_bind {A B} (c : Js World A) (k : A -> Js World B) :
  returns c -> (forall a, returns (k a)) -> returns (c ≫= k).
Proof.
  intros Hc Hk w. js_unfold. destruct (Hc w) as [a Ha].
  destruct (c w) as [[a'|e] w1]; simpl in *; [|done]. apply Hk.
Qed.

Lemma returns_writeLocal name v : returns (StorageManager.writeLocal name v).
Proof. intros w. by exists tt. Qed.

Lemma returns_writeLocal_if_local name v :
  returns (StorageManager.writeLocal_if_local name v).
Proof.
  intros w. exists tt. unfold StorageManager.writeLocal_if_local. js_unfold.
  by destruct (useLocalStorage (this w)).
Qed.

Lemma returns_import_field data k set :
  data <> VNull -> data <> VUndef ->
  (forall v, returns (set v)) ->
  returns (StorageManager.import_field data k set).
Proof.
  intros Hn Hu Hset. unfold StorageManager.import_field.
  apply returns_bind.
  - intros w. destruct data; try done; by eexists.
  - intros v. destruct (truthy v); [apply Hset | apply returns_ret].
Qed.

Lemma import_only_at_refl w : import_only_at w w.
Proof. by split. Qed.

Lemma import_only_at_trans w1 w2 w3 :
  import_only_at w3 w2 -> import_only_at w2 w1 -> import_only_at w3 w1.
Proof.
  intros [Ht Hs] [Ht' Hs']. split; [congruence|].
  intros key Hb Hu. rewrite Hs, Hs'; try done.
  all: unfold key_of; by rewrite Ht'.
Qed.

Lemma import_only_bind {A B} (c : Js World A) (k : A -> Js World B) w :
  useLocalStorage (this w) = false ->
  import_only_at (c w).2 w ->
  (forall a w1, useLocalStorage (this w1) = false -> import_only_at (k a w1).2 w1) ->
  import_only_at ((c ≫= k) w).2 w.
Proof.
  intros Hmode Hc Hk. js_unfold.
  destruct (c w) as [[a|e] w1]; simpl in *; [|done].
  eapply import_only_at_trans; [apply Hk | done].
  destruct Hc as [Ht _]. by rewrite Ht.
Qed.

Lemma import_only_field data k (set : value -> Js World unit) w :
  (forall v, import_only_at (set v w).2 w) ->
  import_only_at (StorageManager.import_field data k set w).2 w.
Proof.
  intros Hset. unfold StorageManager.import_field. js_unfold.
  destruct (field data k) as [v|e]; [|apply import_only_at_refl].
  destruct (truthy v); [apply Hset | apply import_only_at_refl].
Qed.

Lemma import_only_setter name v w :
  useLocalStorage (this w) = false ->
  import_only_at (StorageManager.writeLocal_if_local name v w).2 w.
Proof.
  intros Hmode. rewrite setter_unchanged_in_remote by done.
  apply import_only_at_refl.
Qed.

Lemma import_only_write name v w :
  name = "breaks" \/ name = "users" ->
  import_only_at (StorageManager.writeLocal name v w).2 w.
Proof.
  intros Hname. rewrite writeLocal_run. split; [done|].
  intros key Hb Hu. cbn. apply lookup_insert_ne. by destruct Hname as [-> | ->].
Qed.

(** X8. [importData] never raises and never sends a request. It returns
    [true] exactly when the text parses to a value that is not [null], and
    when it returns [false] the world is unchanged. In REMOTE mode the only
    keys it can write are those of breaks and users. *)
Theorem importData_is_all_or_nothing t w :
  exists b,
    (StorageManager.importData t w).1 = Ok (VBool b) /\
    (b = false -> (StorageManager.importData t w).2 = w) /\
    (b = true <-> exists data, JSON_parse t = Ok data /\ data <> VNull /\ data <> VUndef) /\
    requests (StorageManager.importData t w).2 = requests w /\
    (useLocalStorage (this w) = false ->
     forall key, key <> key_of w "breaks" -> key <> key_of w "users" ->
       localStorage (StorageManager.importData t w).2 !! key
       = localStorage w !! key).
Proof.
  pose proof (store_only_importData t w) as (_ & _ & _ & Hrequests).
  set (body data :=
         StorageManager.import_field data "faculty" StorageManager.setFaculty;;
         StorageManager.import_field data "rooms" StorageManager.setRooms;;
         StorageManager.import_field data "subjects" StorageManager.setSubjects;;
         StorageManager.import_field data "breaks" StorageManager.setBreaks;;
         StorageManager.import_field data "leaveRequests"
           StorageManager.setLeaveRequests;;
         StorageManager.import_field data "users" StorageManager.setUsers;;
         (mret (VBool true) : Js World value)).
  assert (Hrun : StorageManager.importData t w
            = match JSON_parse t with
              | Ok data =>
                  match body data w with
                  | (Ok v, w') => (Ok v, w')
                  | (Throw _, w') => (Ok (VBool false), w')
                  end
              | Throw _ => (Ok (VBool false), w)
              end).
  { unfold StorageManager.importData, body. unfold try_catch.
    unfold mbind at 1. unfold Js_bind at 1. unfold lift at 1.
    destruct (JSON_parse t) as [data|e]; [|done].
    match goal with
    | |- context [let (_, _) := ?c in _] => by destruct c as [[v|e] w']
    end. }
  assert (Hremote : forall data, useLocalStorage (this w) = false ->
            import_only_at (body data w).2 w).
  { intros data Hmode. unfold body.
    repeat (apply import_only_bind; [done| |intros _ ? ?]);
      first [ apply import_only_field; intros v;
              first [ by apply import_only_setter
                    | apply import_only_write; first [by left | by right] ]
            | apply import_only_at_refl ]. }
  destruct (JSON_parse t) as [data|e] eqn:Hparse.
  - assert (Hcase : (data = VNull \/ data = VUndef) \/
                    ~ (data = VNull \/ data = VUndef)).
    { destruct data; first [by left; left | by left; right | right; intros [|]; done]. }
    destruct Hcase as [Hnull|Hdata].
    + exists false. rewrite Hrun.
      assert (Hbody : body data w = ((body data w).1, w) /\ exists e, (body data w).1 = Throw e).
      { destruct Hnull as [-> | ->]; unfold body, StorageManager.import_field;
          js_unfold; cbn; (split; [done | by eexists]). }
      destruct Hbody as [Hw [e He]]. rewrite Hw, He. cbn.
      split; [done|]. split; [done|]. split.
      * split; [done|]. intros (d & [= <-] & ? & ?). by destruct Hnull.
      * split; [by rewrite Hrun, Hw, He in Hrequests|]. done.
    + exists true.
      assert (Hok : exists v, (body data w).1 = Ok v).
      { unfold body.
        repeat (apply returns_bind;
                [apply returns_import_field;
                   [tauto | tauto | intros;
                      first [apply returns_writeLocal_if_local
                            | apply returns_writeLocal]]
                | intros _]).
        apply returns_ret. }
      destruct Hok as [v Hv].
      assert (v = VBool true) as ->.
      { revert Hv. unfold body. js_unfold.
        repeat match goal with
               | |- context [match ?c w with _ => _ end] =>
                   destruct (c w) as [[[]|?] ?]; cbn; try done
               | |- context [match ?c ?w0 with _ => _ end] =>
                   destruct (c w0) as [[[]|?] ?]; cbn; try done
               end.
        all: by intros [= <-]. }
      rewrite Hrun in *. specialize (Hremote data).
      destruct (body data w) as [[v'|e] w'] eqn:Hbody; cbn in *; [|done].
      injection Hv as ->.
      split; [done|]. split; [done|]. split.
      * split; [|done]. intros _. exists data. repeat split; tauto.
      * split; [done|]. intros Hmode. by apply Hremote.
  - exists false. rewrite Hrun in *. cbn.
    split; [done|]. split; [done|]. split; [|done].
    split; [done|]. by intros (d & [=] & _).
Qed.

Lemma importData_is_all_or_nothing_witness :
  let w := local_world {["timetable_faculty" := TJson (VArr [])]} in
  (StorageManager.importData (TRaw "not json") w).2 = w.
Proof.
  cbv zeta.
  destruct (importData_is_all_or_nothing (TRaw "not json")
              (local_world {["timetable_faculty" := TJson (VArr [])]}))
    as ([|] & Hres & Hfalse & _).
  - discriminate Hres.
  - by apply Hfalse.
Defined.

(** ** Authentication *)

Lemma find_user_sound u p r us x :
  StorageManager.find_user u p r us = Ok x ->
  x = VUndef \/ (x ∈ us /\ credentials_match u p r x).
Proof.
  induction us as [|y us IH]; simpl; [intros [= <-]; by left|].
  destruct (field y "username") as [n|] eqn:Hn; [|done].
  destruct (strict_eq n u) eqn:Hnu.
  - destruct (field y "password") as [pw|] eqn:Hpw; [|done].
    destruct (strict_eq pw p) eqn:Hpp.
    + destruct (field y "role") as [ro|] eqn:Hro; [|done].
      destruct (strict_eq ro r) eqn:Hrr.
      * intros [= <-]. right. split; [by left|]. by exists n, pw, ro.
      * intros H. destruct (IH H) as [|[? ?]]; [by left|right; split; [by right|done]].
    + intros H. destruct (IH H) as [|[? ?]]; [by left|right; split; [by right|done]].
  - intros H. destruct (IH H) as [|[? ?]]; [by left|right; split; [by right|done]].
Qed.

(** X9. In REMOTE mode with the API available, [authenticateUser] returns
    what the gateway's login returns when it succeeds, and when it raises
    the error is dropped and the stored users are checked instead; in LOCAL
    mode, or with the API unavailable, only the stored users are checked.
    A user returned from the stored users comes from a stored record that
    carries the three credentials presented, and has the five fields [id],
    [username], [role], [name], [email]: never the password. *)
Theorem authenticateUser_falls_back_to_stored_users u p r w :
  let attempt := StorageManager.on_apiClient (APIClient.login u p r) w in
  (useLocalStorage (this w) = false -> apiAvailable (this w) = true ->
   forall user, attempt.1 = Ok user ->
     StorageManager.authenticateUser u p r w = (Ok user, attempt.2)) /\
  (useLocalStorage (this w) = false -> apiAvailable (this w) = true ->
   forall e, attempt.1 = Throw e ->
     StorageManager.authenticateUser u p r w
     = StorageManager.authenticateLocally u p r attempt.2) /\
  (useLocalStorage (this w) = true \/ apiAvailable (this w) = false ->
   StorageManager.authenticateUser u p r w
   = StorageManager.authenticateLocally u p r w) /\
  (forall w' user,
     (StorageManager.authenticateLocally u p r w').1 = Ok user ->
     exists us x id username role name email,
       (StorageManager.getUsers w').1 = Ok (VArr us) /\
       x ∈ us /\ credentials_match u p r x /\
       field x "id" = Ok id /\ field x "username" = Ok username /\
       field x "role" = Ok role /\ field x "name" = Ok name /\
       field x "email" = Ok email /\
       user = VObj [("id", id); ("username", username); ("role", role);
                    ("name", name); ("email", email)]).
Proof.
  cbv zeta.
  assert (Hrun : StorageManager.authenticateUser u p r w
            = if negb (useLocalStorage (this w)) && apiAvailable (this w)
              then match StorageManager.on_apiClient (APIClient.login u p r) w with
                   | (Ok user, w1) => (Ok user, w1)
                   | (Throw _, w1) => StorageManager.authenticateLocally u p r w1
                   end
              else StorageManager.authenticateLocally u p r w).
  { unfold StorageManager.authenticateUser.
    unfold mbind, Js_bind, gets, try_catch, mret, Js_ret.
    destruct (negb _ && _); [|done].
    by destruct (StorageManager.on_apiClient _ w) as [[user|e] w1]. }
  rewrite Hrun. split; [|split; [|split]].
  - intros -> -> user. cbn.
    destruct (StorageManager.on_apiClient _ w) as [[user'|e] w1]; cbn; congruence.
  - intros -> -> e. cbn.
    destruct (StorageManager.on_apiClient _ w) as [[user'|e'] w1]; cbn; congruence.
  - intros [-> | ->]; [done|]. by rewrite andb_false_r.
  - intros w' user. unfold StorageManager.authenticateLocally.
    unfold StorageManager.getUsers. js_unfold. rewrite readLocal_run. cbn.
    destruct (StorageManager.parse_or _ _) as [users|e]; [|done]. cbn.
    destruct (StorageManager.array_find_user users u p r) as [found|e] eqn:Hfind;
      [|done].
    cbn. destruct (truthy found) eqn:Htruthy; [|done].
    destruct users as [| | | | |us|]; try done. cbn in Hfind.
    destruct (find_user_sound _ _ _ _ _ Hfind) as [-> | [Hin Hmatch]]; [done|].
    destruct (field found "id") as [id|] eqn:Hid; cbn; [|done].
    destruct (field found "username") as [un|] eqn:Hun; cbn; [|done].
    destruct (field found "role") as [ro|] eqn:Hro; cbn; [|done].
    destruct (field found "name") as [na|] eqn:Hna; cbn; [|done].
    destruct (field found "email") as [em|] eqn:Hem; cbn; [|done].
    intros [= <-]. by exists us, found, id, un, ro, na, em.
Qed.

Lemma authenticateUser_falls_back_to_stored_users_witness :
  let w := remote_world (answering (NetworkError "Failed to fetch")) ∅ in
  (StorageManager.authenticateUser (VStr "admin") (VStr "admin123") (VStr "admin") w).1
  = Ok (VObj [("id", VNum 1); ("username", VStr "admin"); ("role", VStr "admin");
              ("name", VStr "System Administrator");
              ("email", VStr "admin@college.edu")]).
Proof.
  cbv zeta.
  rewrite (proj1 (proj2 (authenticateUser_falls_back_to_stored_users
                           (VStr "admin") (VStr "admin123") (VStr "admin")
                           (remote_world (answering (NetworkError "Failed to fetch")) ∅)))
             ltac:(reflexivity) ltac:(reflexivity) (Exn TypeError "Failed to fetch")
             ltac:(reflexivity)).
  reflexivity.
Defined.

(** ** Clearing the store *)

Lemma forEach_removeItem keys w :
  StorageManager.forEach StorageManager.removeItem keys w
  = (Ok tt, set_localStorage (fun m => foldl (fun m k => delete k m) m keys) w).
Proof.
  revert w. induction keys as [|k keys IH]; intros w; simpl.
  - by destruct w.
  - unfold mbind, Js_bind, StorageManager.removeItem, modify. rewrite IH.
    by destruct w.
Qed.

Lemma lookup_foldl_delete (m : gmap string text) keys k :
  foldl (fun m k => delete k m) m keys !! k
  = if bool_decide (k ∈ keys) then None else m !! k.
Proof.
  revert m. induction keys as [|k0 keys IH]; intros m; simpl; [done|].
  rewrite IH. destruct (decide (k = k0)) as [->|Hne].
  - rewrite lookup_delete_eq. rewrite (bool_decide_eq_true_2 (k0 ∈ k0 :: keys)).
    + by destruct (bool_decide _).
    + by left.
  - rewrite lookup_delete_ne by done.
    destruct (bool_decide (k ∈ keys)) eqn:Hin.
    + apply bool_decide_eq_true in Hin.
      rewrite bool_decide_eq_true_2; [done|by right].
    + apply bool_decide_eq_false in Hin.
      rewrite bool_decide_eq_false_2; [done|].
      intros [?|?]%elem_of_cons; done.
Qed.

Lemma prefix_app p s : String.prefix p (p ++ s) = true.
Proof.
  induction p as [|c p IH]; simpl; [by destruct s|].
  destruct (Ascii.ascii_dec c c); done.
Qed.

Lemma clearAll_run w :
  StorageManager.clearAll w
  = (Ok tt,
     set_localStorage
       (fun m =>
          seeded (localStoragePrefix (this w)) StorageManager.defaultData
            (foldl (fun m k => delete k m) m
               (List.filter (cleared (localStoragePrefix (this w)))
                  (map_to_list m).*1))) w).
Proof.
  unfold StorageManager.clearAll. unfold mbind, Js_bind, gets.
  fold (cleared (localStoragePrefix (this w))).
  rewrite forEach_removeItem. rewrite initLocalStorage_run.
  by destruct w.
Qed.

Lemma lookup_cleared (m : gmap string text) p k :
  foldl (fun m k => delete k m) m (List.filter (cleared p) (map_to_list m).*1) !! k
  = if cleared p k then None else m !! k.
Proof.
  rewrite lookup_foldl_delete.
  destruct (cleared p k) eqn:Hk.
  - destruct (m !! k) as [t|] eqn:Hm.
    + rewrite bool_decide_eq_true_2; [done|].
      apply list_elem_of_In, filter_In. split; [|done].
      apply list_elem_of_In, list_elem_of_fmap. exists (k, t).
      split; [done|]. by apply elem_of_map_to_list.
    + by destruct (bool_decide _).
  - rewrite bool_decide_eq_false_2; [done|].
    intros Hin%list_elem_of_In%filter_In. destruct Hin as [_ Hc]. congruence.
Qed.

(** X10. [clearAll] returns normally; afterwards each of the six keys of
    [defaultData] holds its default whatever it held before, every other
    key that starts with the prefix or is [currentUser] is absent, and every
    key that neither starts with the prefix nor is [currentUser] holds what
    it held. *)
Theorem clearAll_resets_to_defaults w :
  let prefix := localStoragePrefix (this w) in
  let after := localStorage (StorageManager.clearAll w).2 in
  (StorageManager.clearAll w).1 = Ok tt /\
  (forall name dflt, (name, dflt) ∈ StorageManager.defaultData ->
     after !! (prefix ++ name) = Some (JSON_stringify dflt)) /\
  (forall key, cleared prefix key = true ->
     (forall entry, entry ∈ StorageManager.defaultData -> key <> prefix ++ entry.1) ->
     after !! key = None) /\
  (forall key, cleared prefix key = false ->
     after !! key = localStorage w !! key).
Proof.
  cbv zeta. rewrite clearAll_run. cbn [fst snd].
  unfold set_localStorage. cbn [localStorage].
  split; [done|]. split; [|split].
  - intros name dflt Hin.
    rewrite (seeded_entry _ _ _ name dflt defaultData_names_NoDup Hin).
    rewrite lookup_cleared. unfold cleared. by rewrite prefix_app.
  - intros key Hkey Hne. rewrite seeded_other by done.
    rewrite lookup_cleared. by rewrite Hkey.
  - intros key Hkey. rewrite seeded_other.
    + rewrite lookup_cleared. by rewrite Hkey.
    + intros entry _ ->. unfold cleared in Hkey. by rewrite prefix_app in Hkey.
Qed.

Lemma clearAll_resets_to_defaults_witness :
  let w := local_world {["timetable_practicals" := TJson (VArr [VObj []]);
                         "theme" := TRaw "dark"]} in
  localStorage (StorageManager.clearAll w).2 !! "timetable_practicals" = None /\
  localStorage (StorageManager.clearAll w).2 !! "theme" = Some (TRaw "dark").
Proof.
  cbv zeta.
  destruct (clearAll_resets_to_defaults
              (local_world {["timetable_practicals" := TJson (VArr [VObj []]);
                             "theme" := TRaw "dark"]}))
    as (_ & _ & Hgone & Hkept).
  split.
  - apply Hgone; [reflexivity|].
    intros entry Hin.
    repeat (apply elem_of_cons in Hin as [-> | Hin]; [discriminate|]).
    by apply elem_of_nil in Hin.
  - rewrite Hkept; reflexivity.
Defined.

(** ** Writing then reading a key *)

Lemma write_then_read name dflt v w :
  (StorageManager.readLocal name dflt (StorageManager.writeLocal name v w).2).1
  = match v with
    | VUndef => Throw (Exn SyntaxError "Unexpected token in JSON: undefined")
    | _ => Ok (jsonify v)
    end.
Proof.
  rewrite writeLocal_run, readLocal_run. cbn [fst snd].
  change (key_of (set_localStorage _ w)) with (key_of w).
  unfold set_localStorage. cbn [localStorage]. rewrite lookup_insert_eq.
  by destruct v.
Qed.

(** X11. Reading a key just after setting it gives back the value as JSON
    keeps it (undefined properties dropped), for breaks, practicals, users
    and the current user, and in LOCAL mode for every fetched entity; but
    after setting [undefined] the read raises a SyntaxError, since the text
    stored is not JSON. *)
Theorem set_then_get_round_trip v w :
  let expected :=
    match v with
    | VUndef => Throw (Exn SyntaxError "Unexpected token in JSON: undefined")
    | _ => Ok (jsonify v)
    end in
  (StorageManager.getBreaks (StorageManager.setBreaks v w).2).1 = expected /\
  (StorageManager.getPracticals (StorageManager.setPracticals v w).2).1 = expected /\
  (StorageManager.getUsers (StorageManager.setUsers v w).2).1 = expected /\
  (StorageManager.getCurrentUser (StorageManager.setCurrentUser v w).2).1 = expected /\
  (useLocalStorage (this w) = true -> initialized (this w) = true ->
   forall f, (get_fetched f (set_fetched f v w).2).1 = expected).
Proof.
  cbv zeta. split; [apply write_then_read|]. split; [apply write_then_read|].
  split; [apply write_then_read|]. split.
  - unfold StorageManager.getCurrentUser, StorageManager.setCurrentUser,
      getItem, setItem. js_unfold. cbn. rewrite lookup_insert_eq. by destruct v.
  - intros Hmode Hinit f.
    assert (Hset : forall name, StorageManager.writeLocal_if_local name v w
                     = StorageManager.writeLocal name v w).
    { intros name. by apply local_setter. }
    assert (Hget : forall name dflt remote w',
              this w' = this w ->
              StorageManager.get_entity name dflt remote w'
              = StorageManager.readLocal name dflt w').
    { intros name dflt remote w' Hthis. unfold StorageManager.get_entity.
      unfold mbind at 1. unfold Js_bind at 1.
      rewrite initialized_guard by by rewrite Hthis.
      unfold mbind, Js_bind, gets. by rewrite Hthis, Hmode. }
    destruct f; cbn [get_fetched set_fetched];
      unfold StorageManager.getFaculty, StorageManager.getRooms,
        StorageManager.getSubjects, StorageManager.getLeaveRequests,
        StorageManager.getTimetable, StorageManager.setFaculty,
        StorageManager.setRooms, StorageManager.setSubjects,
        StorageManager.setLeaveRequests, StorageManager.setTimetable;
      rewrite Hset, Hget by (by rewrite writeLocal_run);
      apply write_then_read.
Qed.

Lemma set_then_get_round_trip_witness :
  (get_fetched FTimetable
     (set_fetched FTimetable (VObj [("Monday", VObj [("9:00-10:00", VUndef)])])
        (local_world ∅)).2).1
  = Ok (VObj [("Monday", VObj [])]).
Proof.
  apply (proj2 (proj2 (proj2 (proj2 (set_then_get_round_trip
           (VObj [("Monday", VObj [("9:00-10:00", VUndef)])]) (local_world ∅)))))
           ltac:(reflexivity) ltac:(reflexivity) FTimetable).
Defined.

(** ** One request per call *)

Lemma fetch_run u o w :
  APIClient.fetch u o w
  = (match fetchAnswer (env w) (length (requests w)) (APIClient.request_of u o) with
     | NetworkError msg => Throw (Exn TypeError msg)
     | Response st j => Ok (st, j)
     end, sent (APIClient.request_of u o) w).
Proof. unfold APIClient.fetch. by destruct (fetchAnswer _ _ _). Qed.

Lemma idle_ret {A} (a : A) : idle (mret a : Js World A).
Proof. done. Qed.

Lemma idle_throw {A} e : idle (@throw World A e).
Proof. done. Qed.

Lemma idle_lift {A} (r : outcome A) : idle (lift r : Js World A).
Proof. done. Qed.

Lemma idle_bind {A B} (c : Js World A) (k : A -> Js World B) :
  idle c -> (forall a, idle (k a)) -> idle (c ≫= k).
Proof.
  intros Hc Hk w. js_unfold. specialize (Hc w).
  destruct (c w) as [[a|e] w1]; simpl in *; [|done]. subst. apply Hk.
Qed.

Ltac idle_tac :=
  repeat first
    [ progress intros
    | apply idle_bind
    | apply idle_ret
    | apply idle_throw
    | apply idle_lift
    | match goal with
      | |- idle (let '(_, _) := ?p in _) => destruct p
      | |- idle (if ?b then _ else _) => destruct b
      | |- idle (match ?x with _ => _ end) => destruct x
      end ].

Lemma after_fetch_caught {A} u o (k : Z * outcome value -> Js World A) h w :
  (forall a, idle (k a)) -> (forall e, idle (h e)) ->
  (try_catch (APIClient.fetch u o ≫= k) h w).2 = sent (APIClient.request_of u o) w.
Proof.
  intros Hk Hh. unfold try_catch, mbind, Js_bind. rewrite fetch_run.
  destruct (fetchAnswer _ _ _) as [msg|st j]; [apply Hh|].
  pose proof (Hk (st, j) (sent (APIClient.request_of u o) w)) as Hw.
  destruct (k (st, j) _) as [[a|e] w1]; cbn in *; [done|].
  subst. apply Hh.
Qed.

Lemma makeRequest_world endpoint options w :
  (APIClient.makeRequest endpoint options w).2
  = sent (APIClient.request_of (APIClient.baseURL ++ endpoint) options) w.
Proof.
  unfold APIClient.makeRequest. apply after_fetch_caught; idle_tac.
Qed.

Lemma healthCheck_world w : (APIClient.healthCheck w).2 = sent health_request w.
Proof.
  unfold APIClient.healthCheck. apply after_fetch_caught; idle_tac.
Qed.

Lemma login_world u p r w :
  (APIClient.login u p r w).2
  = sent (APIClient.request_of (APIClient.baseURL ++ "/auth/login")
            (APIClient.with_body "POST"
               (VObj [("username", u); ("password", p); ("role", r)]))) w.
Proof.
  unfold APIClient.login. apply after_fetch_caught; idle_tac.
Qed.

Lemma healthCheck_returns w : exists b, (APIClient.healthCheck w).1 = Ok b.
Proof.
  unfold APIClient.healthCheck, try_catch.
  match goal with
  | |- exists b, (let (_, _) := ?c w in _).1 = _ =>
      destruct (c w) as [[b|?] ?]; by eexists
  end.
Qed.

(** X12. [healthCheck] never raises and sends exactly one request; it
    answers [true] exactly when the response has a JSON body whose [status]
    is ["healthy"], whatever the HTTP status code. *)
Theorem healthCheck_reads_only_the_body_status w :
  (APIClient.healthCheck w).2 = sent health_request w /\
  exists b,
    (APIClient.healthCheck w).1 = Ok b /\
    (b = true <->
     exists st data,
       fetchAnswer (env w) (length (requests w)) health_request
         = Response st (Ok data) /\
       field data "status" = Ok (VStr "healthy")).
Proof.
  split; [apply healthCheck_world|].
  unfold APIClient.healthCheck, try_catch. unfold mbind at 1. unfold Js_bind at 1.
  rewrite fetch_run. fold health_request.
  destruct (fetchAnswer _ _ health_request) as [msg|st [data|]]; cbn.
  - exists false. split; [done|]. split; [done|]. by intros (? & ? & ? & _).
  - js_unfold. cbn.
    destruct (field data "status") as [status|e] eqn:Hstatus; cbn.
    + exists (strict_eq status (VStr "healthy")). split; [done|]. split.
      * intros Heq. exists st, data. split; [done|].
        destruct status; try done. cbn in Heq.
        apply String.eqb_eq in Heq. by subst.
      * intros (st' & data' & [= <- <-] & Hs). rewrite Hstatus in Hs.
        injection Hs as ->. reflexivity.
    + exists false. split; [done|]. split; [done|].
      intros (st' & data' & [= <- <-] & Hs). congruence.
  - exists false. split; [done|]. split; [done|]. by intros (? & ? & ? & _).
Qed.

(** X13. [makeRequest], [login], [addFaculty] and [getTimetable] each send
    exactly one request and change nothing else in the world, whether they
    return or raise: there is no retry, and a failed request is on the log
    like a successful one. *)
Theorem gateway_calls_send_exactly_one_request endpoint options u p r d w :
  (APIClient.makeRequest endpoint options w).2
    = sent (APIClient.request_of (APIClient.baseURL ++ endpoint) options) w /\
  (APIClient.login u p r w).2
    = sent (APIClient.request_of (APIClient.baseURL ++ "/auth/login")
              (APIClient.with_body "POST"
                 (VObj [("username", u); ("password", p); ("role", r)]))) w /\
  (APIClient.addFaculty d w).2
    = sent (APIClient.request_of (APIClient.baseURL ++ "/faculty")
              (APIClient.with_body "POST" d)) w /\
  (APIClient.getTimetable w).2
    = sent (APIClient.request_of (APIClient.baseURL ++ "/timetable")
              APIClient.no_options) w.
Proof.
  split; [apply makeRequest_world|]. split; [apply login_world|]. split.
  - unfold APIClient.addFaculty, mbind, Js_bind.
    pose proof (makeRequest_world "/faculty" (APIClient.with_body "POST" d) w) as H.
    by destruct (APIClient.makeRequest _ _ w) as [[?|?] ?].
  - unfold APIClient.getTimetable, try_catch, mbind, Js_bind.
    pose proof (makeRequest_world "/timetable" APIClient.no_options w) as H.
    destruct (APIClient.makeRequest _ _ w) as [[?|e] ?]; cbn in *; [done|].
    by destruct (includes _ _).
Qed.

(** ** More on arbitration *)

Section Readiness.

Local Open Scope nat_scope.

Lemma wait_initialized_never ceiling interval attempts w :
  (forall t, apiClientAt (env w) t = Some false) ->
  StorageManager.wait_initialized ceiling interval attempts w
  = (Ok (Nat.max attempts ceiling), later ((ceiling - attempts) * interval) w).
Proof.
  funelim (StorageManager.wait_initialized ceiling interval attempts w);
    intros Hnever.
  - unfold window_apiClient in *. rewrite Hnever in *. discriminate.
  - unfold window_apiClient in *. rewrite Hnever in *. discriminate.
  - rewrite H by done.
    change (set_clock (fun t => t + interval) w) with (later interval w).
    rewrite later_later. f_equal; [f_equal; lia|].
    f_equal. replace (ceiling - attempts) with (S (ceiling - S attempts)) by lia.
    simpl. lia.
  - replace (ceiling - attempts) with 0 by lia. rewrite later_0.
    f_equal. f_equal. lia.
Qed.

(** X14. When the gateway object is there and initialised, the readiness
    wait returns at once without sleeping. When it is there but never
    becomes initialised, the wait sleeps [2 * maxAttempts] intervals and
    then returns normally all the same, so that [init] goes on to the
    probe. *)
Theorem readiness_wait_by_cases maxAttempts interval w :
  (window_apiClient w = Some true ->
   StorageManager.waitForAPIClient maxAttempts interval w = (Ok tt, w)) /\
  ((forall t, apiClientAt (env w) t = Some false) ->
   StorageManager.waitForAPIClient maxAttempts interval w
   = (Ok tt, later (2 * maxAttempts * interval) w)).
Proof.
  split.
  - intros Hready. unfold StorageManager.waitForAPIClient. js_unfold.
    assert (Hp : StorageManager.wait_present maxAttempts interval 0 w = (Ok 0, w)).
    { simp wait_present. destruct (decide (0 < maxAttempts)); simpl; [|done].
      by rewrite Hready. }
    rewrite Hp, Hready. simp wait_initialized. by rewrite Hready.
  - intros Hnever. unfold StorageManager.waitForAPIClient. js_unfold.
    assert (Hw : window_apiClient w = Some false) by apply Hnever.
    assert (Hp : StorageManager.wait_present maxAttempts interval 0 w = (Ok 0, w)).
    { simp wait_present. destruct (decide (0 < maxAttempts)); simpl; [|done].
      by rewrite Hw. }
    rewrite Hp, Hw. rewrite wait_initialized_never by done.
    cbn. f_equal. f_equal. lia.
Qed.

Lemma readiness_wait_by_cases_witness :
  StorageManager.waitForAPIClient 50 100
    (start (answering (NetworkError "Failed to fetch")))
  = (Ok tt, start (answering (NetworkError "Failed to fetch"))).
Proof.
  apply (proj1 (readiness_wait_by_cases 50 100
                  (start (answering (NetworkError "Failed to fetch"))))).
  reflexivity.
Defined.

End Readiness.

(** X15. When the readiness wait returns and the probe answers healthy,
    [init] returns normally in REMOTE mode with [apiAvailable] and
    [initialized] set, leaves the Durable Local Store as it was (nothing is
    seeded), and has sent the probe and no other request. *)
Theorem healthy_probe_resolves_to_remote w :
  (StorageManager.waitForAPIClient 50 100 w).1 = Ok tt ->
  probe w = Ok true ->
  (StorageManager.init w).1 = Ok tt /\
  useLocalStorage (this (StorageManager.init w).2) = false /\
  apiAvailable (this (StorageManager.init w).2) = true /\
  initialized (this (StorageManager.init w).2) = true /\
  localStorage (StorageManager.init w).2 = localStorage w /\
  requests (StorageManager.init w).2 = (requests w ++ [health_request])%list.
Proof.
  intros Hwait Hprobe.
  set (res := StorageManager.init w).
  assert (Hres : res = StorageManager.init w) by done. clearbody res.
  unfold probe in Hprobe. unfold StorageManager.init in Hres.
  unfold mbind, Js_bind, try_catch in Hres.
  destruct (StorageManager.waitForAPIClient 50 100 w) as [[[]|e] w1] eqn:Hrun;
    [|done].
  destruct (waitForAPIClient_run 50 100 w) as (k & r & Hrun' & _).
  rewrite Hrun in Hrun'. injection Hrun' as _ ->. cbn [snd] in Hprobe.
  unfold StorageManager.on_apiClient in Hprobe, Hres.
  destruct (window_apiClient (later (k * 100) w)); [|done].
  pose proof (healthCheck_world (later (k * 100) w)) as Hworld.
  destruct (APIClient.healthCheck (later (k * 100) w)) as [[healthy|e] w2];
    cbn in Hprobe, Hworld; [|done].
  injection Hprobe as ->. subst w2 res. cbn. done.
Qed.

Lemma healthy_probe_resolves_to_remote_witness :
  let w := start healthy_then_down in
  useLocalStorage (this (StorageManager.init w).2) = false /\
  requests (StorageManager.init w).2 = [health_request].
Proof.
  cbv zeta.
  destruct (healthy_probe_resolves_to_remote (start healthy_then_down))
    as (_ & Hmode & _ & _ & _ & Hrequests).
  - reflexivity.
  - reflexivity.
  - split; [exact Hmode | exact Hrequests].
Defined.

(** ** A timetable that does not exist yet *)

(** X16. In REMOTE mode, when the request for the timetable raises an error
    whose message contains ["not found"], [getTimetable] returns [null]: it
    neither raises nor falls back to the timetable kept in the Durable Local
    Store, which it leaves as it was. *)
Theorem missing_timetable_reads_as_null w e :
  initialized (this w) = true ->
  useLocalStorage (this w) = false ->
  is_Some (window_apiClient w) ->
  (APIClient.makeRequest "/timetable" APIClient.no_options w).1 = Throw e ->
  includes "not found" (message e) = true ->
  (StorageManager.getTimetable w).1 = Ok VNull /\
  localStorage (StorageManager.getTimetable w).2 = localStorage w.
Proof.
  intros Hinit Hmode [b Hclient] Hraise Hmsg.
  pose proof (get_entity_by_mode "timetable" VNull APIClient.getTimetable w
                gateway_only_getTimetable Hinit) as [_ Hframe].
  destruct (Hframe Hmode) as (_ & _ & Hstore & _).
  split; [|exact Hstore].
  unfold StorageManager.getTimetable, StorageManager.get_entity.
  unfold mbind at 1. unfold Js_bind at 1. rewrite (initialized_guard _ Hinit).
  unfold mbind, Js_bind, gets. rewrite Hmode.
  unfold try_catch at 1, StorageManager.on_apiClient. rewrite Hclient.
  unfold APIClient.getTimetable, try_catch, mbind, Js_bind.
  destruct (APIClient.makeRequest "/timetable" APIClient.no_options w)
    as [[v|e'] w1]; cbn [fst snd] in *; [done|].
  injection Hraise as ->. by rewrite Hmsg.
Qed.

Lemma missing_timetable_reads_as_null_witness :
  let w := remote_world
             (answering (Response 404 (Ok (VObj [("error", VStr "Timetable not found")]))))
             {["timetable_timetable" := TJson (VObj [("Monday", VObj [])])]} in
  (StorageManager.getTimetable w).1 = Ok VNull.
Proof.
  cbv zeta.
  refine (proj1 (missing_timetable_reads_as_null
            (remote_world
               (answering (Response 404 (Ok (VObj [("error", VStr "Timetable not found")]))))
               {["timetable_timetable" := TJson (VObj [("Monday", VObj [])])]})
            (Exn Error "Timetable not found") _ _ _ _ _)).
  - reflexivity.
  - reflexivity.
  - by eexists.
  - reflexivity.
  - reflexivity.
Defined.

(** ** Batch imports *)

Lemma add_world endpoint (k : value -> value) x w :
  ((id ← APIClient.makeRequest endpoint (APIClient.with_body "POST" x);
    mret (k id)) w).2 = sent (post_request endpoint x) w.
Proof.
  unfold mbind, Js_bind.
  pose proof (makeRequest_world endpoint (APIClient.with_body "POST" x) w) as H.
  by destruct (APIClient.makeRequest _ _ w) as [[?|?] ?].
Qed.

Lemma import_each_step (add : value -> Js World value) label req x xs results w a :
  (forall x w0, (add x w0).2 = sent (req x) w0) ->
  label x = Ok a ->
  APIClient.import_each add label (x :: xs) results w
  = APIClient.import_each add label xs
      (match (add x w).1 with
       | Ok result => (results ++ [result])%list
       | Throw _ => results
       end) (sent (req x) w).
Proof.
  intros Hadd Hx. simpl.
  unfold mbind at 1. unfold Js_bind at 1. unfold try_catch.
  unfold mbind at 1. unfold Js_bind at 1.
  pose proof (Hadd x w) as Hw.
  destruct (add x w) as [[result|e] w1]; cbn in Hw; subst w1; [done|].
  unfold mbind, Js_bind, lift. by rewrite Hx.
Qed.

Lemma posted_nil endpoint w : posted endpoint [] w = w.
Proof. destruct w. unfold posted, set_requests. cbn. by rewrite app_nil_r. Qed.

Lemma sent_posted endpoint pre x w :
  sent (post_request endpoint x) (posted endpoint pre w)
  = posted endpoint (pre ++ [x]) w.
Proof.
  unfold sent, posted, set_requests. cbn. by rewrite map_app, app_assoc.
Qed.

(** The loop of a batch import, started when the requests of the elements
    [pre] have been sent. *)
Lemma import_each_posted endpoint label pre xs results w :
  Forall (fun x => exists a, label x = Ok a) xs ->
  APIClient.import_each
    (fun x =>
       id ← APIClient.makeRequest endpoint (APIClient.with_body "POST" x);
       mret (VObj (spread [("id", id)] x)))
    label xs results (posted endpoint pre w)
  = (Ok (results ++
         omap id (imap (fun i => imported endpoint (pre ++ xs) w (length pre + i)%nat)
                    xs))%list,
     posted endpoint (pre ++ xs) w).
Proof.
  intros Hlabel. revert pre results.
  induction Hlabel as [|x xs [a Hx] _ IH]; intros pre results.
  - cbn. by rewrite !app_nil_r.
  - rewrite (import_each_step _ label (post_request endpoint) x xs results _ a);
      [|intros x0 w0; apply (add_world endpoint (fun id => VObj (spread [("id", id)] x0)))
       |exact Hx].
    rewrite sent_posted, IH. rewrite <- app_assoc. cbn [app].
    rewrite imap_cons. cbn [omap list_omap].
    unfold imported at 2. rewrite Nat.add_0_r, take_app_length.
    rewrite (imap_ext (fun i => imported endpoint (pre ++ x :: xs) w
                                  (length (pre ++ [x]) + i)%nat)
                      ((fun i => imported endpoint (pre ++ x :: xs) w
                                   (length pre + i)%nat) ∘ S));
      [|intros i y _; cbn; rewrite length_app; cbn; f_equal; lia].
    unfold mbind, Js_bind.
    destruct (APIClient.makeRequest endpoint (APIClient.with_body "POST" x)
                (posted endpoint pre w)) as [[rid|e] w1]; cbn [fst].
    + unfold mret, Js_ret. cbn. by rewrite <- app_assoc.
    + done.
Qed.

Lemma records_labelled k xs :
  records xs -> Forall (fun x => exists a, field x k = Ok a) xs.
Proof.
  intros H. eapply Forall_impl; [exact H|].
  intros x [fid Hx]. destruct x; try done; by eexists.
Qed.

Lemma batch_run endpoint xs w :
  records xs ->
  (ys ← lift (APIClient.iterate (VArr xs));
   results ← APIClient.import_each
               (fun x =>
                  id ← APIClient.makeRequest endpoint (APIClient.with_body "POST" x);
                  mret (VObj (spread [("id", id)] x)))
               (fun x => field x "name") ys [];
   mret (VArr results)) w
  = (Ok (VArr (imported_all endpoint xs w)), posted endpoint xs w).
Proof.
  intros Hrecords.
  unfold mbind at 1. unfold Js_bind at 1. unfold lift. cbn [APIClient.iterate].
  unfold mbind at 1. unfold Js_bind at 1.
  rewrite <- (posted_nil endpoint w) at 1.
  rewrite (import_each_posted endpoint _ [] xs [] w
             (records_labelled "name" xs Hrecords)).
  done.
Qed.

(** X17. [importFaculty], [importRooms] and [importSubjects] on an array
    whose elements are neither [null] nor [undefined] never raise: they send
    exactly one creation request per element, in order, and change nothing
    else; they return, in the order of the elements, the record
    [{ id, ...element }] of each element whose request returned [id], and
    skip the elements whose request raised. *)
Theorem batch_import_skips_failures xs w :
  records xs ->
  APIClient.importFaculty (VArr xs) w
  = (Ok (VArr (imported_all "/faculty" xs w)), posted "/faculty" xs w) /\
  APIClient.importRooms (VArr xs) w
  = (Ok (VArr (imported_all "/rooms" xs w)), posted "/rooms" xs w) /\
  APIClient.importSubjects (VArr xs) w
  = (Ok (VArr (imported_all "/subjects" xs w)), posted "/subjects" xs w).
Proof.
  intros Hrecords. split; [|split].
  - by apply (batch_run "/faculty").
  - by apply (batch_run "/rooms").
  - by apply (batch_run "/subjects").
Qed.

Lemma batch_import_skips_failures_witness :
  let a := VObj [("name", VStr "A")] in
  let b := VObj [("name", VStr "B")] in
  let w := start creates_then_down in
  (APIClient.importFaculty (VArr [a; b]) w).1
    = Ok (VArr [VObj [("id", VNum 7); ("name", VStr "A")]]) /\
  requests (APIClient.importFaculty (VArr [a; b]) w).2
    = [post_request "/faculty" a; post_request "/faculty" b].
Proof.
  cbv zeta.
  rewrite (proj1 (batch_import_skips_failures
                    [VObj [("name", VStr "A")]; VObj [("name", VStr "B")]]
                    (start creates_then_down)
                    ltac:(repeat constructor; by eexists))).
  split; reflexivity.
Defined.

(** ** A first session without the gateway *)

(** X18. A first session without a healthy gateway: after [init], an
    [addFaculty] returns the record [{ id: now, ...data }], and [getFaculty]
    then returns the list of that one record as JSON keeps it, without any
    request beyond those of [init]. *)
Theorem first_local_session_add_then_get w now d :
  probe w <> Ok true ->
  text_truthy (localStorage w !! key_of w "faculty") = false ->
  let record := VObj (spread [("id", VNum now)] d) in
  let w1 := (StorageManager.init w).2 in
  let w2 := (StorageManager.addFaculty now d w1).2 in
  (StorageManager.addFaculty now d w1).1 = Ok record /\
  (StorageManager.getFaculty w2).1 = Ok (VArr [jsonify record]) /\
  requests (StorageManager.getFaculty w2).2 = requests (StorageManager.init w).2.
Proof.
  intros Hprobe Hempty record w1 w2.
  destruct (init_cases w) as (_ & Hinit & Hprefix & [(Hhealthy & _) | (_ & Hlocal & Hstore)]);
    [done|].
  fold w1 in Hinit, Hprefix, Hlocal, Hstore.
  assert (Hholds : holds w1 "faculty" []).
  { unfold holds, key_of. rewrite Hstore, Hprefix.
    rewrite (seeded_entry _ _ _ "faculty" (VArr []) defaultData_names_NoDup);
      [|by left].
    unfold key_of in Hempty. by rewrite Hempty. }
  pose proof (add_to_run CFaculty w1 now d [] Hlocal Hholds eq_refl) as Hadd.
  cbn [add_to collection_name app] in Hadd. fold record in Hadd.
  subst w2. rewrite Hadd. cbn [fst snd]. split; [done|].
  set (w2 := set_localStorage _ w1).
  assert (Hget : StorageManager.getFaculty w2
            = StorageManager.readLocal "faculty" (VArr []) w2).
  { unfold StorageManager.getFaculty, StorageManager.get_entity.
    unfold mbind at 1. unfold Js_bind at 1.
    rewrite initialized_guard by done.
    unfold mbind, Js_bind, gets.
    change (this w2) with (this w1). by rewrite Hlocal. }
  rewrite Hget. unfold w2.
  rewrite (holds_read _ _ _ (holds_insert w1 "faculty" _)). done.
Qed.

Lemma first_local_session_add_then_get_witness :
  let w := start (answering (NetworkError "Failed to fetch")) in
  let d := VObj [("name", VStr "A"); ("subject", VStr "Math");
                 ("email", VStr "a@x.com")] in
  (StorageManager.getFaculty
     (StorageManager.addFaculty 1700000000000 d (StorageManager.init w).2).2).1
  = Ok (VArr [VObj [("id", VNum 1700000000000); ("name", VStr "A");
                    ("subject", VStr "Math"); ("email", VStr "a@x.com")]]).
Proof.
  cbv zeta.
  destruct (first_local_session_add_then_get
              (start (answering (NetworkError "Failed to fetch")))
              1700000000000
              (VObj [("name", VStr "A"); ("subject", VStr "Math");
                     ("email", VStr "a@x.com")]))
    as (_ & Hget & _).
  - vm_compute. discriminate.
  - reflexivity.
  - exact Hget.
Defined.

(** ** Requests that succeed in REMOTE mode *)

(** A spread leaves alone the properties that the value spread does not
    have, and writes those it has. *)
Lemma assoc_spread_absent k init v :
  assoc k (own_props v) = None -> assoc k (spread init v) = assoc k init.
Proof.
  unfold spread. generalize (own_props v) as o. intros o. revert init.
  induction o as [|[k0 v0] o IH]; intros init Hk; simpl in *; [done|].
  destruct (String.eqb k k0) eqn:Hk0; [done|].
  rewrite IH by done. by rewrite assoc_obj_set, Hk0.
Qed.

Lemma assoc_absent k (o : list (string * value)) :
  k ∉ o.*1 -> assoc k o = None.
Proof.
  induction o as [|[k0 v0] o IH]; simpl; [done|].
  intros Hk. apply not_elem_of_cons in Hk as [Hne Hk].
  destruct (String.eqb k k0) eqn:Hk0; [|by apply IH].
  by apply String.eqb_eq in Hk0.
Qed.

Lemma assoc_spread_carried k init o x :
  NoDup o.*1 -> assoc k o = Some x ->
  assoc k (spread init (VObj o)) = Some x.
Proof.
  revert init. induction o as [|[k0 v0] o IH]; intros init Hnd Hk; [done|].
  cbn in Hnd. apply NoDup_cons in Hnd as [Hfresh Hnd].
  change (spread init (VObj ((k0, v0) :: o)))
    with (spread (obj_set k0 v0 init) (VObj o)).
  simpl in Hk. destruct (String.eqb k k0) eqn:Hk0.
  - injection Hk as ->. apply String.eqb_eq in Hk0 as ->.
    rewrite (assoc_spread_absent k0 _ (VObj o)) by by apply assoc_absent.
    by rewrite assoc_obj_set, String.eqb_refl.
  - by apply IH.
Qed.

(** X19. In REMOTE mode a getter whose gateway request succeeds returns
    the payload as it is, and an [addFaculty] whose request succeeds returns
    [{ id, ...data }], [id] being what the gateway answered: the data with
    that identifier as its [id] when the data carries no [id], and the data
    with its own [id], which overrides the gateway's, when it carries one.
    Neither touches anything but the request log. *)
Theorem remote_success_passes_through w :
  initialized (this w) = true ->
  useLocalStorage (this w) = false ->
  is_Some (window_apiClient w) ->
  (forall f v,
     (gateway_get f w).1 = Ok v ->
     get_fetched f w = (Ok v, (gateway_get f w).2)) /\
  (forall now d id,
     (APIClient.makeRequest "/faculty" (APIClient.with_body "POST" d) w).1 = Ok id ->
     let record := VObj (spread [("id", id)] d) in
     StorageManager.addFaculty now d w
     = (Ok record, sent (post_request "/faculty" d) w) /\
     (assoc "id" (own_props d) = None -> field record "id" = Ok id) /\
     (forall o own,
        d = VObj o -> NoDup o.*1 -> assoc "id" o = Some own ->
        field record "id" = Ok own)).
Proof.
  intros Hinit Hmode [b Hclient]. split.
  - intros f v Hok.
    assert (Hget : forall name dflt,
              StorageManager.get_entity name dflt (gateway_get f) w
              = (Ok v, (gateway_get f w).2)).
    { intros name dflt. unfold StorageManager.get_entity.
      unfold mbind at 1. unfold Js_bind at 1.
      rewrite (initialized_guard _ Hinit).
      unfold mbind, Js_bind, gets. rewrite Hmode.
      unfold try_catch, StorageManager.on_apiClient. rewrite Hclient.
      destruct (gateway_get f w) as [[v'|e] w1]; cbn in *; congruence. }
    destruct f; apply Hget.
  - intros now d id Hok record. subst record. split; [|split].
    + unfold StorageManager.addFaculty. unfold mbind at 1. unfold Js_bind at 1.
      unfold gets at 1. rewrite Hmode. rewrite remote_branch.
      unfold StorageManager.on_apiClient. rewrite Hclient.
      unfold APIClient.addFaculty, mbind, Js_bind.
      pose proof (makeRequest_world "/faculty" (APIClient.with_body "POST" d) w) as Hw.
      destruct (APIClient.makeRequest _ _ w) as [[id'|e] w1]; cbn in *; [|done].
      injection Hok as ->. by rewrite Hw.
    + intros Hfresh. cbn [field].
      rewrite (assoc_spread_absent "id" _ d Hfresh). done.
    + intros o own -> Hnd Hown. cbn [field].
      by rewrite (assoc_spread_carried "id" _ o own Hnd Hown).
Qed.

Lemma remote_success_passes_through_witness :
  let w := remote_world
             (answering (Response 201
                (Ok (VObj [("success", VBool true); ("data", VNum 7)])))) ∅ in
  (StorageManager.addFaculty 1700000000000 (VObj [("name", VStr "A")]) w).1
    = Ok (VObj [("id", VNum 7); ("name", VStr "A")]) /\
  (StorageManager.addFaculty 1700000000000
     (VObj [("id", VNum 99); ("name", VStr "A")]) w).1
    = Ok (VObj [("id", VNum 99); ("name", VStr "A")]).
Proof.
  cbv zeta. split.
  - rewrite (proj1 (proj2 (remote_success_passes_through
                      (remote_world
                         (answering (Response 201
                            (Ok (VObj [("success", VBool true); ("data", VNum 7)])))) ∅)
                      ltac:(reflexivity) ltac:(reflexivity) ltac:(by eexists))
               1700000000000 (VObj [("name", VStr "A")]) (VNum 7)
               ltac:(reflexivity))).
    reflexivity.
  - rewrite (proj1 (proj2 (remote_success_passes_through
                      (remote_world
                         (answering (Response 201
                            (Ok (VObj [("success", VBool true); ("data", VNum 7)])))) ∅)
                      ltac:(reflexivity) ltac:(reflexivity) ltac:(by eexists))
               1700000000000 (VObj [("id", VNum 99); ("name", VStr "A")]) (VNum 7)
               ltac:(reflexivity))).
    reflexivity.
Defined.
